(** * correlation_structure: run metadata, history ledger, directory layout
      and the phase state machine of one BRER ensemble member.

    The development embeds [run_data.py], [directory_helper.py],
    [run_config.py] and [state.py].  Python objects become records, dictionaries whose
    iteration order is observable become association lists, the parameter
    stores become finite maps, exceptions become the [Raise] branch of
    [result], and everything that touches the disk threads a [world]. *)

From Stdlib Require Import ZArith Ascii String List Lia.
From stdpp Require Import base option list gmap strings pretty sorting.

Set Warnings "-register-all,-clear-no-such-hyp".
Open Scope Z_scope.
Open Scope string_scope.

(** ** Python values, exceptions *)

(** The values that travel through the stores and the JSON document.  A
    float is carried by its [repr] text (['0.25'], ['3.0']): that text is
    what [str] returns and what the signature of a target set is made of.
    Float arithmetic is not interpreted.  A dictionary, such as the
    history [run.py] reads from [history.json], has string keys and keeps
    its entries in insertion order. *)
Inductive value : Type :=
| VInt (z : Z)
| VFloat (repr : string)
| VStr (s : string)
| VList (l : list value)
| VDict (d : list (string * value)).

(** [repr(v)]; quoting of a string does not escape. *)
Fixpoint py_repr (v : value) : string :=
  match v with
  | VInt z => pretty z
  | VFloat r => r
  | VStr s => "'" +:+ s +:+ "'"
  | VList l => "[" +:+ String.concat ", " (map py_repr l) +:+ "]"
  | VDict d =>
      "{" +:+ String.concat ", "
                (map (λ kv, "'" +:+ kv.1 +:+ "': " +:+ py_repr kv.2) d)
          +:+ "}"
  end.

(** [str(v)], also what ['{}'.format(v)] writes. *)
Definition py_str (v : value) : string :=
  match v with
  | VStr s => s
  | _ => py_repr v
  end.

Inductive exn : Type :=
| KeyError (key : string)
| ValueError (msg : string)
| AssertionError
| FileNotFoundError (path : string)
| NotADirectoryError (path : string)
| FileExistsError (path : string)
| IsADirectoryError (path : string)
| IndexError
| TypeError.

Inductive result (A : Type) : Type :=
| Ok (a : A)
| Raise (e : exn).
Arguments Ok {A} a.
Arguments Raise {A} e.

(** Exceptions propagate: the usual error monad, with stdpp's notation
    [x ← r; k]. *)
#[global] Instance result_ret : MRet result := fun A a => Ok a.
#[global] Instance result_bind : MBind result := fun A B k r =>
  match r with
  | Ok a => k a
  | Raise e => Raise e
  end.

(** ** Python dictionaries in insertion order *)

(** A [dict] whose iteration order the code can observe ([targets],
    [alphas], keyword arguments): the entries in insertion order.  A real
    dictionary has no repeated key, [dict_wf]. *)
Definition pydict : Type := list (string * value).

Definition keys (d : pydict) : list string := map fst d.

Definition dict_wf (d : pydict) : Prop := NoDup (keys d).

Fixpoint dict_find (d : pydict) (key : string) : option value :=
  match d with
  | [] => None
  | (k, v) :: d' => if decide (k = key) then Some v else dict_find d' key
  end.

(** [d[key]] *)
Definition dict_get (d : pydict) (key : string) : result value :=
  match dict_find d key with
  | Some v => Ok v
  | None => Raise (KeyError key)
  end.

(** [sorted(names)] on strings: ascending in code-point order. *)
Definition sorted (names : list string) : list string :=
  merge_sort String.le names.

(** ** metadata.py *)

Module MetaData.

(** Modelled from the spec: the base class [MetaData] of
    [correlation_structure/metadata.py], which is not among the sources.
    The spec's Parameter Store: [set_requirements] fixes the legal key
    set, [set] rejects a key outside the fixed set, [get] fails on a key
    never set, [set_from_dictionary] and [get_as_dictionary] load and dump
    in bulk.  [History] never fixes a key set and records arbitrary
    signatures through [set], so a store whose key set was never fixed
    accepts every key.  The bulk load is taken to set the entries of the
    dictionary one by one; whether the original also drops what the store
    held under other keys is not in the sources, and the properties of
    loading are stated for loads where it makes no difference: onto a
    store that holds no key the dictionary lacks, or about the keys the
    dictionary names. *)
Record t : Type := mk {
  name : string;
  required_parameters : option (list string);
  _metadata : gmap string value
}.

Definition init (name : string) : t := mk name None ∅.

Definition set_requirements (list_of_requirements : list string) (m : t) : t :=
  mk (name m) (Some list_of_requirements) (_metadata m).

Definition get_requirements (m : t) : list string :=
  default [] (required_parameters m).

Definition legal (m : t) (key : string) : bool :=
  match required_parameters m with
  | Some ks => bool_decide (key ∈ ks)
  | None => true
  end.

Definition set (key : string) (v : value) (m : t) : result t :=
  if legal m key
  then Ok (mk (name m) (required_parameters m) (<[key := v]> (_metadata m)))
  else Raise (KeyError key).

Definition get (key : string) (m : t) : result value :=
  match _metadata m !! key with
  | Some v => Ok v
  | None => Raise (KeyError key)
  end.

(** [set] with keyword arguments: the keys in the order given. *)
Fixpoint set_kwargs (kwargs : pydict) (m : t) : result t :=
  match kwargs with
  | [] => Ok m
  | (k, v) :: rest => m' ← set k v m; set_kwargs rest m'
  end.

Definition set_from_dictionary (data : gmap string value) (m : t) : result t :=
  set_kwargs (map_to_list data) m.

Definition get_as_dictionary (m : t) : gmap string value := _metadata m.

End MetaData.

(** ** run_data.py: History *)

Module History.

Definition init : MetaData.t := MetaData.init "history".

(** [",".join(str(targets[key]) for key in sorted_keys)], the expression
    both [check_targets] and [new_entry] compute. *)
Definition target_key (targets : pydict) : result string :=
  let sorted_keys := sorted (keys targets) in
  vs ← mapM (dict_get targets) sorted_keys;
  Ok (String.concat "," (map py_str vs)).

Definition check_targets (targets : pydict) (h : MetaData.t) : result bool :=
  target_key ← target_key targets;
  if decide (is_Some (MetaData._metadata h !! target_key))
  then Ok true
  else Ok false.

Definition new_entry (alphas targets : pydict) (h : MetaData.t) : result MetaData.t :=
  let sorted_keys := sorted (keys targets) in
  target_key ← target_key targets;
  if decide (is_Some (MetaData._metadata h !! target_key))
  then Ok h
  else
    sorted_alphas ← mapM (dict_get alphas) sorted_keys;
    MetaData.set target_key (VList sorted_alphas) h.

End History.

(** ** run_data.py: the two parameter stores *)

Module GeneralParams.

Definition requirements : list string :=
  ["ensemble_num"; "iteration"; "phase"; "start_time"; "A"; "tau";
   "tolerance"; "num_samples"; "sample_period"; "production_time"].

Definition init : MetaData.t :=
  MetaData.set_requirements requirements (MetaData.init "general").

Definition get_defaults : gmap string value :=
  list_to_map
    [("ensemble_num", VInt 1); ("iteration", VInt 0);
     ("phase", VStr "training"); ("start_time", VInt 0);
     ("A", VInt 50); ("tau", VInt 50); ("tolerance", VFloat "0.25");
     ("num_samples", VInt 50); ("sample_period", VInt 100);
     ("production_time", VInt 10000)].

Definition set_to_defaults (m : MetaData.t) : result MetaData.t :=
  MetaData.set_from_dictionary get_defaults m.

End GeneralParams.

Module PairParams.

Definition requirements : list string :=
  ["sites"; "logging_filename"; "alpha"; "target"].

Definition init (name : string) : MetaData.t :=
  MetaData.set_requirements requirements (MetaData.init name).

Definition set_to_defaults (m : MetaData.t) : result MetaData.t :=
  MetaData.set_kwargs [("alpha", VFloat "0.0"); ("target", VFloat "3.0")] m.

Definition load_sites (sites : value) (m : MetaData.t) : result MetaData.t :=
  MetaData.set_kwargs
    [("sites", sites);
     ("logging_filename", VStr (py_str (VStr (MetaData.name m)) +:+ ".log"))] m.

End PairParams.

(** Modelled from the spec: [PairData] of [correlation_structure/pair_data.py],
    which is not among the sources: the pair record, a named store that
    carries the pair's [sites].  [from_pair_data] reads it through [name]
    and [get('sites')]. *)
Definition PairData : Type := MetaData.t.

(** ** run_data.py: RunData *)

(** The persisted document: a JSON object with the three top-level keys
    ['general parameters'], ['pair parameters'] and ['history']. *)
Record document : Type := Document {
  doc_general : gmap string value;
  doc_pairs : gmap string (gmap string value);
  doc_history : gmap string value
}.

Module RunData.

Record t : Type := mk {
  general_params : MetaData.t;
  pair_params : gmap string MetaData.t;
  history : MetaData.t
}.

Definition with_general (g : MetaData.t) (rd : t) : t :=
  mk g (pair_params rd) (history rd).
Definition with_pair (name : string) (p : MetaData.t) (rd : t) : t :=
  mk (general_params rd) (<[name := p]> (pair_params rd)) (history rd).
Definition with_history (h : MetaData.t) (rd : t) : t :=
  mk (general_params rd) (pair_params rd) h.

(** [RunData()] *)
Definition init : result t :=
  g ← GeneralParams.set_to_defaults GeneralParams.init;
  Ok (mk g ∅ History.init).

(** The truth value of the optional [name]: [None] and the empty string
    both count as no name. *)
Definition given (name : option string) : option string :=
  match name with
  | Some EmptyString => None
  | _ => name
  end.

Definition set1 (name : option string) (key : string) (v : value) (rd : t) : result t :=
  match given name with
  | None =>
      if bool_decide (key ∈ MetaData.get_requirements (general_params rd))
      then g ← MetaData.set key v (general_params rd); Ok (with_general g rd)
      else if decide (key = "history")
      then h ← MetaData.set key v (history rd); Ok (with_history h rd)
      else Raise (ValueError "not pair-specific")
  | Some n =>
      match pair_params rd !! n with
      | None => Raise (KeyError n)
      | Some p =>
          if bool_decide (key ∈ MetaData.get_requirements p)
          then p' ← MetaData.set key v p; Ok (with_pair n p' rd)
          else Raise (ValueError "not a pair-specific parameter")
      end
  end.

(** [set(name=None, **kwargs)] *)
Fixpoint set (name : option string) (kwargs : pydict) (rd : t) : result t :=
  match kwargs with
  | [] => Ok rd
  | (key, v) :: rest => rd' ← set1 name key v rd; set name rest rd'
  end.

(** What [get] hands back: a parameter value, or the history store
    itself for the key ['history']. *)
Inductive got : Type :=
| Value (v : value)
| HistoryStore (h : MetaData.t).

(** [get(key, name=None)] *)
Definition get (key : string) (name : option string) (rd : t) : result got :=
  if bool_decide (key ∈ MetaData.get_requirements (general_params rd))
  then v ← MetaData.get key (general_params rd); Ok (Value v)
  else match given name with
       | Some n =>
           match pair_params rd !! n with
           | None => Raise (KeyError n)
           | Some p => v ← MetaData.get key p; Ok (Value v)
           end
       | None =>
           if decide (key = "history")
           then Ok (HistoryStore (history rd))
           else Raise (ValueError "pair-specific parameter without a name")
       end.

(** [get] where the code goes on to use the answer as a value. *)
Definition get_value (key : string) (name : option string) (rd : t) : result value :=
  r ← get key name rd;
  match r with
  | Value v => Ok v
  | HistoryStore _ => Raise TypeError
  end.

Definition as_dictionary (rd : t) : document :=
  Document (MetaData.get_as_dictionary (general_params rd))
           (MetaData.get_as_dictionary <$> pair_params rd)
           (MetaData.get_as_dictionary (history rd)).

(** The loop of [from_dictionary] over the names of ['pair parameters']. *)
Fixpoint load_pairs (entries : list (string * gmap string value))
    (pairs : gmap string MetaData.t) : result (gmap string MetaData.t) :=
  match entries with
  | [] => Ok pairs
  | (name, data) :: rest =>
      p ← MetaData.set_from_dictionary data (PairParams.init name);
      load_pairs rest (<[name := p]> pairs)
  end.

Definition from_dictionary (data : document) (rd : t) : result t :=
  g ← MetaData.set_from_dictionary (doc_general data) (general_params rd);
  h ← MetaData.set_from_dictionary (doc_history data) (history rd);
  pairs ← load_pairs (map_to_list (doc_pairs data)) (pair_params rd);
  Ok (mk g pairs h).

Definition from_pair_data (pd : PairData) (rd : t) : result t :=
  let name := MetaData.name pd in
  sites ← MetaData.get "sites" pd;
  p ← PairParams.load_sites sites (PairParams.init name);
  p ← PairParams.set_to_defaults p;
  Ok (with_pair name p rd).

Definition clear_pair_data (rd : t) : t :=
  mk (general_params rd) ∅ (history rd).

End RunData.

(** ** directory_helper.py *)

(** [v == s] for a string literal [s]. *)
Definition is_str (v : value) (s : string) : bool :=
  match v with
  | VStr s' => bool_decide (s' = s)
  | _ => false
  end.

Module DirectoryHelper.

Record t : Type := mk {
  _top_dir : string;
  _param_dict : gmap string value
}.

Definition _required_parameters : list string :=
  ["ensemble_num"; "iteration"; "phase"].

Fixpoint check_required (required : list string) (param_dict : gmap string value)
    : result unit :=
  match required with
  | [] => Ok tt
  | r :: rest =>
      match param_dict !! r with
      | None => Raise (ValueError ("Must define " +:+ r))
      | Some _ => check_required rest param_dict
      end
  end.

(** [DirectoryHelper(top_dir, param_dict)] *)
Definition init (top_dir : string) (param_dict : gmap string value) : result t :=
  _ ← check_required _required_parameters param_dict;
  Ok (mk top_dir param_dict).

(** [pdict[key]] *)
Definition item (pdict : gmap string value) (key : string) : result value :=
  match pdict !! key with
  | Some v => Ok v
  | None => Raise (KeyError key)
  end.

Definition get_dir (level : string) (dh : t) : result string :=
  let pdict := _param_dict dh in
  if decide (level = "top") then Ok (_top_dir dh)
  else if decide (level = "ensemble_num") then
    e ← item pdict "ensemble_num";
    Ok (_top_dir dh +:+ "/mem_" +:+ py_str e)
  else if decide (level = "iteration") then
    e ← item pdict "ensemble_num";
    i ← item pdict "iteration";
    Ok (_top_dir dh +:+ "/mem_" +:+ py_str e +:+ "/" +:+ py_str i)
  else if decide (level = "phase") then
    e ← item pdict "ensemble_num";
    i ← item pdict "iteration";
    p ← item pdict "phase";
    Ok (_top_dir dh +:+ "/mem_" +:+ py_str e +:+ "/" +:+ py_str i
          +:+ "/" +:+ py_str p)
  else if decide (level = "work_sample") then
    p ← item pdict "phase";
    if is_str p "convergence" || is_str p "production" then
      e ← item pdict "ensemble_num";
      i ← item pdict "iteration";
      p ← item pdict "phase";
      ws ← item pdict "work_sample";
      Ok (_top_dir dh +:+ "/mem_" +:+ py_str e +:+ "/" +:+ py_str i
            +:+ "/" +:+ py_str p +:+ "/" +:+ py_str ws)
    else Raise AssertionError
  else Raise (ValueError "type is not a valid directory type for BRER simulations").

End DirectoryHelper.

(** ** The disk *)

Inductive file : Type :=
| Json (d : document)
| Blob (data : string).

(** Files by path, the directories that exist, and the process's working
    directory.  Paths are plain strings: the ensemble directory is absolute
    (as in [run.py]) and no path is normalised. *)
Record world : Type := World {
  files : gmap string file;
  dirs : gset string;
  cwd : string
}.

(** Code that touches the disk: the world it leaves behind, and its value
    or the exception it raised. *)
Definition io (A : Type) : Type := world → world * result A.

#[global] Instance io_ret : MRet io := fun A a w => (w, Ok a).
#[global] Instance io_bind : MBind io := fun A B k m w =>
  match m w with
  | (w', Ok a) => k a w'
  | (w', Raise e) => (w', Raise e)
  end.

Definition lift {A} (r : result A) : io A := fun w => (w, r).

Definition getcwd : io string := fun w => (w, Ok (cwd w)).

(** Every proper prefix of [path] that ends just before a ['/'], and
    [path] itself: the directories [os.makedirs] creates. *)
Fixpoint dir_prefixes (seen path : string) : list string :=
  match path with
  | EmptyString => [seen]
  | String c rest =>
      (if Ascii.eqb c "/"%char then [seen] else [])
        ++ dir_prefixes (seen +:+ String c EmptyString) rest
  end.

(** What stops [os.makedirs] on its way down [prefixes], the directories
    it asks for from the top: a regular file in the place of one of them.
    Below a file [os.mkdir] raises [NotADirectoryError] for the path it was
    to create there; a file at the last path itself is not accepted by
    [exist_ok], which takes directories only, and [FileExistsError] gets
    out. *)
Fixpoint makedirs_blocked (prefixes : list string) (w : world) : option exn :=
  match prefixes with
  | [] => None
  | d :: below =>
      if bool_decide (d ∈ dirs w) then makedirs_blocked below w
      else if bool_decide (is_Some (files w !! d)) then
        Some (match below with
              | [] => FileExistsError d
              | child :: _ => NotADirectoryError child
              end)
      else makedirs_blocked below w
  end.

(** [os.makedirs(path, exist_ok=True)], on a disk where whatever exists
    lies in directories that exist: the directories that are missing are
    created, those that are there are accepted, and when a regular file is
    in the way nothing is created. *)
Definition makedirs (path : string) : io unit := fun w =>
  match makedirs_blocked
          (filter (λ d, d ≠ EmptyString) (dir_prefixes EmptyString path)) w with
  | Some e => (w, Raise e)
  | None =>
      (World (files w)
             (list_to_set (filter (λ d, d ≠ EmptyString) (dir_prefixes EmptyString path)) ∪ dirs w)
             (cwd w),
       Ok tt)
  end.

(** [os.chdir(path)] *)
Definition chdir (path : string) : io unit := fun w =>
  if bool_decide (path ∈ dirs w)
  then (World (files w) (dirs w) path, Ok tt)
  else (w, Raise (FileNotFoundError path)).

(** [os.path.exists(path)] *)
Definition exists_ (path : string) : io bool := fun w =>
  (w, Ok (bool_decide (is_Some (files w !! path)) || bool_decide (path ∈ dirs w))).

(** [shutil.copy(src, dst)] for a file path [dst]. *)
Definition copy (src dst : string) : io unit := fun w =>
  match files w !! src with
  | Some f => (World (<[dst := f]> (files w)) (dirs w) (cwd w), Ok tt)
  | None => (w, Raise (FileNotFoundError src))
  end.

(** [shutil.move(src, dst)] for a file path [dst]. *)
Definition move (src dst : string) : io unit := fun w =>
  match files w !! src with
  | Some f => (World (<[dst := f]> (delete src (files w))) (dirs w) (cwd w), Ok tt)
  | None => (w, Raise (FileNotFoundError src))
  end.

(** What stops [open(path, 'w')] on its way down [prefixes], the
    directories above [path] from the top: the first that is not a
    directory, [NotADirectoryError] when a regular file is in its place and
    [FileNotFoundError] when nothing is. *)
Fixpoint open_blocked (prefixes : list string) (path : string) (w : world)
    : option exn :=
  match prefixes with
  | [] => None
  | d :: below =>
      if bool_decide (d ∈ dirs w) then open_blocked below path w
      else if bool_decide (is_Some (files w !! d))
      then Some (NotADirectoryError path)
      else Some (FileNotFoundError path)
  end.

(** The directories above [path], from the top; none for a bare file
    name, which lies in the working directory. *)
Definition dirs_above (path : string) : list string :=
  filter (λ d, d ≠ EmptyString) (removelast (dir_prefixes EmptyString path)).

(** [json.dump(d, open(fnm, 'w'))]: the file is created or overwritten,
    in a directory that has to exist; a directory cannot be opened for
    writing. *)
Definition json_dump (d : document) (fnm : string) : io unit := fun w =>
  match open_blocked (dirs_above fnm) fnm w with
  | Some e => (w, Raise e)
  | None =>
      if bool_decide (fnm ∈ dirs w)
      then (w, Raise (IsADirectoryError fnm))
      else (World (<[fnm := Json d]> (files w)) (dirs w) (cwd w), Ok tt)
  end.

(** [json.load(open(fnm))] *)
Definition json_load (fnm : string) : io document := fun w =>
  match files w !! fnm with
  | Some (Json d) => (w, Ok d)
  | Some (Blob _) => (w, Raise (ValueError "not a JSON document"))
  | None => (w, Raise (FileNotFoundError fnm))
  end.

Module DirectoryIO.

(** [DirectoryHelper.build_working_dir] *)
Definition build_working_dir (dh : DirectoryHelper.t) : io unit :=
  d ← lift (DirectoryHelper.get_dir "phase" dh);
  _ ← makedirs d;
  phase ← lift (DirectoryHelper.item (DirectoryHelper._param_dict dh) "phase");
  if is_str phase "convergence" || is_str phase "production" then
    d ← lift (DirectoryHelper.get_dir "work_sample" dh);
    makedirs d
  else mret tt.

(** [DirectoryHelper.change_dir] *)
Definition change_dir (level : string) (dh : DirectoryHelper.t) : io unit :=
  d ← lift (DirectoryHelper.get_dir level dh);
  chdir d.

End DirectoryIO.

(** [RunData.save_config] and [RunData.load_config] *)
Definition save_config (fnm : string) (rd : RunData.t) : io unit :=
  json_dump (RunData.as_dictionary rd) fnm.

Definition load_config (fnm : string) (rd : RunData.t) : io RunData.t :=
  d ← json_load fnm;
  lift (RunData.from_dictionary d rd).

(** ** run_config.py *)

Inductive PluginConfig : Type :=
| TrainingPluginConfig
| ConvergencePluginConfig
| ProductionPluginConfig.

(** One entry of [context.potentials] after a session has run. *)
Record potential : Type := Potential {
  pot_name : string;
  pot_alpha : value;
  pot_target : value;
  pot_time : value
}.

(** What [run_config.py] calls but does not define: the pair metadata with
    its resampler ([pair_data.MultiPair]), the restraint plugins
    ([plugin_configs]), the gmxapi session, and arithmetic on operands that
    are not both integers.  They are parameters of the development. *)
Class Collaborators : Type := {
  MultiPair : Type;
  (** [MultiPair.read_from_json], [.names], iteration over the pairs,
      [.re_sample()] *)
  read_from_json : string → io MultiPair;
  pair_names : MultiPair → list string;
  pair_records : MultiPair → list PairData;
  re_sample : MultiPair → pydict * MultiPair;
  (** [deepcopy(plugin_config)], two [scan_metadata] and [build_plugin()] *)
  plugin : Type;
  plugin_name : plugin → string;
  build_plugin : PluginConfig → MetaData.t → MetaData.t → plugin;
  (** [gmx.workflow.from_tpr(tpr, end_time)], the dependencies added, the
      context on [workdir] and [session.run()]: the potentials afterwards *)
  session_run : string → option value → list plugin → string → io (list potential);
  num_add : value → value → result value;
  num_sub : value → value → result value;
  num_gt : value → value → result bool
}.

Section Arithmetic.
Context `{Collaborators}.

(** [a + b] *)
Definition py_add (a b : value) : result value :=
  match a, b with
  | VInt x, VInt y => Ok (VInt (x + y))
  | _, _ => num_add a b
  end.

(** [a - b] *)
Definition py_sub (a b : value) : result value :=
  match a, b with
  | VInt x, VInt y => Ok (VInt (x - y))
  | _, _ => num_sub a b
  end.

(** [a > b] *)
Definition py_gt (a b : value) : result bool :=
  match a, b with
  | VInt x, VInt y => Ok (bool_decide (x > y))
  | _, _ => num_gt a b
  end.
End Arithmetic.

(** [d[key] = v]: in place when the key is there, appended otherwise. *)
Fixpoint dict_set (d : pydict) (key : string) (v : value) : pydict :=
  match d with
  | [] => [(key, v)]
  | (k, v') :: d' =>
      if decide (k = key) then (k, v) :: d' else (k, v') :: dict_set d' key v
  end.

Module RunConfig.
Section WithCollaborators.
Context `{Collaborators}.

Record t : Type := mk {
  tpr : string;
  ens_dir : string;
  work_sample : value;
  __names : list string;
  pairs : MultiPair;
  run_data : RunData.t;
  state_json : string;
  __plugins : list plugin
}.

Definition with_run_data (rd : RunData.t) (rc : t) : t :=
  mk (tpr rc) (ens_dir rc) (work_sample rc) (__names rc) (pairs rc) rd
     (state_json rc) (__plugins rc).
Definition with_pairs (p : MultiPair) (rc : t) : t :=
  mk (tpr rc) (ens_dir rc) (work_sample rc) (__names rc) p (run_data rc)
     (state_json rc) (__plugins rc).
Definition with_plugins (ps : list plugin) (rc : t) : t :=
  mk (tpr rc) (ens_dir rc) (work_sample rc) (__names rc) (pairs rc)
     (run_data rc) (state_json rc) ps.

(** The loop [for pd in self.pairs: self.run_data.from_pair_data(pd)]. *)
Fixpoint load_pair_data (pds : list PairData) (rd : RunData.t) : result RunData.t :=
  match pds with
  | [] => Ok rd
  | pd :: rest => rd' ← RunData.from_pair_data pd rd; load_pair_data rest rd'
  end.

(** [RunConfig(tpr, ensemble_dir, ensemble_num, work_sample, pairs_json)];
    the logger it sets up is not modelled. *)
Definition init (tpr ensemble_dir : string) (ensemble_num work_sample : value)
    (pairs_json : string) : io t :=
  pairs ← read_from_json pairs_json;
  let names := pair_names pairs in
  rd ← lift RunData.init;
  rd ← lift (RunData.set None [("ensemble_num", ensemble_num)] rd);
  _ ← makedirs (ensemble_dir +:+ "/mem_" +:+ py_str ensemble_num);
  e ← lift (RunData.get_value "ensemble_num" None rd);
  let state_json := ensemble_dir +:+ "/mem_" +:+ py_str e +:+ "/state.json" in
  present ← exists_ state_json;
  rd ← (if present : bool
        then load_config state_json rd
        else
          rd ← lift (load_pair_data (pair_records pairs) rd);
          _ ← save_config state_json rd;
          mret rd);
  mret (mk tpr ensemble_dir work_sample names pairs rd state_json []).

(** [build_plugins]: one plugin per restraint name, the old list wiped. *)
Definition build_plugins (plugin_config : PluginConfig) (rc : t) : result t :=
  let general_params := RunData.general_params (run_data rc) in
  ps ← mapM (λ name,
               match RunData.pair_params (run_data rc) !! name with
               | Some pair_params =>
                   Ok (build_plugin plugin_config general_params pair_params)
               | None => Raise (KeyError name)
               end) (__names rc);
  Ok (with_plugins ps rc).

Definition __change_directory (rc : t) : io unit :=
  let param_dict :=
    MetaData.get_as_dictionary (RunData.general_params (run_data rc)) in
  phase ← lift (RunData.get_value "phase" None (run_data rc));
  let param_dict :=
    if is_str phase "training" then param_dict
    else <["work_sample" := work_sample rc]> param_dict in
  dir_help ← lift (DirectoryHelper.init (ens_dir rc) param_dict);
  _ ← DirectoryIO.build_working_dir dir_help;
  if is_str phase "training"
  then DirectoryIO.change_dir "phase" dir_help
  else DirectoryIO.change_dir "work_sample" dir_help.

(** The path [__move_cpt] looks for: the checkpoint of the current phase. *)
Definition updated_path (rc : t) (ens_num current_iter phase : value) : string :=
  if is_str phase "training"
  then ens_dir rc +:+ "/mem_" +:+ py_str ens_num +:+ "/" +:+ py_str current_iter
         +:+ "/" +:+ py_str phase +:+ "/state.cpt"
  else ens_dir rc +:+ "/mem_" +:+ py_str ens_num +:+ "/" +:+ py_str current_iter
         +:+ "/" +:+ py_str phase +:+ "/" +:+ py_str (work_sample rc)
         +:+ "/state.cpt".

(** The path [__move_cpt] copies from: the checkpoint the convergence
    phase of the current iteration left for this work sample. *)
Definition gmx_cpt (rc : t) (ens_num current_iter : value) : string :=
  let member_dir := ens_dir rc +:+ "/mem_" +:+ py_str ens_num in
  member_dir +:+ "/" +:+ py_str current_iter +:+ "/convergence/"
    +:+ py_str (work_sample rc) +:+ "/state.cpt".

(** The directory [__change_directory] changes into, as [get_dir] spells
    it: the phase directory in training, the work-sample directory in the
    other phases. *)
Definition working_dir (rc : t) (ens_num current_iter phase : value) : string :=
  if is_str phase "training"
  then ens_dir rc +:+ "/mem_" +:+ py_str ens_num +:+ "/" +:+ py_str current_iter
         +:+ "/" +:+ py_str phase
  else ens_dir rc +:+ "/mem_" +:+ py_str ens_num +:+ "/" +:+ py_str current_iter
         +:+ "/" +:+ py_str phase +:+ "/" +:+ py_str (work_sample rc).

Definition __move_cpt (rc : t) : io unit :=
  current_iter ← lift (RunData.get_value "iteration" None (run_data rc));
  ens_num ← lift (RunData.get_value "ensemble_num" None (run_data rc));
  phase ← lift (RunData.get_value "phase" None (run_data rc));
  present ← exists_ (updated_path rc ens_num current_iter phase);
  if present : bool then mret tt
  else
    prev_iter ← lift (py_sub current_iter (VInt 1));
    if is_str phase "training" || is_str phase "convergence" then
      later ← lift (py_gt prev_iter (VInt (-1)));
      if later : bool
      then lift (Raise (ValueError "multiple iterations are not supported"))
      else mret tt
    else
      here ← getcwd;
      copy (gmx_cpt rc ens_num current_iter) (here +:+ "/state.cpt").

(** The loop [while self.run_data.history.check_targets(targets):
    targets = self.pairs.re_sample()].  It need not stop: [None] when
    [fuel] redraws were not enough. *)
Fixpoint redraw (fuel : nat) (history : MetaData.t) (targets : pydict)
    (pairs : MultiPair) : option (result (pydict * MultiPair)) :=
  match History.check_targets targets history with
  | Raise e => Some (Raise e)
  | Ok false => Some (Ok (targets, pairs))
  | Ok true =>
      match fuel with
      | O => None
      | S fuel' =>
          let (targets', pairs') := re_sample pairs in
          redraw fuel' history targets' pairs'
      end
  end.

(** The [n]-th answer of the resampler from the state [pairs], counting
    from 0, with the state it leaves. *)
Fixpoint draw (n : nat) (pairs : MultiPair) : pydict * MultiPair :=
  match n with
  | O => re_sample pairs
  | S n' => draw n' (re_sample pairs).2
  end.

(** The loop [for name in self.__names:
    self.run_data.set(name=name, target=targets[name])]. *)
Fixpoint set_targets (names : list string) (targets : pydict) (rd : RunData.t)
    : result RunData.t :=
  match names with
  | [] => Ok rd
  | name :: rest =>
      v ← dict_get targets name;
      rd' ← RunData.set (Some name) [("target", v)] rd;
      set_targets rest targets rd'
  end.

(** The inner loop over the names that fills [sites_to_name] for one
    plugin. *)
Fixpoint match_sites (plugin_name : string) (names : list string)
    (rd : RunData.t) (sites_to_name : gmap string string)
    : result (gmap string string) :=
  match names with
  | [] => Ok sites_to_name
  | name :: rest =>
      sites ← RunData.get_value "sites" (Some name) rd;
      let run_data_sites := py_str sites in
      match_sites plugin_name rest rd
        (if decide (run_data_sites = plugin_name)
         then <[plugin_name := name]> sites_to_name
         else sites_to_name)
  end.

Fixpoint name_plugins (plugins : list plugin) (names : list string)
    (rd : RunData.t) (sites_to_name : gmap string string)
    : result (gmap string string) :=
  match plugins with
  | [] => Ok sites_to_name
  | p :: rest =>
      sites_to_name ← match_sites (plugin_name p) names rd sites_to_name;
      name_plugins rest names rd sites_to_name
  end.

(** The loop [for i in range(len(self.__names))] that reads the trained
    alpha and target of every potential. *)
Fixpoint harvest (indices : list nat) (potentials : list potential)
    (sites_to_name : gmap string string) (alphas : pydict) (rd : RunData.t)
    : result (pydict * RunData.t) :=
  match indices with
  | [] => Ok (alphas, rd)
  | i :: rest =>
      match potentials !! i with
      | None => Raise IndexError
      | Some p =>
          match sites_to_name !! pot_name p with
          | None => Raise (KeyError (pot_name p))
          | Some current_name =>
              let alphas := dict_set alphas current_name (pot_alpha p) in
              rd ← RunData.set (Some current_name) [("alpha", pot_alpha p)] rd;
              rd ← RunData.set (Some current_name) [("target", pot_target p)] rd;
              harvest rest potentials sites_to_name alphas rd
          end
      end
  end.

(** The backup in [__train]: a checkpoint found in the working directory
    is moved aside to [state.cpt.bak], and training starts over. *)
Definition backup_cpt : io unit :=
  here ← getcwd;
  let cpt := here +:+ "/state.cpt" in
  present ← exists_ cpt;
  if present : bool then move cpt (cpt +:+ ".bak") else mret tt.

(** [__train] once the targets are drawn. *)
Definition train_with (targets : pydict) (rc : t) : io t :=
  rd ← lift (set_targets (__names rc) targets (run_data rc));
  let rc := with_run_data rd rc in
  _ ← save_config (state_json rc) (run_data rc);
  _ ← backup_cpt;
  _ ← __move_cpt rc;
  rc ← lift (build_plugins TrainingPluginConfig rc);
  sites_to_name ←
    lift (name_plugins (__plugins rc) (__names rc) (run_data rc) ∅);
  here ← getcwd;
  potentials ← session_run (tpr rc) None (__plugins rc) here;
  '(alphas, rd) ←
    lift (harvest (seq 0 (length (__names rc))) potentials sites_to_name []
            (run_data rc));
  h ← lift (History.new_entry alphas targets (RunData.history rd));
  mret (with_run_data (RunData.with_history h rd) rc).

(** The two halves of [train_with], around the session.  First what
    [__train] does with the drawn targets before it runs the engine: the
    targets are entered pair by pair and saved, the checkpoint is dealt
    with, the plugins are built and named. *)
Definition prepare_training (targets : pydict) (rc : t)
    : io (t * gmap string string) :=
  rd ← lift (set_targets (__names rc) targets (run_data rc));
  let rc := with_run_data rd rc in
  _ ← save_config (state_json rc) (run_data rc);
  _ ← backup_cpt;
  _ ← __move_cpt rc;
  rc ← lift (build_plugins TrainingPluginConfig rc);
  sites_to_name ←
    lift (name_plugins (__plugins rc) (__names rc) (run_data rc) ∅);
  mret (rc, sites_to_name).

(** Then what it does with the potentials the session leaves: the trained
    alphas and targets are read off and the target set is recorded. *)
Definition record_training (targets : pydict) (rc : t)
    (sites_to_name : gmap string string) (potentials : list potential) : io t :=
  '(alphas, rd) ←
    lift (harvest (seq 0 (length (__names rc))) potentials sites_to_name []
            (run_data rc));
  h ← lift (History.new_entry alphas targets (RunData.history rd));
  mret (with_run_data (RunData.with_history h rd) rc).

(** [__train]: [None] when the redraw loop does not stop within [fuel]. *)
Definition __train (fuel : nat) (rc : t) (w : world) : option (world * result t) :=
  let (targets, pairs) := re_sample (pairs rc) in
  match redraw fuel (RunData.history (run_data rc)) targets pairs with
  | None => None
  | Some (Raise e) => Some (w, Raise e)
  | Some (Ok (targets, pairs)) => Some (train_with targets (with_pairs pairs rc) w)
  end.

(** The closing log loop of [__converge] and [__production], which reads
    alpha and target of every name. *)
Fixpoint report (names : list string) (rd : RunData.t) : result unit :=
  match names with
  | [] => Ok tt
  | name :: rest =>
      _ ← RunData.get "alpha" (Some name) rd;
      _ ← RunData.get "target" (Some name) rd;
      report rest rd
  end.

Definition __converge (rc : t) : io t :=
  _ ← __move_cpt rc;
  rc ← lift (build_plugins ConvergencePluginConfig rc);
  here ← getcwd;
  potentials ← session_run (tpr rc) None (__plugins rc) here;
  p0 ← lift (match potentials !! 0%nat with
             | Some p => Ok p
             | None => Raise IndexError
             end);
  rd ← lift (RunData.set None [("start_time", pot_time p0)] (run_data rc));
  let rc := with_run_data rd rc in
  _ ← lift (report (__names rc) (run_data rc));
  mret rc.

Definition __production (rc : t) : io t :=
  _ ← __move_cpt rc;
  production_time ← lift (RunData.get_value "production_time" None (run_data rc));
  start_time ← lift (RunData.get_value "start_time" None (run_data rc));
  end_time ← lift (py_add production_time start_time);
  rc ← lift (build_plugins ProductionPluginConfig rc);
  here ← getcwd;
  _ ← session_run (tpr rc) (Some end_time) (__plugins rc) here;
  _ ← lift (report (__names rc) (run_data rc));
  mret rc.

(** The last line of [run]: [self.run_data.save_config(self.state_json)]. *)
Definition save (rc : t) : io t :=
  _ ← save_config (state_json rc) (run_data rc);
  mret rc.

(** [run(set_next_phase=False)]; [None] when training does not get out
    of its redraw loop within [fuel]. *)
Definition run (fuel : nat) (set_next_phase : bool) (rc : t) (w : world)
    : option (world * result t) :=
  match (phase ← lift (RunData.get_value "phase" None (run_data rc));
         _ ← __change_directory rc;
         mret phase) w with
  | (w, Raise e) => Some (w, Raise e)
  | (w, Ok phase) =>
      if is_str phase "training" then
        match __train fuel rc w with
        | None => None
        | Some (w, Raise e) => Some (w, Raise e)
        | Some (w, Ok rc) =>
            Some ((rd ← lift (RunData.set None [("phase", VStr "convergence")]
                                (run_data rc));
                   save (with_run_data rd rc)) w)
        end
      else if is_str phase "convergence" then
        Some ((rc ← __converge rc;
               rd ← lift (if set_next_phase
                          then RunData.set None [("phase", VStr "production")]
                                 (run_data rc)
                          else Ok (run_data rc));
               save (with_run_data rd rc)) w)
      else
        Some ((rc ← __production rc;
               rd ← lift (if set_next_phase
                          then
                            i ← RunData.get_value "iteration" None (run_data rc);
                            i' ← py_add i (VInt 1);
                            RunData.set None
                              [("phase", VStr "training"); ("start_time", VInt 0);
                               ("iteration", i')] (run_data rc)
                          else Ok (run_data rc));
               save (with_run_data rd rc)) w)
  end.

End WithCollaborators.
End RunConfig.

(** ** A scripted set of collaborators

    Stand-ins that make the examples run: the resampler replays a list of
    draws, a plugin is named by the text of its pair's sites, and a session
    reports one potential per plugin and writes nothing. *)

Definition scripted_potential (name : string) : potential :=
  Potential name (VFloat "7.5") (VFloat "1.5") (VFloat "250.0").

Definition scripted_records : list PairData :=
  [MetaData.mk "A-B" None {["sites" := VList [VInt 3673; VInt 5636]]};
   MetaData.mk "C-D" None {["sites" := VList [VInt 10; VInt 20]]}].

Definition scripted : Collaborators := {|
  MultiPair := list pydict;
  read_from_json := λ _, mret [];
  pair_names := λ _, MetaData.name <$> scripted_records;
  pair_records := λ _, scripted_records;
  re_sample := λ draws,
    match draws with
    | [] => ([], [])
    | t :: rest => (t, (rest ++ [t])%list)
    end;
  plugin := string;
  plugin_name := λ p, p;
  build_plugin := λ _ _ pair_params,
    match MetaData._metadata pair_params !! "sites" with
    | Some sites => py_str sites
    | None => "?"
    end;
  session_run := λ _ _ plugins _, mret (scripted_potential <$> plugins);
  num_add := λ _ _, Raise TypeError;
  num_sub := λ _ _, Raise TypeError;
  num_gt := λ _ _, Raise TypeError
|}.

(** Two target sets, the run data of the examples (a new [RunData] with
    the two scripted pairs entered), and configurations of the scripted
    member at iteration 0: about to train, and in a given phase with the
    pair parameters still at their defaults. *)
Definition seen_targets : pydict := [("A-B", VFloat "1.0"); ("C-D", VFloat "2.0")].
Definition unseen_targets : pydict := [("C-D", VFloat "2.5"); ("A-B", VFloat "1.5")].

Definition two_pairs : result RunData.t :=
  rd ← RunData.init;
  RunConfig.load_pair_data scripted_records rd.

Definition scripted_config (draws : list pydict) (rd : RunData.t)
    : @RunConfig.t scripted :=
  RunConfig.mk (H := scripted) "syx.tpr" "/ens" (VInt 1) ["A-B"; "C-D"]
    draws rd "/ens/mem_1/state.json" [].

Definition in_training : result (@RunConfig.t scripted) :=
  rd ← two_pairs;
  Ok (scripted_config [seen_targets] rd).

Definition in_phase (phase : string) : result (@RunConfig.t scripted) :=
  rd ← two_pairs;
  rd ← RunData.set None [("phase", VStr phase)] rd;
  Ok (scripted_config [seen_targets] rd).

(** The scripted member about to train again, at iteration 1. *)
Definition second_training : result (@RunConfig.t scripted) :=
  rd ← two_pairs;
  rd ← RunData.set None [("iteration", VInt 1)] rd;
  Ok (scripted_config [seen_targets; unseen_targets] rd).

(** A configuration in training whose ledger already holds the signature
    of the first target set the resampler will propose. *)
Definition retraining : result (@RunConfig.t scripted) :=
  rd ← two_pairs;
  h ← History.new_entry [("A-B", VFloat "7.5"); ("C-D", VFloat "9.5")]
        seen_targets (RunData.history rd);
  Ok (scripted_config [seen_targets; unseen_targets] (RunData.with_history h rd)).

(** The history of an ensemble as [run.py] reads it from [history.json]:
    the first target set has been trained. *)
Definition ensemble_history : value :=
  VDict [("1.0,2.0", VList [VFloat "7.5"; VFloat "9.5"])].

(** The disk of a member whose directory has been made, with no file yet. *)
Definition member_disk : world :=
  World ∅ {[ "/ens"; "/ens/mem_1" ]} "/".

(** A disk that holds one checkpoint, and nothing else. *)
Definition one_checkpoint (path : string) : world :=
  World {[ path := Blob "checkpoint" ]} ∅ "/".

(** A document for the examples, as [save_config] writes it. *)
Definition full_document : document :=
  Document
    (list_to_map
       [("ensemble_num", VInt 1); ("iteration", VInt 2);
        ("phase", VStr "production"); ("start_time", VFloat "250.0");
        ("A", VInt 100); ("tau", VInt 50); ("tolerance", VFloat "0.25");
        ("num_samples", VInt 50); ("sample_period", VInt 100);
        ("production_time", VInt 10000)])
    {[ "A-B" := list_to_map
                  [("sites", VList [VInt 3673; VInt 5636]);
                   ("logging_filename", VStr "A-B.log");
                   ("alpha", VFloat "7.5"); ("target", VFloat "1.5")] ]}
    {[ "1.5" := VList [VFloat "7.5"] ]}.

(** ** The shape of a run-data object

    What [RunData()], [set], [from_dictionary] and [from_pair_data] build
    and keep: the general store is restricted to the ten general keys,
    every pair store to the four pair keys, and the history is open. *)
Definition run_data_wf (rd : RunData.t) : Prop :=
  MetaData.required_parameters (RunData.general_params rd)
    = Some GeneralParams.requirements
  ∧ (∀ n p, RunData.pair_params rd !! n = Some p →
            MetaData.required_parameters p = Some PairParams.requirements)
  ∧ MetaData.required_parameters (RunData.history rd) = None.

(** ** The frame of the directory operations

    Files stay, and a directory that appears has a path no longer than
    [bound]. *)
Definition adds_dirs_upto (bound : nat) (w w1 : world) : Prop :=
  files w1 = files w
  ∧ ∀ d, d ∈ dirs w1 → d ∈ dirs w ∨ (String.length d ≤ bound)%nat.

(** ** Reading the state machine

    The stored value of a general parameter, and what the work of a phase
    must leave alone: the phase and the iteration. *)
Definition general_value (key : string) (rd : RunData.t) : option value :=
  MetaData._metadata (RunData.general_params rd) !! key.

Definition keeps_cycle (rd rd' : RunData.t) : Prop :=
  general_value "phase" rd' = general_value "phase" rd
  ∧ general_value "iteration" rd' = general_value "iteration" rd.

(** ** Run data as the code builds it

    Beyond [run_data_wf]: the stores carry the names their constructors
    give them, the general store holds the ten general parameters and no
    other, and a pair store is named by its key and holds pair parameters
    only. *)
Definition run_data_canonical (rd : RunData.t) : Prop :=
  run_data_wf rd
  ∧ MetaData.name (RunData.general_params rd) = "general"
  ∧ MetaData.name (RunData.history rd) = "history"
  ∧ dom (MetaData._metadata (RunData.general_params rd))
    = list_to_set GeneralParams.requirements
  ∧ ∀ n p, RunData.pair_params rd !! n = Some p →
           MetaData.name p = n
           ∧ dom (MetaData._metadata p) ⊆ list_to_set PairParams.requirements.

(** The directories [makedirs path] asks for: [path] and every directory
    above it. *)
Definition made_dirs (path : string) : gset string :=
  list_to_set (filter (λ d, d ≠ EmptyString) (dir_prefixes EmptyString path)).

(** * state.py

    The restart record of a member.  What it holds under a key is a plain
    value or a dictionary (the [alphas] and [targets] of the member); the
    two functions that read and write it as JSON are left out. *)

Inductive state_item :=
  | Item (v : value)
  | Table (d : pydict).

Module State.

Record t := mk {
  _state : gmap string state_item;
  _required_keys : list string
}.

(** [__init__(initial_state=None)]: no dictionary and an empty one both
    start from the empty state. *)
Definition init (initial_state : option (gmap string state_item)) : t :=
  mk (default ∅ initial_state)
     ["ensemble_num"; "iteration"; "phase"; "alphas"; "targets"; "gmx_cpt"].

Definition state (s : t) : gmap string state_item := _state s.

Definition get (key : string) (s : t) : result state_item :=
  match _state s !! key with
  | Some v => Ok v
  | None => Raise (KeyError key)
  end.

Definition set (key : string) (v : state_item) (s : t) : t :=
  mk (<[key := v]> (_state s)) (_required_keys s).

Definition required_keys (s : t) : list string := _required_keys s.

(** [set(self.keys) == set(self.required_keys)]; the keys are only ever
    used as this set. *)
Definition is_complete_record (s : t) : bool :=
  bool_decide (dom (_state s) = list_to_set (required_keys s)).

Definition restart (s : t) : t :=
  let s := set "ensemble_num" (Item (VInt 0)) s in
  let s := set "iteration" (Item (VInt 0)) s in
  let s := set "phase" (Item (VStr "training")) s in
  let s := set "alphas" (Table []) s in
  let s := set "targets" (Table []) s in
  set "gmx_cpt" (Item (VStr "state.cpt")) s.

End State.

(** A record that also carries a key of its own. *)
Definition annotated_state : State.t :=
  State.set "note" (Item (VStr "rerun")) (State.init None).

(** * Properties *)

(** ** The error monad *)

Lemma bind_Ok {A B} (r : result A) (k : A → result B) (b : B) :
  r ≫= k = Ok b ↔ ∃ a, r = Ok a ∧ k a = Ok b.
Proof.
  destruct r as [a|e]; simpl; split.
  - intros Hk. by exists a.
  - by intros (a' & [= <-] & Hk).
  - intros Hk. discriminate Hk.
  - by intros (a' & [=] & _).
Qed.

Lemma mapM_Ok_Forall2 {A B} (f : A → result B) (l : list A) (bs : list B) :
  mapM f l = Ok bs ↔ Forall2 (λ a b, f a = Ok b) l bs.
Proof.
  revert bs. induction l as [|a l IH]; intros bs; simpl.
  - split.
    + intros [= <-]. constructor.
    + intros Hnil. by inversion Hnil.
  - split.
    + intros (b & Hb & Hrest)%bind_Ok.
      apply bind_Ok in Hrest as (bs' & Hbs' & [= <-]).
      constructor; [done|]. by apply IH.
    + intros Hcons. inversion Hcons as [|? b ? bs' Hb Hbs']; subst.
      apply bind_Ok. exists b. split; [done|].
      apply bind_Ok. exists bs'. split; [by apply IH|done].
Qed.

(** ** Dictionaries and sorting *)

Lemma dict_find_Some (d : pydict) (key : string) (v : value) :
  dict_wf d → dict_find d key = Some v ↔ (key, v) ∈ d.
Proof.
  unfold dict_wf, keys. induction d as [|[k v'] d IH]; simpl; intros Hwf.
  - split; [done|]. intros Hin. by apply elem_of_nil in Hin.
  - apply NoDup_cons in Hwf as [Hk Hwf]. destruct (decide (k = key)) as [->|Hne].
    + split.
      * intros [= ->]. left.
      * intros [[= ->]|Hin]%elem_of_cons; [done|].
        exfalso. apply Hk. apply list_elem_of_fmap. by exists (key, v).
    + rewrite IH by done. split.
      * intros Hin. by right.
      * intros [[= -> ->]|Hin]%elem_of_cons; [done|done].
Qed.

Lemma dict_find_is_Some (d : pydict) (key : string) :
  key ∈ keys d → is_Some (dict_find d key).
Proof.
  unfold keys. induction d as [|[k v] d IH]; simpl.
  - intros Hin. by apply elem_of_nil in Hin.
  - intros Hin. destruct (decide (k = key)); [by eexists|].
    apply IH. by apply elem_of_cons in Hin as [->|Hin].
Qed.

Lemma dict_find_Permutation (d1 d2 : pydict) (key : string) :
  dict_wf d1 → d1 ≡ₚ d2 → dict_find d1 key = dict_find d2 key.
Proof.
  intros Hwf1 Hperm.
  assert (Hwf2 : dict_wf d2).
  { unfold dict_wf, keys in *. by rewrite <- Hperm. }
  destruct (dict_find d1 key) as [v|] eqn:H1.
  - symmetry. apply dict_find_Some; [done|]. rewrite <- Hperm.
    by apply dict_find_Some.
  - destruct (dict_find d2 key) as [v|] eqn:H2; [|done].
    apply dict_find_Some in H2; [|done]. rewrite <- Hperm in H2.
    apply dict_find_Some in H2; [|done]. congruence.
Qed.

#[local] Instance string_le_total : Total String.le.
Proof.
  intros s1 s2. unfold String.le.
  destruct (String.leb_total s1 s2) as [Hle|Hle]; rewrite Hle; [by left|by right].
Qed.

Lemma sorted_Sorted (names : list string) : Sorted String.le (sorted names).
Proof. apply Sorted_merge_sort; apply _. Qed.

Lemma sorted_Permutation (names : list string) : sorted names ≡ₚ names.
Proof. apply merge_sort_Permutation. Qed.

Lemma sorted_Permutation_eq (l1 l2 : list string) :
  l1 ≡ₚ l2 → sorted l1 = sorted l2.
Proof.
  intros Hperm. apply (Sorted_unique String.le); try apply sorted_Sorted.
  by rewrite !sorted_Permutation.
Qed.

(** A dictionary answers for every one of its own keys, so the signature
    is always computed. *)
Lemma own_values (targets : pydict) (ks : list string) :
  ks ⊆ keys targets →
  ∃ vs, mapM (dict_get targets) ks = Ok vs
        ∧ Forall2 (λ k v, dict_find targets k = Some v) ks vs.
Proof.
  induction ks as [|k ks IH]; intros Hsub.
  - exists []. split; [done|constructor].
  - destruct IH as (vs & Hvs & Hall); [set_solver|].
    destruct (dict_find_is_Some targets k) as [v Hv]; [set_solver|].
    exists (v :: vs). split; [|by constructor].
    simpl. rewrite Hvs. unfold dict_get. by rewrite Hv.
Qed.

Lemma target_key_total (targets : pydict) :
  ∃ vs, Forall2 (λ k v, dict_find targets k = Some v) (sorted (keys targets)) vs
        ∧ History.target_key targets = Ok (String.concat "," (py_str <$> vs)).
Proof.
  destruct (own_values targets (sorted (keys targets))) as (vs & Hvs & Hall).
  { intros k. by rewrite sorted_Permutation. }
  exists vs. split; [done|].
  unfold History.target_key. simpl. by rewrite Hvs.
Qed.

Lemma check_targets_total (targets : pydict) (h : MetaData.t) :
  ∃ b, History.check_targets targets h = Ok b.
Proof.
  destruct (target_key_total targets) as (vs & _ & Hkey).
  unfold History.check_targets. rewrite Hkey. simpl.
  destruct (decide _); by eexists.
Qed.

(** C5: the signature of a target mapping does not depend on the order in
    which the mapping was built.  Two dictionaries with the same entries in
    different insertion orders get the same signature (and so the same
    answer from [check_targets]); the signature is the comma-joined text of
    the targets, taken in ascending order of pair name. *)
Theorem signature_order_independent (t1 t2 : pydict) :
  dict_wf t1 → t1 ≡ₚ t2 →
  History.target_key t1 = History.target_key t2
  ∧ (∀ h, History.check_targets t1 h = History.check_targets t2 h)
  ∧ ∃ ks vs,
      Sorted String.le ks ∧ ks ≡ₚ keys t1
      ∧ Forall2 (λ k v, (k, v) ∈ t1) ks vs
      ∧ History.target_key t1 = Ok (String.concat "," (py_str <$> vs)).
Proof.
  intros Hwf Hperm.
  assert (Hkeys : sorted (keys t1) = sorted (keys t2)).
  { apply sorted_Permutation_eq. unfold keys. by rewrite Hperm. }
  assert (Heq : History.target_key t1 = History.target_key t2).
  { unfold History.target_key. simpl. rewrite <- Hkeys.
    f_equal. clear Hkeys. induction (sorted (keys t1)) as [|k ks IH]; [done|].
    simpl. rewrite IH. unfold dict_get.
    by rewrite (dict_find_Permutation t1 t2 k). }
  split; [done|]. split.
  { intros h. unfold History.check_targets. by rewrite Heq. }
  destruct (target_key_total t1) as (vs & Hall & Hkey).
  exists (sorted (keys t1)), vs.
  split; [apply sorted_Sorted|]. split; [apply sorted_Permutation|].
  split; [|done].
  eapply Forall2_impl; [exact Hall|].
  intros k v Hfind. by apply dict_find_Some in Hfind.
Qed.

Lemma signature_order_independent_witness :
  History.target_key [("C-D", VFloat "2.0"); ("A-B", VFloat "1.0")]
  = History.target_key [("A-B", VFloat "1.0"); ("C-D", VFloat "2.0")].
Proof.
  apply (signature_order_independent
           [("C-D", VFloat "2.0"); ("A-B", VFloat "1.0")]
           [("A-B", VFloat "1.0"); ("C-D", VFloat "2.0")]).
  - apply (bool_decide_unpack (NoDup ["C-D"; "A-B"])). vm_compute. reflexivity.
  - apply perm_swap.
Defined.

(** ** The history ledger *)

Lemma set_unrestricted (key : string) (v : value) (m : MetaData.t) :
  MetaData.required_parameters m = None →
  MetaData.set key v m
  = Ok (MetaData.mk (MetaData.name m) None (<[key := v]> (MetaData._metadata m))).
Proof. intros Hnone. unfold MetaData.set, MetaData.legal. by rewrite Hnone. Qed.

(** C3: [new_entry] on a signature that is already recorded returns the
    ledger as it was, without raising; on a new signature it adds the one
    entry that maps the signature to the alphas of the pair names of
    [targets] in ascending order, and changes nothing else; doing it twice
    is doing it once. *)
Theorem new_entry_records_once (alphas targets : pydict) (h : MetaData.t) :
  MetaData.required_parameters h = None →
  ∃ key,
    History.target_key targets = Ok key
    ∧ (is_Some (MetaData._metadata h !! key) →
       History.new_entry alphas targets h = Ok h)
    ∧ (MetaData._metadata h !! key = None →
       ∀ sorted_alphas,
         Forall2 (λ name a, dict_find alphas name = Some a)
                 (sorted (keys targets)) sorted_alphas →
         ∃ h',
           History.new_entry alphas targets h = Ok h'
           ∧ MetaData._metadata h'
             = <[key := VList sorted_alphas]> (MetaData._metadata h)
           ∧ MetaData._metadata h' !! key = Some (VList sorted_alphas)
           ∧ ∀ other, other ≠ key →
               MetaData._metadata h' !! other = MetaData._metadata h !! other)
    ∧ (∀ h', History.new_entry alphas targets h = Ok h' →
             History.new_entry alphas targets h' = Ok h').
Proof.
  intros Hnone.
  destruct (target_key_total targets) as (vs & _ & Hkey).
  exists (String.concat "," (py_str <$> vs)). split; [done|].
  unfold History.new_entry. rewrite Hkey. simpl.
  split; [|split].
  - intros Hsome. by rewrite decide_True.
  - intros Hfresh sorted_alphas Hall.
    rewrite decide_False by (rewrite Hfresh; by intros [? [=]]).
    assert (Hmap : mapM (dict_get alphas) (sorted (keys targets)) = Ok sorted_alphas).
    { apply mapM_Ok_Forall2. eapply Forall2_impl; [exact Hall|].
      intros k a Hfind. unfold dict_get. by rewrite Hfind. }
    rewrite Hmap. simpl. rewrite set_unrestricted by done.
    eexists. split; [done|]. simpl. split; [done|]. split.
    + apply lookup_insert_eq.
    + intros other Hne. by apply lookup_insert_ne.
  - intros h'. destruct (decide (is_Some (MetaData._metadata h !! _))) as [Hsome|Hfresh].
    + intros [= <-]. by rewrite decide_True.
    + intros (sorted_alphas & Hmap & Hset)%bind_Ok.
      rewrite set_unrestricted in Hset by done. injection Hset as <-. simpl.
      rewrite decide_True; [done|]. rewrite lookup_insert_eq. by eexists.
Qed.

Lemma new_entry_records_once_witness :
  ∃ h',
    History.new_entry [("A-B", VFloat "7.5"); ("C-D", VFloat "9.5")]
                      [("C-D", VFloat "2.0"); ("A-B", VFloat "1.0")]
                      History.init = Ok h'
    ∧ MetaData._metadata h' !! "1.0,2.0" = Some (VList [VFloat "7.5"; VFloat "9.5"]).
Proof.
  destruct (new_entry_records_once
              [("A-B", VFloat "7.5"); ("C-D", VFloat "9.5")]
              [("C-D", VFloat "2.0"); ("A-B", VFloat "1.0")]
              History.init) as (key & Hkey & _ & Hnew & _).
  - reflexivity.
  - vm_compute in Hkey. injection Hkey as <-.
    destruct (Hnew eq_refl [VFloat "7.5"; VFloat "9.5"]) as (h' & Hh' & _ & Hlook & _).
    + assert (Hs : sorted (keys [("C-D", VFloat "2.0"); ("A-B", VFloat "1.0")])
                   = ["A-B"; "C-D"]) by (vm_compute; reflexivity).
      rewrite Hs. repeat constructor.
    + exists h'. split; [exact Hh'|exact Hlook].
Defined.

(** ** Pair parameters *)

Lemma set_legal (key : string) (v : value) (m : MetaData.t) (ks : list string) :
  MetaData.required_parameters m = Some ks → key ∈ ks →
  MetaData.set key v m
  = Ok (MetaData.mk (MetaData.name m) (Some ks) (<[key := v]> (MetaData._metadata m))).
Proof.
  intros Hks Hin. unfold MetaData.set, MetaData.legal. rewrite Hks.
  by rewrite bool_decide_eq_true_2.
Qed.

Lemma set_illegal (key : string) (v : value) (m : MetaData.t) (ks : list string) :
  MetaData.required_parameters m = Some ks → key ∉ ks →
  MetaData.set key v m = Raise (KeyError key).
Proof.
  intros Hks Hin. unfold MetaData.set, MetaData.legal. rewrite Hks.
  by rewrite bool_decide_eq_false_2.
Qed.

(** C10: [from_pair_data] enters the pair under its name, with the sites of
    the record, the logging file name [<name>.log], alpha 0.0 and target
    3.0, and nothing else; the other pairs, the general parameters and the
    history stay as they were. *)
Theorem from_pair_data_defaults (pd : PairData) (rd : RunData.t) (s : value) :
  MetaData._metadata pd !! "sites" = Some s →
  ∃ p,
    RunData.from_pair_data pd rd = Ok (RunData.with_pair (MetaData.name pd) p rd)
    ∧ MetaData.name p = MetaData.name pd
    ∧ MetaData._metadata p
      = {[ "sites" := s;
           "logging_filename" := VStr (MetaData.name pd +:+ ".log");
           "alpha" := VFloat "0.0";
           "target" := VFloat "3.0" ]}
    ∧ RunData.pair_params (RunData.with_pair (MetaData.name pd) p rd)
        !! MetaData.name pd = Some p.
Proof.
  intros Hsites. unfold RunData.from_pair_data, MetaData.get. rewrite Hsites.
  simpl. eexists. split; [reflexivity|]. simpl. split; [done|]. split.
  - apply map_eq. intros k.
    rewrite !lookup_insert, lookup_singleton, lookup_empty.
    repeat case_decide; simplify_eq; done.
  - apply lookup_insert_eq.
Qed.

Lemma from_pair_data_defaults_witness :
  ∃ p,
    RunData.from_pair_data
      (MetaData.mk "A-B" None {["sites" := VList [VInt 3673; VInt 5636]]})
      (RunData.mk GeneralParams.init ∅ History.init)
    = Ok (RunData.with_pair "A-B" p (RunData.mk GeneralParams.init ∅ History.init))
    ∧ MetaData._metadata p !! "logging_filename" = Some (VStr "A-B.log")
    ∧ MetaData._metadata p !! "alpha" = Some (VFloat "0.0")
    ∧ MetaData._metadata p !! "target" = Some (VFloat "3.0").
Proof.
  destruct (from_pair_data_defaults
              (MetaData.mk "A-B" None {["sites" := VList [VInt 3673; VInt 5636]]})
              (RunData.mk GeneralParams.init ∅ History.init)
              (VList [VInt 3673; VInt 5636])) as (p & Hp & _ & Hmeta & _).
  - reflexivity.
  - exists p. split; [exact Hp|]. rewrite Hmeta. repeat split.
Defined.

(** ** Routing of keys in RunData *)

Lemma general_requirements (rd : RunData.t) :
  run_data_wf rd →
  MetaData.get_requirements (RunData.general_params rd) = GeneralParams.requirements.
Proof. intros (Hg & _). unfold MetaData.get_requirements. by rewrite Hg. Qed.

Lemma pair_requirements (rd : RunData.t) (n : string) (p : MetaData.t) :
  run_data_wf rd → RunData.pair_params rd !! n = Some p →
  MetaData.get_requirements p = PairParams.requirements.
Proof.
  intros (_ & Hp & _) Hn. unfold MetaData.get_requirements. by rewrite (Hp n p Hn).
Qed.

Lemma pair_key_not_general (key : string) :
  key ∈ PairParams.requirements →
  (key ∉ GeneralParams.requirements) ∧ key ≠ "history".
Proof.
  unfold PairParams.requirements. intros Hin.
  repeat (apply elem_of_cons in Hin as [->|Hin]);
    [split; [apply (bool_decide_unpack _); by vm_compute|done]..|].
  by apply elem_of_nil in Hin.
Qed.

Lemma general_key_not_pair (key : string) :
  key ∈ GeneralParams.requirements → key ∉ PairParams.requirements.
Proof.
  intros Hg Hp. by destruct (pair_key_not_general key Hp).
Qed.

(** C8, as the code has it: [get] refuses a pair key asked without a pair
    name, as [set] does, and answers a pair key asked with the name of a
    known pair from that pair's store.  A general key is answered from the
    general store whether or not a name comes with it: here [get] does not
    mirror [set], which refuses a general key that comes with a name. *)
Theorem get_routing (rd : RunData.t) (key : string) (name : option string) :
  run_data_wf rd →
  (key ∈ PairParams.requirements → RunData.given name = None →
     RunData.get key name rd
       = Raise (ValueError "pair-specific parameter without a name")
     ∧ ∀ v, RunData.set name [(key, v)] rd = Raise (ValueError "not pair-specific"))
  ∧ (key ∈ PairParams.requirements →
     ∀ n p, RunData.given name = Some n → RunData.pair_params rd !! n = Some p →
       RunData.get key name rd = (v ← MetaData.get key p; Ok (RunData.Value v)))
  ∧ (key ∈ GeneralParams.requirements →
     RunData.get key name rd
       = (v ← MetaData.get key (RunData.general_params rd); Ok (RunData.Value v))
     ∧ ∀ n p v, RunData.given name = Some n → RunData.pair_params rd !! n = Some p →
         RunData.set name [(key, v)] rd
           = Raise (ValueError "not a pair-specific parameter")).
Proof.
  intros Hwf. split; [|split].
  - intros Hpair Hname. destruct (pair_key_not_general key Hpair) as [Hng Hnh].
    split; [|intros v; simpl]; unfold RunData.get, RunData.set1;
      rewrite (general_requirements rd Hwf), Hname;
      rewrite bool_decide_eq_false_2 by done;
      by rewrite decide_False by done.
  - intros Hpair n p Hname Hp. destruct (pair_key_not_general key Hpair) as [Hng _].
    unfold RunData.get. rewrite (general_requirements rd Hwf), Hname, Hp.
    by rewrite bool_decide_eq_false_2 by done.
  - intros Hgen. split.
    + unfold RunData.get. rewrite (general_requirements rd Hwf).
      by rewrite bool_decide_eq_true_2 by done.
    + intros n p v Hname Hp. simpl. unfold RunData.set1. rewrite Hname, Hp.
      rewrite (pair_requirements rd n p Hwf Hp).
      by rewrite bool_decide_eq_false_2 by (by apply general_key_not_pair).
Qed.

(** ** What the store operations keep *)

Lemma set_Ok (key : string) (v : value) (m m' : MetaData.t) :
  MetaData.set key v m = Ok m' →
  MetaData.name m' = MetaData.name m
  ∧ MetaData.required_parameters m' = MetaData.required_parameters m
  ∧ MetaData._metadata m' = <[key := v]> (MetaData._metadata m).
Proof.
  unfold MetaData.set. destruct (MetaData.legal m key); [|done].
  by intros [= <-].
Qed.

Lemma set_kwargs_Ok (kwargs : pydict) (m m' : MetaData.t) :
  MetaData.set_kwargs kwargs m = Ok m' →
  MetaData.name m' = MetaData.name m
  ∧ MetaData.required_parameters m' = MetaData.required_parameters m
  ∧ MetaData._metadata m'
    = foldl (λ acc kv, <[kv.1 := kv.2]> acc) (MetaData._metadata m) kwargs.
Proof.
  revert m. induction kwargs as [|[k v] kwargs IH]; intros m; simpl.
  - by intros [= <-].
  - intros (m1 & Hset & Hrest)%bind_Ok.
    apply set_Ok in Hset as (Hn & Hr & Hm).
    apply IH in Hrest as (Hn' & Hr' & Hm').
    rewrite Hn', Hr', Hm', Hn, Hr, Hm. done.
Qed.

Lemma init_wf (rd : RunData.t) : RunData.init = Ok rd → run_data_wf rd.
Proof.
  unfold RunData.init. intros (g & Hg & [= <-])%bind_Ok.
  apply set_kwargs_Ok in Hg as (_ & Hr & _).
  split; [done|]. split; [|done].
  intros n p Hn. simpl in Hn. by rewrite lookup_empty in Hn.
Qed.

Lemma from_pair_data_wf (pd : PairData) (rd rd' : RunData.t) :
  run_data_wf rd → RunData.from_pair_data pd rd = Ok rd' → run_data_wf rd'.
Proof.
  intros (Hg & Hp & Hh). unfold RunData.from_pair_data.
  intros (s & _ & (p1 & H1 & (p2 & H2 & [= <-])%bind_Ok)%bind_Ok)%bind_Ok.
  apply set_kwargs_Ok in H1 as (_ & Hr1 & _).
  apply set_kwargs_Ok in H2 as (_ & Hr2 & _).
  split; [done|]. split; [|done].
  intros n p. simpl. rewrite lookup_insert. case_decide.
  - intros [= <-]. by rewrite Hr2, Hr1.
  - apply Hp.
Qed.

Lemma load_pair_data_wf (pds : list PairData) (rd rd' : RunData.t) :
  run_data_wf rd → RunConfig.load_pair_data pds rd = Ok rd' → run_data_wf rd'.
Proof.
  revert rd. induction pds as [|pd pds IH]; intros rd Hwf; simpl.
  - by intros [= <-].
  - intros (rd1 & H1 & Hrest)%bind_Ok.
    eapply IH; [|exact Hrest]. by eapply from_pair_data_wf.
Qed.

Lemma two_pairs_wf (rd : RunData.t) : two_pairs = Ok rd → run_data_wf rd.
Proof.
  unfold two_pairs. intros (rd0 & H0 & Hload)%bind_Ok.
  eapply load_pair_data_wf; [|exact Hload]. by apply init_wf.
Qed.

Lemma two_pairs_returns : ∃ rd, two_pairs = Ok rd.
Proof.
  assert (Hobs : match two_pairs with Ok _ => true | Raise _ => false end = true)
    by (vm_compute; reflexivity).
  destruct two_pairs as [rd|e]; [by exists rd|discriminate Hobs].
Qed.

Lemma get_routing_witness :
  ∃ rd, two_pairs = Ok rd
        ∧ RunData.get "alpha" None rd
          = Raise (ValueError "pair-specific parameter without a name").
Proof.
  destruct two_pairs_returns as [rd Hrd]. rewrite Hrd.
  exists rd. split; [reflexivity|].
  apply (get_routing rd "alpha" None).
  - by apply two_pairs_wf.
  - apply (bool_decide_unpack _). by vm_compute.
  - reflexivity.
Defined.

(** C8, the case the code does not have: a general key asked together with
    a pair name is answered, not refused. *)
Lemma get_general_key_with_name :
  ∃ rd, two_pairs = Ok rd
        ∧ RunData.get "phase" (Some "A-B") rd = Ok (RunData.Value (VStr "training"))
        ∧ RunData.set (Some "A-B") [("phase", VStr "production")] rd
          = Raise (ValueError "not a pair-specific parameter").
Proof.
  assert (Hobs :
    match two_pairs with
    | Ok rd =>
        Some (RunData.get "phase" (Some "A-B") rd,
              RunData.set (Some "A-B") [("phase", VStr "production")] rd)
    | Raise _ => None
    end = Some (Ok (RunData.Value (VStr "training")),
                Raise (ValueError "not a pair-specific parameter")))
    by (vm_compute; reflexivity).
  destruct two_pairs as [rd|e]; [|discriminate Hobs].
  assert (Hget : RunData.get "phase" (Some "A-B") rd
                 = Ok (RunData.Value (VStr "training"))) by (by injection Hobs).
  assert (Hset : RunData.set (Some "A-B") [("phase", VStr "production")] rd
                 = Raise (ValueError "not a pair-specific parameter"))
    by (by injection Hobs).
  exists rd. split; [reflexivity|]. split; [exact Hget|exact Hset].
Qed.

(** ** Directory resolution *)

Lemma init_required (top_dir : string) (param_dict : gmap string value)
    (dh : DirectoryHelper.t) :
  DirectoryHelper.init top_dir param_dict = Ok dh →
  dh = DirectoryHelper.mk top_dir param_dict
  ∧ ∃ e i p, param_dict !! "ensemble_num" = Some e
             ∧ param_dict !! "iteration" = Some i
             ∧ param_dict !! "phase" = Some p.
Proof.
  unfold DirectoryHelper.init. simpl.
  destruct (param_dict !! "ensemble_num") as [e|]; [|done].
  destruct (param_dict !! "iteration") as [i|]; [|done].
  destruct (param_dict !! "phase") as [p|]; [|done].
  simpl. intros [= <-]. split; [done|]. by exists e, i, p.
Qed.

(** C9, as the code has it: the constructor asks for the ensemble number,
    the iteration and the phase only.  The levels down to ['phase'] resolve
    without a work sample in every phase, to [<top>/mem_<e>/<i>/<phase>].
    The level ['work_sample'], the working directory of convergence and
    production, fails with a [KeyError] when the work sample is missing,
    resolves to [<top>/mem_<e>/<i>/<phase>/<workSample>] when it is there,
    and is refused by assertion in training. *)
Theorem get_dir_work_sample (top_dir : string) (param_dict : gmap string value)
    (dh : DirectoryHelper.t) :
  DirectoryHelper.init top_dir param_dict = Ok dh →
  ∃ e i p,
    param_dict !! "ensemble_num" = Some e
    ∧ param_dict !! "iteration" = Some i
    ∧ param_dict !! "phase" = Some p
    ∧ DirectoryHelper.get_dir "phase" dh
      = Ok (top_dir +:+ "/mem_" +:+ py_str e +:+ "/" +:+ py_str i
              +:+ "/" +:+ py_str p)
    ∧ (is_str p "convergence" || is_str p "production" = true →
         (param_dict !! "work_sample" = None →
            DirectoryHelper.get_dir "work_sample" dh = Raise (KeyError "work_sample"))
         ∧ (∀ ws, param_dict !! "work_sample" = Some ws →
              DirectoryHelper.get_dir "work_sample" dh
              = Ok (top_dir +:+ "/mem_" +:+ py_str e +:+ "/" +:+ py_str i
                      +:+ "/" +:+ py_str p +:+ "/" +:+ py_str ws)))
    ∧ (is_str p "training" = true →
         DirectoryHelper.get_dir "work_sample" dh = Raise AssertionError).
Proof.
  intros (-> & e & i & p & He & Hi & Hp)%init_required.
  exists e, i, p. do 3 (split; [done|]).
  unfold DirectoryHelper.get_dir, DirectoryHelper.item. simpl.
  rewrite He, Hi, Hp. simpl. split; [done|]. split.
  - intros ->. split.
    + by intros ->.
    + by intros ws ->.
  - intros Htrain. destruct p as [| |s| |]; try done.
    simpl in *. apply bool_decide_eq_true in Htrain as ->. done.
Qed.

Lemma get_dir_work_sample_witness :
  ∃ dh,
    DirectoryHelper.init "/ens"
      {[ "ensemble_num" := VInt 1; "iteration" := VInt 0;
         "phase" := VStr "convergence" ]} = Ok dh
    ∧ DirectoryHelper.get_dir "work_sample" dh = Raise (KeyError "work_sample").
Proof.
  eexists. split; [reflexivity|].
  destruct (get_dir_work_sample "/ens"
              {[ "ensemble_num" := VInt 1; "iteration" := VInt 0;
                 "phase" := VStr "convergence" ]}
              (DirectoryHelper.mk "/ens"
                 {[ "ensemble_num" := VInt 1; "iteration" := VInt 0;
                    "phase" := VStr "convergence" ]}))
    as (e & i & p & _ & _ & Hp & _ & Hws & _).
  - reflexivity.
  - vm_compute in Hp. injection Hp as <-.
    apply Hws; reflexivity.
Defined.

(** C9, the case the code does not have: in convergence, with no work
    sample given, the helper is built and resolves the phase directory. *)
Lemma convergence_resolves_without_work_sample :
  ∃ dh,
    DirectoryHelper.init "/ens"
      {[ "ensemble_num" := VInt 1; "iteration" := VInt 0;
         "phase" := VStr "convergence" ]} = Ok dh
    ∧ DirectoryHelper._param_dict dh !! "work_sample" = None
    ∧ DirectoryHelper.get_dir "phase" dh = Ok "/ens/mem_1/0/convergence".
Proof.
  eexists. split; [reflexivity|]. split; vm_compute; reflexivity.
Qed.

(** ** Loading and dumping the document *)

Lemma init_fresh :
  RunData.init
  = Ok (RunData.mk
          (MetaData.mk "general" (Some GeneralParams.requirements)
             GeneralParams.get_defaults)
          ∅ History.init).
Proof. vm_compute. reflexivity. Qed.

Lemma init_canonical (rd : RunData.t) : RunData.init = Ok rd → run_data_canonical rd.
Proof.
  intros Hinit. split; [by apply init_wf|].
  rewrite init_fresh in Hinit. injection Hinit as <-.
  do 2 (split; [done|]). split.
  - apply (bool_decide_unpack _). by vm_compute.
  - intros n p Hn. cbn in Hn. by rewrite lookup_empty in Hn.
Qed.

Lemma foldl_insert_lookup {V W} (f : string → V → W) (l : list (string * V))
    (acc : gmap string W) (k : string) :
  NoDup l.*1 →
  foldl (λ acc kv, <[kv.1 := f kv.1 kv.2]> acc) acc l !! k
  = match (list_to_map l : gmap string V) !! k with
    | Some v => Some (f k v)
    | None => acc !! k
    end.
Proof.
  revert acc. induction l as [|[k0 v0] l IH]; intros acc Hnd; simpl.
  - by rewrite lookup_empty.
  - apply NoDup_cons in Hnd as [Hk0 Hnd]. rewrite IH by done.
    rewrite (lookup_insert (list_to_map l)). case_decide as Hk; subst.
    + rewrite (not_elem_of_list_to_map_1 (M := gmap string) l k) by done.
      by rewrite lookup_insert_eq.
    + destruct (list_to_map l !! k); [done|]. by rewrite lookup_insert_ne.
Qed.

Lemma set_kwargs_legal (kwargs : pydict) (m : MetaData.t) :
  Forall (λ kv, MetaData.legal m kv.1 = true) kwargs →
  MetaData.set_kwargs kwargs m
  = Ok (MetaData.mk (MetaData.name m) (MetaData.required_parameters m)
          (foldl (λ acc kv, <[kv.1 := kv.2]> acc) (MetaData._metadata m) kwargs)).
Proof.
  revert m. induction kwargs as [|[k v] kwargs IH]; intros m Hall; simpl.
  - by destruct m.
  - apply Forall_cons in Hall as [Hk Hall]. simpl in Hk.
    unfold MetaData.set at 1. rewrite Hk. simpl. rewrite IH; [done|].
    eapply Forall_impl; [exact Hall|]. intros kv. by unfold MetaData.legal.
Qed.

(** With every key of [data] legal, the bulk load answers with the store
    overwritten by [data]. *)
Lemma set_from_dictionary_union (data : gmap string value) (m : MetaData.t) :
  (∀ k, k ∈ dom data → MetaData.legal m k = true) →
  MetaData.set_from_dictionary data m
  = Ok (MetaData.mk (MetaData.name m) (MetaData.required_parameters m)
          (data ∪ MetaData._metadata m)).
Proof.
  intros Hlegal. unfold MetaData.set_from_dictionary.
  rewrite set_kwargs_legal.
  - do 2 f_equal. apply map_eq. intros k.
    rewrite (foldl_insert_lookup (λ _ v, v)) by apply NoDup_fst_map_to_list.
    rewrite list_to_map_to_list, lookup_union.
    destruct (data !! k), (MetaData._metadata m !! k); done.
  - apply Forall_forall. intros [k v] Hin. apply Hlegal.
    apply elem_of_map_to_list in Hin. apply elem_of_dom. by eexists.
Qed.

Lemma union_cover {V} (data m : gmap string V) : dom m ⊆ dom data → data ∪ m = data.
Proof.
  intros Hsub. apply map_eq. intros k. rewrite lookup_union.
  destruct (data !! k) as [v|] eqn:Hd; [by destruct (m !! k)|].
  apply not_elem_of_dom in Hd.
  assert (Hm : k ∉ dom m) by set_solver. apply not_elem_of_dom in Hm.
  by rewrite Hm.
Qed.

Lemma load_pair_legal (name : string) (data : gmap string value) :
  dom data ⊆ list_to_set PairParams.requirements →
  MetaData.set_from_dictionary data (PairParams.init name)
  = Ok (MetaData.mk name (Some PairParams.requirements) data).
Proof.
  intros Hdata. rewrite set_from_dictionary_union.
  - unfold PairParams.init, MetaData.set_requirements, MetaData.init.
    cbn [MetaData.name MetaData.required_parameters MetaData._metadata].
    do 2 f_equal. apply union_cover. by rewrite dom_empty_L.
  - intros k Hk. unfold MetaData.legal, PairParams.init, MetaData.set_requirements.
    cbn [MetaData.required_parameters].
    apply bool_decide_eq_true. apply Hdata in Hk.
    by apply elem_of_list_to_set in Hk.
Qed.

Lemma load_pairs_legal (entries : list (string * gmap string value))
    (pairs : gmap string MetaData.t) :
  Forall (λ nd, dom nd.2 ⊆ list_to_set PairParams.requirements) entries →
  RunData.load_pairs entries pairs
  = Ok (foldl (λ acc nd,
                 <[nd.1 := MetaData.mk nd.1 (Some PairParams.requirements) nd.2]> acc)
              pairs entries).
Proof.
  revert pairs. induction entries as [|[name data] entries IH]; intros pairs Hall.
  - done.
  - apply Forall_cons in Hall as [Hdata Hall].
    cbn [RunData.load_pairs foldl fst snd]. rewrite load_pair_legal by exact Hdata.
    cbn [mbind result_bind]. by rewrite IH.
Qed.





(** ** Training never repeats a target set *)

Section Redraw.
Context `{Collaborators}.

Lemma redraw_accepts (fuel : nat) (history : MetaData.t) (targets : pydict)
    (pairs : MultiPair) :
  History.check_targets targets history = Ok false →
  RunConfig.redraw fuel history targets pairs = Some (Ok (targets, pairs)).
Proof. intros Hnew. destruct fuel; simpl; by rewrite Hnew. Qed.

Lemma redraw_rejects (fuel : nat) (history : MetaData.t) (targets : pydict)
    (pairs : MultiPair) :
  History.check_targets targets history = Ok true →
  RunConfig.redraw (S fuel) history targets pairs
  = RunConfig.redraw fuel history (re_sample pairs).1 (re_sample pairs).2.
Proof. intros Hseen. simpl. rewrite Hseen. by destruct (re_sample pairs). Qed.

Lemma redraw_draw (history : MetaData.t) (n : nat) (pairs : MultiPair) :
  History.check_targets (RunConfig.draw n pairs).1 history = Ok false →
  ∃ k, (k ≤ n)%nat
       ∧ (∀ j, (j < k)%nat →
            History.check_targets (RunConfig.draw j pairs).1 history = Ok true)
       ∧ History.check_targets (RunConfig.draw k pairs).1 history = Ok false
       ∧ ∀ fuel, (k ≤ fuel)%nat →
           RunConfig.redraw fuel history (re_sample pairs).1 (re_sample pairs).2
           = Some (Ok (RunConfig.draw k pairs)).
Proof.
  assert (Hstop : ∀ pairs fuel,
    History.check_targets (re_sample pairs).1 history = Ok false →
    RunConfig.redraw fuel history (re_sample pairs).1 (re_sample pairs).2
    = Some (Ok (RunConfig.draw 0 pairs))).
  { intros pairs0 fuel Hnew. rewrite redraw_accepts by done.
    simpl. by destruct (re_sample pairs0). }
  revert pairs. induction n as [|n IH]; intros pairs Hfresh.
  - exists 0%nat. split; [lia|]. split; [intros j Hj; lia|]. split; [done|].
    intros fuel _. by apply Hstop.
  - destruct (check_targets_total (re_sample pairs).1 history) as [[|] Hfirst].
    + destruct (IH (re_sample pairs).2 Hfresh) as (k & Hk & Hseen & Hnew & Hfuel).
      exists (S k). split; [lia|]. split; [|split; [done|]].
      * intros [|j] Hj; [done|]. apply Hseen. lia.
      * intros [|fuel] Hle; [lia|]. rewrite redraw_rejects by done.
        apply Hfuel. lia.
    + exists 0%nat. split; [lia|]. split; [intros j Hj; lia|]. split; [done|].
      intros fuel _. by apply Hstop.
Qed.

End Redraw.

(** ** Code that touches the disk *)

Lemma io_bind_Ok {A B} (m : io A) (k : A → io B) (w w' : world) (b : B) :
  (m ≫= k) w = (w', Ok b) ↔ ∃ a w1, m w = (w1, Ok a) ∧ k a w1 = (w', Ok b).
Proof.
  unfold mbind, io_bind. destruct (m w) as [w1 [a|e]]; split.
  - intros Hk. by exists a, w1.
  - by intros (a' & w1' & [= <- <-] & Hk).
  - intros [=].
  - by intros (a' & w1' & [=] & _).
Qed.

Lemma io_bind_lift {A B} (r : result A) (k : A → io B) (a : A) (w : world) :
  r = Ok a → (lift r ≫= k) w = k a w.
Proof. by intros ->. Qed.

Lemma lift_Ok {A} (r : result A) (a : A) (w w' : world) :
  lift r w = (w', Ok a) ↔ r = Ok a ∧ w' = w.
Proof.
  unfold lift. split.
  - by intros [= <- ->].
  - by intros [-> ->].
Qed.

Lemma json_dump_inv (d : document) (fnm : string) (w w' : world) :
  json_dump d fnm w = (w', Ok tt) →
  w' = World (<[fnm := Json d]> (files w)) (dirs w) (cwd w)
  ∧ open_blocked (dirs_above fnm) fnm w = None
  ∧ fnm ∉ dirs w.
Proof.
  unfold json_dump. destruct (open_blocked _ fnm w); [done|].
  case_bool_decide; [done|]. by intros [= <-].
Qed.



Lemma length_app (s1 s2 : string) :
  String.length (s1 +:+ s2) = (String.length s1 + String.length s2)%nat.
Proof. induction s1 as [|c s1 IH]; simpl; [done|]. by rewrite IH. Qed.

Lemma app_neq_self (s suffix : string) :
  suffix ≠ EmptyString → s +:+ suffix ≠ s.
Proof.
  intros Hne Heq. apply (f_equal String.length) in Heq.
  rewrite length_app in Heq. destruct suffix; [done|]. simpl in Heq. lia.
Qed.

(** ** Checkpoint continuity *)

(** C7, as the code has it: [__move_cpt], the continuity step of every
    phase, leaves the disk as it is and raises nothing when a checkpoint is
    at the path of the current phase.  Convergence and production start
    with it.  Training does not resume in place: before it reaches
    [__move_cpt], [__train] moves a checkpoint found in the working
    directory aside to [state.cpt.bak]. *)
Theorem existing_checkpoint `{Collaborators} (rc : RunConfig.t) (w : world)
    (e i p : value) :
  RunData.get_value "iteration" None (RunConfig.run_data rc) = Ok i →
  RunData.get_value "ensemble_num" None (RunConfig.run_data rc) = Ok e →
  RunData.get_value "phase" None (RunConfig.run_data rc) = Ok p →
  is_Some (files w !! RunConfig.updated_path rc e i p) →
  RunConfig.__move_cpt rc w = (w, Ok tt)
  ∧ (cwd w +:+ "/state.cpt" = RunConfig.updated_path rc e i p →
     ∃ f w',
       files w !! RunConfig.updated_path rc e i p = Some f
       ∧ RunConfig.backup_cpt w = (w', Ok tt)
       ∧ files w' !! RunConfig.updated_path rc e i p = None
       ∧ files w' !! (RunConfig.updated_path rc e i p +:+ ".bak") = Some f).
Proof.
  intros Hi He Hp [f Hf]. split.
  - unfold RunConfig.__move_cpt.
    rewrite (io_bind_lift _ _ i) by done.
    rewrite (io_bind_lift _ _ e) by done.
    rewrite (io_bind_lift _ _ p) by done.
    unfold mbind, io_bind, exists_. rewrite Hf.
    rewrite (bool_decide_eq_true_2 (is_Some (Some f))) by by eexists. done.
  - intros Hcwd. exists f. eexists. split; [done|].
    unfold RunConfig.backup_cpt, mbind, io_bind, getcwd, exists_, move.
    rewrite Hcwd, Hf.
    rewrite (bool_decide_eq_true_2 (is_Some (Some f))) by by eexists.
    cbn [orb]. rewrite Hf. split; [reflexivity|]. cbn [files]. split.
    + rewrite lookup_insert_ne by (by apply app_neq_self).
      apply lookup_delete_eq.
    + apply lookup_insert_eq.
Qed.

Lemma existing_checkpoint_witness :
  ∃ rc, in_phase "convergence" = Ok rc
        ∧ @RunConfig.__move_cpt scripted rc
            (one_checkpoint "/ens/mem_1/0/convergence/1/state.cpt")
          = (one_checkpoint "/ens/mem_1/0/convergence/1/state.cpt", Ok tt).
Proof.
  assert (Hobs :
    match in_phase "convergence" with
    | Ok rc =>
        Some (RunData.get_value "iteration" None (RunConfig.run_data rc),
              RunData.get_value "ensemble_num" None (RunConfig.run_data rc),
              RunData.get_value "phase" None (RunConfig.run_data rc),
              @RunConfig.updated_path scripted rc (VInt 1) (VInt 0)
                (VStr "convergence"))
    | Raise _ => None
    end = Some (Ok (VInt 0), Ok (VInt 1), Ok (VStr "convergence"),
                "/ens/mem_1/0/convergence/1/state.cpt"))
    by (vm_compute; reflexivity).
  destruct (in_phase "convergence") as [rc|err]; [|discriminate Hobs].
  assert (Hi : RunData.get_value "iteration" None (RunConfig.run_data rc)
               = Ok (VInt 0)) by (by injection Hobs).
  assert (He : RunData.get_value "ensemble_num" None (RunConfig.run_data rc)
               = Ok (VInt 1)) by (by injection Hobs).
  assert (Hp : RunData.get_value "phase" None (RunConfig.run_data rc)
               = Ok (VStr "convergence")) by (by injection Hobs).
  assert (Hpath : @RunConfig.updated_path scripted rc (VInt 1) (VInt 0)
                    (VStr "convergence")
                  = "/ens/mem_1/0/convergence/1/state.cpt") by (by injection Hobs).
  exists rc. split; [reflexivity|].
  apply (existing_checkpoint (H := scripted) rc
           (one_checkpoint "/ens/mem_1/0/convergence/1/state.cpt")
           (VInt 1) (VInt 0) (VStr "convergence") Hi He Hp).
  rewrite Hpath. vm_compute. by eexists.
Defined.

(** C7, the case the code does not have: a run in training that finds a
    checkpoint in its working directory does not leave it in place; after
    the run it is at [state.cpt.bak]. *)
Lemma training_moves_checkpoint_aside :
  ∃ rc w' rc',
    in_training = Ok rc
    ∧ RunData.get_value "phase" None (RunConfig.run_data rc) = Ok (VStr "training")
    ∧ files (one_checkpoint "/ens/mem_1/0/training/state.cpt")
        !! "/ens/mem_1/0/training/state.cpt" = Some (Blob "checkpoint")
    ∧ @RunConfig.run scripted 0 false rc
        (one_checkpoint "/ens/mem_1/0/training/state.cpt") = Some (w', Ok rc')
    ∧ files w' !! "/ens/mem_1/0/training/state.cpt" = None
    ∧ files w' !! "/ens/mem_1/0/training/state.cpt.bak" = Some (Blob "checkpoint").
Proof.
  assert (Hobs :
    match in_training with
    | Ok rc =>
        match @RunConfig.run scripted 0 false rc
                (one_checkpoint "/ens/mem_1/0/training/state.cpt") with
        | Some (w', Ok rc') =>
            Some (RunData.get_value "phase" None (RunConfig.run_data rc),
                  files w' !! "/ens/mem_1/0/training/state.cpt",
                  files w' !! "/ens/mem_1/0/training/state.cpt.bak")
        | _ => None
        end
    | Raise _ => None
    end = Some (Ok (VStr "training"), None, Some (Blob "checkpoint")))
    by (vm_compute; reflexivity).
  destruct in_training as [rc|err]; [|discriminate Hobs].
  destruct (@RunConfig.run scripted 0 false rc
              (one_checkpoint "/ens/mem_1/0/training/state.cpt"))
    as [[w' [rc'|err]]|] eqn:Hrun; [|discriminate Hobs..].
  assert (Hphase : RunData.get_value "phase" None (RunConfig.run_data rc)
                   = Ok (VStr "training")) by (by injection Hobs).
  assert (Hcpt : files w' !! "/ens/mem_1/0/training/state.cpt" = None)
    by (by injection Hobs).
  assert (Hbak : files w' !! "/ens/mem_1/0/training/state.cpt.bak"
                 = Some (Blob "checkpoint")) by (by injection Hobs).
  exists rc, w', rc'. split; [reflexivity|]. split; [exact Hphase|].
  split; [vm_compute; reflexivity|]. split; [exact Hrun|].
  split; [exact Hcpt|exact Hbak].
Qed.

(** ** Reading a general parameter *)

Lemma get_value_general (key : string) (rd : RunData.t) (v : value) :
  key ≠ "history" →
  RunData.get_value key None rd = Ok v ↔
  key ∈ MetaData.get_requirements (RunData.general_params rd)
  ∧ MetaData._metadata (RunData.general_params rd) !! key = Some v.
Proof.
  intros Hkey. unfold RunData.get_value, RunData.get, MetaData.get. simpl.
  case_bool_decide as Hin.
  - destruct (MetaData._metadata (RunData.general_params rd) !! key) as [v'|]; simpl.
    + split; [by intros [= ->]|by intros [_ [= ->]]].
    + split; [done|by intros [_ [=]]].
  - rewrite decide_False by done. simpl. split; [done|by intros [? _]].
Qed.

(** ** What changing into the working directory does to the disk *)

Lemma io_bind_inv {A B} (m : io A) (k : A → io B) (w w1 : world) (r : result B) :
  (m ≫= k) w = (w1, r) →
  (∃ e, m w = (w1, Raise e) ∧ r = Raise e)
  ∨ (∃ a w', m w = (w', Ok a) ∧ k a w' = (w1, r)).
Proof.
  unfold mbind, io_bind. destruct (m w) as [w' [a|e]].
  - intros Hk. right. by exists a, w'.
  - intros [= <- <-]. left. by exists e.
Qed.

Lemma lift_inv {A} (x : result A) (w w1 : world) (r : result A) :
  lift x w = (w1, r) → w1 = w ∧ x = r.
Proof. by intros [= <- <-]. Qed.

Lemma dir_prefixes_length (seen path d : string) :
  d ∈ dir_prefixes seen path →
  (String.length d ≤ String.length seen + String.length path)%nat.
Proof.
  revert seen. induction path as [|c path IH]; intros seen; simpl.
  - intros ->%list_elem_of_singleton. lia.
  - intros [Hd|Hd]%elem_of_app.
    + destruct (Ascii.eqb c "/"); [|by apply elem_of_nil in Hd].
      apply list_elem_of_singleton in Hd as ->. lia.
    + apply IH in Hd. rewrite length_app in Hd. simpl in Hd. lia.
Qed.

Lemma adds_dirs_refl (bound : nat) (w : world) : adds_dirs_upto bound w w.
Proof. split; [done|]. intros d Hd. by left. Qed.

Lemma adds_dirs_trans (bound : nat) (w w1 w2 : world) :
  adds_dirs_upto bound w w1 → adds_dirs_upto bound w1 w2 → adds_dirs_upto bound w w2.
Proof.
  intros [Hf1 Hd1] [Hf2 Hd2]. split; [congruence|].
  intros d Hd. destruct (Hd2 d Hd) as [Hin|Hle]; [by apply Hd1|by right].
Qed.

Lemma makedirs_frame (path : string) (w w1 : world) (r : result unit) (bound : nat) :
  (String.length path ≤ bound)%nat →
  makedirs path w = (w1, r) → adds_dirs_upto bound w w1.
Proof.
  intros Hle. unfold makedirs. destruct (makedirs_blocked _ w).
  - intros [= <- <-]. apply adds_dirs_refl.
  - intros [= <- <-]. split; [done|]. simpl. intros d [Hd|Hd]%elem_of_union; [|by left].
    right. apply elem_of_list_to_set, list_elem_of_filter in Hd as [_ Hd].
    apply dir_prefixes_length in Hd. simpl in Hd. lia.
Qed.

Lemma chdir_frame (path : string) (w w1 : world) (r : result unit) (bound : nat) :
  chdir path w = (w1, r) → adds_dirs_upto bound w w1.
Proof.
  unfold chdir. case_bool_decide; intros [= <- <-]; by split; [|intros d Hd; left].
Qed.

Lemma get_dir_phase (top_dir : string) (pdict : gmap string value) (e i p : value) :
  pdict !! "ensemble_num" = Some e → pdict !! "iteration" = Some i →
  pdict !! "phase" = Some p →
  DirectoryHelper.get_dir "phase" (DirectoryHelper.mk top_dir pdict)
  = Ok (top_dir +:+ "/mem_" +:+ py_str e +:+ "/" +:+ py_str i +:+ "/" +:+ py_str p).
Proof.
  intros He Hi Hp. unfold DirectoryHelper.get_dir, DirectoryHelper.item. simpl.
  by rewrite He, Hi, Hp.
Qed.

Lemma get_dir_work_sample_Ok (top_dir : string) (pdict : gmap string value)
    (e i p : value) (d : string) :
  pdict !! "ensemble_num" = Some e → pdict !! "iteration" = Some i →
  pdict !! "phase" = Some p →
  DirectoryHelper.get_dir "work_sample" (DirectoryHelper.mk top_dir pdict) = Ok d →
  ∃ ws, pdict !! "work_sample" = Some ws
        ∧ d = top_dir +:+ "/mem_" +:+ py_str e +:+ "/" +:+ py_str i
                +:+ "/" +:+ py_str p +:+ "/" +:+ py_str ws.
Proof.
  intros He Hi Hp. unfold DirectoryHelper.get_dir, DirectoryHelper.item. simpl.
  rewrite He, Hi, Hp. simpl.
  destruct (is_str p "convergence" || is_str p "production"); [|done].
  destruct (pdict !! "work_sample") as [ws|]; [|done].
  simpl. intros [= <-]. by exists ws.
Qed.

Section Frame.
Context `{Collaborators}.

(** The working directory of the current phase, as [get_dir] spells it at
    the level ['work_sample']. *)
Lemma change_directory_frame (rc : RunConfig.t) (w w1 : world) (r : result unit)
    (e i p : value) :
  RunData.get_value "ensemble_num" None (RunConfig.run_data rc) = Ok e →
  RunData.get_value "iteration" None (RunConfig.run_data rc) = Ok i →
  RunData.get_value "phase" None (RunConfig.run_data rc) = Ok p →
  RunConfig.__change_directory rc w = (w1, r) →
  adds_dirs_upto
    (String.length (RunConfig.ens_dir rc +:+ "/mem_" +:+ py_str e +:+ "/" +:+ py_str i
                      +:+ "/" +:+ py_str p +:+ "/" +:+ py_str (RunConfig.work_sample rc)))
    w w1.
Proof.
  intros He Hi Hp. unfold RunConfig.__change_directory.
  rewrite (io_bind_lift _ _ p) by done.
  apply get_value_general in He as [_ He]; [|done].
  apply get_value_general in Hi as [_ Hi]; [|done].
  apply get_value_general in Hp as [_ Hp]; [|done].
  set (m := MetaData.get_as_dictionary (RunData.general_params (RunConfig.run_data rc))).
  set (pdict := if is_str p "training" then m
                else <["work_sample" := RunConfig.work_sample rc]> m).
  set (bound := String.length _).
  assert (Hpe : pdict !! "ensemble_num" = Some e).
  { unfold pdict. destruct (is_str p "training"); [done|]. by rewrite lookup_insert_ne. }
  assert (Hpi : pdict !! "iteration" = Some i).
  { unfold pdict. destruct (is_str p "training"); [done|]. by rewrite lookup_insert_ne. }
  assert (Hpp : pdict !! "phase" = Some p).
  { unfold pdict. destruct (is_str p "training"); [done|]. by rewrite lookup_insert_ne. }
  assert (Hphase_len : ∀ d,
    DirectoryHelper.get_dir "phase" (DirectoryHelper.mk (RunConfig.ens_dir rc) pdict)
      = Ok d → (String.length d ≤ bound)%nat).
  { intros d. rewrite (get_dir_phase _ _ e i p) by done. intros [= <-].
    unfold bound. rewrite !length_app. lia. }
  assert (Hws_len : ∀ d,
    DirectoryHelper.get_dir "work_sample" (DirectoryHelper.mk (RunConfig.ens_dir rc) pdict)
      = Ok d → is_str p "training" = false → (String.length d ≤ bound)%nat).
  { intros d Hd Hnt.
    destruct (get_dir_work_sample_Ok _ _ e i p d Hpe Hpi Hpp Hd) as (ws & Hws & ->).
    unfold pdict in Hws. rewrite Hnt, lookup_insert_eq in Hws. injection Hws as <-.
    done. }
  assert (Hbuild : ∀ w w1 r,
    DirectoryIO.build_working_dir (DirectoryHelper.mk (RunConfig.ens_dir rc) pdict) w
      = (w1, r) → adds_dirs_upto bound w w1).
  { clear w w1 r. intros w w1 r. unfold DirectoryIO.build_working_dir.
    intros [(err & [-> _]%lift_inv & _)|(d & w' & [-> Hd]%lift_inv & Hrest)]%io_bind_inv;
      [apply adds_dirs_refl|].
    apply io_bind_inv in Hrest as [(err & Hmk & _)|([] & w2 & Hmk & Hrest)].
    { eapply makedirs_frame; [|exact Hmk]. by apply Hphase_len. }
    eapply adds_dirs_trans; [eapply makedirs_frame; [|exact Hmk]; by apply Hphase_len|].
    unfold DirectoryHelper.item in Hrest. simpl in Hrest. rewrite Hpp in Hrest.
    rewrite (io_bind_lift _ _ p) in Hrest by done.
    destruct (is_str p "convergence" || is_str p "production") eqn:Hcp.
    - apply io_bind_inv in Hrest
        as [(err & [-> _]%lift_inv & _)|(d2 & w3 & [-> Hd2]%lift_inv & Hrest)];
        [apply adds_dirs_refl|].
      eapply makedirs_frame; [|exact Hrest]. apply Hws_len; [done|].
      destruct p as [| |s| |]; try done. simpl in *.
      apply bool_decide_eq_false. intros ->. by vm_compute in Hcp.
    - injection Hrest as <- <-. apply adds_dirs_refl. }
  intros [(err & [-> _]%lift_inv & _)|(dh & w' & [-> Hdh]%lift_inv & Hrest)]%io_bind_inv;
    [apply adds_dirs_refl|].
  apply init_required in Hdh as [-> _].
  apply io_bind_inv in Hrest as [(err & Hb & _)|([] & w2 & Hb & Hrest)];
    [by eapply Hbuild|].
  eapply adds_dirs_trans; [by eapply Hbuild|].
  unfold DirectoryIO.change_dir in Hrest.
  destruct (is_str p "training");
    apply io_bind_inv in Hrest
      as [(err & [-> _]%lift_inv & _)|(d & w3 & [-> Hd]%lift_inv & Hrest)];
    try apply adds_dirs_refl; by eapply chdir_frame.
Qed.

End Frame.

(** ** Production without its checkpoints *)

Section Production.
Context `{Collaborators}.

Lemma move_cpt_missing (rc : RunConfig.t) (w : world) (e i : value) :
  RunData.get_value "iteration" None (RunConfig.run_data rc) = Ok i →
  RunData.get_value "ensemble_num" None (RunConfig.run_data rc) = Ok e →
  RunData.get_value "phase" None (RunConfig.run_data rc) = Ok (VStr "production") →
  files w !! RunConfig.updated_path rc e i (VStr "production") = None →
  RunConfig.updated_path rc e i (VStr "production") ∉ dirs w →
  files w !! RunConfig.gmx_cpt rc e i = None →
  ∃ err, RunConfig.__move_cpt rc w = (w, Raise err).
Proof.
  intros Hi He Hp Hfile Hdir Hconv. unfold RunConfig.__move_cpt.
  rewrite (io_bind_lift _ _ i) by done.
  rewrite (io_bind_lift _ _ e) by done.
  rewrite (io_bind_lift _ _ (VStr "production")) by done.
  unfold mbind at 1, io_bind at 1, exists_. rewrite Hfile.
  rewrite (bool_decide_eq_false_2 (is_Some None)) by (by intros [? [=]]).
  rewrite (bool_decide_eq_false_2 (_ ∈ dirs w)) by done.
  cbn [orb]. destruct (py_sub i (VInt 1)) as [prev|err] eqn:Hsub.
  - rewrite (io_bind_lift _ _ prev) by done.
    change (is_str (VStr "production") "training"
            || is_str (VStr "production") "convergence") with false. cbv iota.
    unfold mbind, io_bind, getcwd, copy. rewrite Hconv. by eexists.
  - unfold mbind, io_bind, lift. by eexists.
Qed.

(** C6, as the code has it: in production, when the working directory
    holds no checkpoint and the convergence checkpoint of the iteration and
    work sample is missing too, [run] raises, and no file is written: the
    persisted document is what it was.  (With a checkpoint already in the
    production directory the convergence checkpoint is not looked for.) *)
Theorem production_without_checkpoints (fuel : nat) (set_next_phase : bool)
    (rc : RunConfig.t) (w : world) (e i : value) :
  RunData.get_value "phase" None (RunConfig.run_data rc) = Ok (VStr "production") →
  RunData.get_value "iteration" None (RunConfig.run_data rc) = Ok i →
  RunData.get_value "ensemble_num" None (RunConfig.run_data rc) = Ok e →
  files w !! RunConfig.gmx_cpt rc e i = None →
  files w !! RunConfig.updated_path rc e i (VStr "production") = None →
  RunConfig.updated_path rc e i (VStr "production") ∉ dirs w →
  ∃ w' err,
    RunConfig.run fuel set_next_phase rc w = Some (w', Raise err)
    ∧ files w' = files w
    ∧ files w' !! RunConfig.state_json rc = files w !! RunConfig.state_json rc.
Proof.
  intros Hp Hi He Hconv Hfile Hdir. unfold RunConfig.run.
  rewrite (io_bind_lift _ _ (VStr "production")) by done.
  destruct (RunConfig.__change_directory rc w) as [w1 r1] eqn:Hcd.
  destruct (change_directory_frame rc w w1 r1 e i (VStr "production") He Hi Hp Hcd)
    as [Hfiles Hdirs].
  unfold mbind at 1, io_bind at 1. rewrite Hcd. destruct r1 as [[]|err].
  - unfold mret, io_ret.
    change (is_str (VStr "production") "training") with false.
    change (is_str (VStr "production") "convergence") with false. cbv iota.
    destruct (move_cpt_missing rc w1 e i Hi He Hp) as [err Hmove].
    + by rewrite Hfiles.
    + intros Hin. apply Hdirs in Hin as [Hin|Hlen]; [done|].
      unfold RunConfig.updated_path in Hlen.
      change (is_str (VStr "production") "training") with false in Hlen.
      cbv iota in Hlen. rewrite !length_app in Hlen. simpl in Hlen. lia.
    + by rewrite Hfiles.
    + exists w1, err. split; [|by rewrite Hfiles].
      unfold RunConfig.__production, mbind, io_bind. by rewrite Hmove.
  - exists w1, err. split; [done|]. by rewrite Hfiles.
Qed.

End Production.

Lemma production_without_checkpoints_witness :
  ∃ rc w' err,
    in_phase "production" = Ok rc
    ∧ @RunConfig.run scripted 0 true rc (World ∅ ∅ "/") = Some (w', Raise err)
    ∧ files w' = ∅.
Proof.
  assert (Hobs :
    match in_phase "production" with
    | Ok rc =>
        Some (RunData.get_value "phase" None (RunConfig.run_data rc),
              RunData.get_value "iteration" None (RunConfig.run_data rc),
              RunData.get_value "ensemble_num" None (RunConfig.run_data rc))
    | Raise _ => None
    end = Some (Ok (VStr "production"), Ok (VInt 0), Ok (VInt 1)))
    by (vm_compute; reflexivity).
  destruct (in_phase "production") as [rc|err]; [|discriminate Hobs].
  assert (Hp : RunData.get_value "phase" None (RunConfig.run_data rc)
               = Ok (VStr "production")) by (by injection Hobs).
  assert (Hi : RunData.get_value "iteration" None (RunConfig.run_data rc)
               = Ok (VInt 0)) by (by injection Hobs).
  assert (He : RunData.get_value "ensemble_num" None (RunConfig.run_data rc)
               = Ok (VInt 1)) by (by injection Hobs).
  destruct (production_without_checkpoints (H := scripted) 0 true rc (World ∅ ∅ "/")
              (VInt 1) (VInt 0) Hp Hi He) as (w' & err & Hrun & Hfiles & _).
  - apply lookup_empty.
  - apply lookup_empty.
  - apply not_elem_of_empty.
  - exists rc, w', err. split; [reflexivity|]. split; [exact Hrun|exact Hfiles].
Defined.

(** C6, the case the code does not have: production finds a checkpoint in
    its own working directory.  The convergence checkpoint is missing, yet
    the run does not raise, and it writes the state document. *)
Lemma production_resumes_without_convergence_checkpoint :
  ∃ rc w' rc',
    in_phase "production" = Ok rc
    ∧ files (one_checkpoint "/ens/mem_1/0/production/1/state.cpt")
        !! @RunConfig.gmx_cpt scripted rc (VInt 1) (VInt 0) = None
    ∧ files (one_checkpoint "/ens/mem_1/0/production/1/state.cpt")
        !! RunConfig.state_json rc = None
    ∧ @RunConfig.run scripted 0 false rc
        (one_checkpoint "/ens/mem_1/0/production/1/state.cpt") = Some (w', Ok rc')
    ∧ files w' !! RunConfig.state_json rc
      = Some (Json (RunData.as_dictionary (RunConfig.run_data rc'))).
Proof.
  assert (Hobs :
    match in_phase "production" with
    | Ok rc =>
        match @RunConfig.run scripted 0 false rc
                (one_checkpoint "/ens/mem_1/0/production/1/state.cpt") with
        | Some (w', Ok rc') =>
            Some (files (one_checkpoint "/ens/mem_1/0/production/1/state.cpt")
                    !! @RunConfig.gmx_cpt scripted rc (VInt 1) (VInt 0),
                  files (one_checkpoint "/ens/mem_1/0/production/1/state.cpt")
                    !! RunConfig.state_json rc)
        | _ => None
        end
    | Raise _ => None
    end = Some (None, None))
    by (vm_compute; reflexivity).
  assert (Hsaved :
    match in_phase "production" with
    | Ok rc =>
        match @RunConfig.run scripted 0 false rc
                (one_checkpoint "/ens/mem_1/0/production/1/state.cpt") with
        | Some (w', Ok rc') =>
            files w' !! RunConfig.state_json rc
            = Some (Json (RunData.as_dictionary (RunConfig.run_data rc')))
        | _ => True
        end
    | Raise _ => True
    end)
    by (vm_compute; reflexivity).
  destruct (in_phase "production") as [rc|err]; [|discriminate Hobs].
  destruct (@RunConfig.run scripted 0 false rc
              (one_checkpoint "/ens/mem_1/0/production/1/state.cpt"))
    as [[w' [rc'|err]]|] eqn:Hrun; [|discriminate Hobs..].
  assert (Hconv : files (one_checkpoint "/ens/mem_1/0/production/1/state.cpt")
                    !! @RunConfig.gmx_cpt scripted rc (VInt 1) (VInt 0) = None)
    by (by injection Hobs).
  assert (Hdoc : files (one_checkpoint "/ens/mem_1/0/production/1/state.cpt")
                   !! RunConfig.state_json rc = None) by (by injection Hobs).
  exists rc, w', rc'. split; [reflexivity|]. split; [exact Hconv|].
  split; [exact Hdoc|]. split; [exact Hrun|]. exact Hsaved.
Qed.

(** ** The phase state machine *)

Lemma set1_other (name : option string) (key : string) (v : value)
    (rd rd' : RunData.t) (k : string) :
  RunData.set1 name key v rd = Ok rd' → k ≠ key →
  general_value k rd' = general_value k rd.
Proof.
  unfold RunData.set1, general_value. intros Hset Hk.
  destruct (RunData.given name) as [n|].
  - destruct (RunData.pair_params rd !! n) as [p|]; [|done].
    case_bool_decide; [|done].
    by apply bind_Ok in Hset as (p' & _ & [= <-]).
  - case_bool_decide.
    + apply bind_Ok in Hset as (g & Hg & [= <-]). simpl.
      apply set_Ok in Hg as (_ & _ & ->). by rewrite lookup_insert_ne.
    + case_decide; [|done]. by apply bind_Ok in Hset as (h & _ & [= <-]).
Qed.

Lemma set_other (name : option string) (kwargs : pydict) (rd rd' : RunData.t)
    (k : string) :
  RunData.set name kwargs rd = Ok rd' → k ∉ keys kwargs →
  general_value k rd' = general_value k rd.
Proof.
  revert rd. induction kwargs as [|[key v] kwargs IH]; intros rd; simpl.
  - by intros [= <-].
  - intros (rd1 & H1 & Hrest)%bind_Ok Hk.
    apply not_elem_of_cons in Hk as [Hne Hk].
    rewrite (IH rd1 Hrest Hk). by eapply set1_other.
Qed.

Lemma set1_general (key : string) (v : value) (rd rd' : RunData.t) :
  key ≠ "history" → RunData.set1 None key v rd = Ok rd' →
  general_value key rd' = Some v.
Proof.
  unfold RunData.set1, general_value. simpl. intros Hkey Hset.
  case_bool_decide; [|by rewrite decide_False in Hset by done].
  apply bind_Ok in Hset as (g & Hg & [= <-]). simpl.
  apply set_Ok in Hg as (_ & _ & ->). apply lookup_insert_eq.
Qed.

Lemma keeps_cycle_refl (rd : RunData.t) : keeps_cycle rd rd.
Proof. by split. Qed.

Lemma keeps_cycle_trans (rd1 rd2 rd3 : RunData.t) :
  keeps_cycle rd1 rd2 → keeps_cycle rd2 rd3 → keeps_cycle rd1 rd3.
Proof. intros [? ?] [? ?]. split; congruence. Qed.

Lemma set_keeps_cycle (name : option string) (kwargs : pydict) (rd rd' : RunData.t) :
  RunData.set name kwargs rd = Ok rd' →
  "phase" ∉ keys kwargs → "iteration" ∉ keys kwargs →
  keeps_cycle rd rd'.
Proof. intros Hset Hp Hi. split; by eapply set_other. Qed.

Lemma set_targets_keeps_cycle (names : list string) (targets : pydict)
    (rd rd' : RunData.t) :
  RunConfig.set_targets names targets rd = Ok rd' → keeps_cycle rd rd'.
Proof.
  revert rd. induction names as [|name names IH]; intros rd;
    cbn [RunConfig.set_targets].
  - intros [= <-]. apply keeps_cycle_refl.
  - intros (v & _ & (rd1 & H1 & Hrest)%bind_Ok)%bind_Ok.
    eapply keeps_cycle_trans; [|by eapply IH].
    eapply set_keeps_cycle; [exact H1|..]; by intros ?%list_elem_of_singleton.
Qed.

Lemma harvest_keeps_cycle (indices : list nat) (potentials : list potential)
    (sites_to_name : gmap string string) (alphas alphas' : pydict)
    (rd rd' : RunData.t) :
  RunConfig.harvest indices potentials sites_to_name alphas rd = Ok (alphas', rd') →
  keeps_cycle rd rd'.
Proof.
  revert alphas rd. induction indices as [|i indices IH]; intros alphas rd;
    cbn [RunConfig.harvest].
  - intros [= _ <-]. apply keeps_cycle_refl.
  - destruct (potentials !! i) as [p|]; [|done].
    destruct (sites_to_name !! pot_name p) as [current_name|]; [|done].
    intros (rd1 & H1 & (rd2 & H2 & Hrest)%bind_Ok)%bind_Ok.
    eapply keeps_cycle_trans; [|by eapply IH].
    eapply keeps_cycle_trans;
      (eapply set_keeps_cycle; [eassumption|..]; by intros ?%list_elem_of_singleton).
Qed.

Section Cycle.
Context `{Collaborators}.

Lemma build_plugins_Ok (cfg : PluginConfig) (rc rc' : RunConfig.t) :
  RunConfig.build_plugins cfg rc = Ok rc' →
  RunConfig.run_data rc' = RunConfig.run_data rc
  ∧ RunConfig.state_json rc' = RunConfig.state_json rc.
Proof.
  unfold RunConfig.build_plugins. by intros (ps & _ & [= <-])%bind_Ok.
Qed.

Lemma train_with_keeps_cycle (targets : pydict) (rc rc' : RunConfig.t) (w w' : world) :
  RunConfig.train_with targets rc w = (w', Ok rc') →
  keeps_cycle (RunConfig.run_data rc) (RunConfig.run_data rc')
  ∧ RunConfig.state_json rc' = RunConfig.state_json rc.
Proof.
  unfold RunConfig.train_with. intros Hrun.
  apply io_bind_Ok in Hrun as (rd1 & w1 & [Htargets ->]%lift_Ok & Hrun).
  apply io_bind_Ok in Hrun as ([] & w2 & _ & Hrun).
  apply io_bind_Ok in Hrun as ([] & w3 & _ & Hrun).
  apply io_bind_Ok in Hrun as ([] & w4 & _ & Hrun).
  apply io_bind_Ok in Hrun as (rc1 & w5 & [Hplugins ->]%lift_Ok & Hrun).
  apply io_bind_Ok in Hrun as (sites_to_name & w6 & _ & Hrun).
  apply io_bind_Ok in Hrun as (here & w7 & _ & Hrun).
  apply io_bind_Ok in Hrun as (potentials & w8 & _ & Hrun).
  apply io_bind_Ok in Hrun as ([alphas rd2] & w9 & [Hharvest ->]%lift_Ok & Hrun).
  apply io_bind_Ok in Hrun as (h & w10 & _ & Hrun).
  injection Hrun as _ <-.
  apply build_plugins_Ok in Hplugins as [Hrd Hjson]. simpl in Hrd, Hjson.
  rewrite Hrd in Hharvest. split; [|done].
  eapply keeps_cycle_trans; [by eapply set_targets_keeps_cycle|].
  eapply keeps_cycle_trans; [by eapply harvest_keeps_cycle|]. by split.
Qed.

Lemma train_keeps_cycle (fuel : nat) (rc rc' : RunConfig.t) (w w' : world) :
  RunConfig.__train fuel rc w = Some (w', Ok rc') →
  keeps_cycle (RunConfig.run_data rc) (RunConfig.run_data rc')
  ∧ RunConfig.state_json rc' = RunConfig.state_json rc.
Proof.
  unfold RunConfig.__train. destruct (re_sample (RunConfig.pairs rc)) as [t0 p0].
  destruct (RunConfig.redraw fuel _ t0 p0) as [[[targets pairs]|err]|]; [|done..].
  intros [= Hrun]. by apply train_with_keeps_cycle in Hrun.
Qed.

Lemma converge_keeps_cycle (rc rc' : RunConfig.t) (w w' : world) :
  RunConfig.__converge rc w = (w', Ok rc') →
  keeps_cycle (RunConfig.run_data rc) (RunConfig.run_data rc')
  ∧ RunConfig.state_json rc' = RunConfig.state_json rc.
Proof.
  unfold RunConfig.__converge. intros Hrun.
  apply io_bind_Ok in Hrun as ([] & w1 & _ & Hrun).
  apply io_bind_Ok in Hrun as (rc1 & w2 & [Hplugins ->]%lift_Ok & Hrun).
  apply io_bind_Ok in Hrun as (here & w3 & _ & Hrun).
  apply io_bind_Ok in Hrun as (potentials & w4 & _ & Hrun).
  apply io_bind_Ok in Hrun as (p0 & w5 & _ & Hrun).
  apply io_bind_Ok in Hrun as (rd & w6 & [Hset ->]%lift_Ok & Hrun).
  apply io_bind_Ok in Hrun as ([] & w7 & _ & Hrun).
  injection Hrun as _ <-.
  apply build_plugins_Ok in Hplugins as [Hrd Hjson]. rewrite Hrd in Hset.
  split; [|done].
  eapply set_keeps_cycle; [exact Hset|..]; by intros ?%list_elem_of_singleton.
Qed.

Lemma production_keeps_run_data (rc rc' : RunConfig.t) (w w' : world) :
  RunConfig.__production rc w = (w', Ok rc') →
  RunConfig.run_data rc' = RunConfig.run_data rc
  ∧ RunConfig.state_json rc' = RunConfig.state_json rc.
Proof.
  unfold RunConfig.__production. intros Hrun.
  apply io_bind_Ok in Hrun as ([] & w1 & _ & Hrun).
  apply io_bind_Ok in Hrun as (production_time & w2 & _ & Hrun).
  apply io_bind_Ok in Hrun as (start_time & w3 & _ & Hrun).
  apply io_bind_Ok in Hrun as (end_time & w4 & _ & Hrun).
  apply io_bind_Ok in Hrun as (rc1 & w5 & [Hplugins ->]%lift_Ok & Hrun).
  apply io_bind_Ok in Hrun as (here & w6 & _ & Hrun).
  apply io_bind_Ok in Hrun as (potentials & w7 & _ & Hrun).
  apply io_bind_Ok in Hrun as ([] & w8 & _ & Hrun).
  injection Hrun as _ <-. by apply build_plugins_Ok in Hplugins.
Qed.

(** The last two steps of [run]: the phase change, then the save. *)
Lemma save_Ok (rd : RunData.t) (rc rc' : RunConfig.t) (w w' : world) :
  RunConfig.save (RunConfig.with_run_data rd rc) w = (w', Ok rc') →
  rc' = RunConfig.with_run_data rd rc
  ∧ files w' !! RunConfig.state_json rc = Some (Json (RunData.as_dictionary rd)).
Proof.
  unfold RunConfig.save. intros ([] & w1 & Hdump & [= <- <-])%io_bind_Ok.
  apply json_dump_inv in Hdump as (-> & _ & _).
  split; [done|]. simpl. apply lookup_insert_eq.
Qed.

End Cycle.

(** C1, as the code has it: a [run] that returns leaves training for
    convergence; it leaves convergence for production, and production for
    training, only when it is called with [set_next_phase] (the default is
    not to), and otherwise stays in the phase it was in.  The iteration
    goes up by one, and the start time back to 0, on the step from
    production to training and on no other; what is saved is the run data
    [run] ends with. *)
Theorem run_advances_phase `{Collaborators} (fuel : nat) (set_next_phase : bool)
    (rc rc' : RunConfig.t) (w w' : world) :
  RunConfig.run fuel set_next_phase rc w = Some (w', Ok rc') →
  let rd := RunConfig.run_data rc in
  let rd' := RunConfig.run_data rc' in
  ∃ p,
    general_value "phase" rd = Some p
    ∧ (is_str p "training" = true →
         general_value "phase" rd' = Some (VStr "convergence")
         ∧ general_value "iteration" rd' = general_value "iteration" rd)
    ∧ (is_str p "training" = false → is_str p "convergence" = true →
         general_value "phase" rd'
           = Some (if set_next_phase then VStr "production" else p)
         ∧ general_value "iteration" rd' = general_value "iteration" rd)
    ∧ (is_str p "training" = false → is_str p "convergence" = false →
         if set_next_phase
         then general_value "phase" rd' = Some (VStr "training")
              ∧ general_value "start_time" rd' = Some (VInt 0)
              ∧ ∀ n, general_value "iteration" rd = Some (VInt n) →
                     general_value "iteration" rd' = Some (VInt (n + 1))
         else rd' = rd)
    ∧ files w' !! RunConfig.state_json rc
      = Some (Json (RunData.as_dictionary rd')).
Proof.
  intros Hrun rd rd'. unfold RunConfig.run in Hrun.
  destruct (RunData.get_value "phase" None (RunConfig.run_data rc)) as [p|err] eqn:Hp;
    [|discriminate Hrun].
  rewrite (io_bind_lift _ _ p) in Hrun by done.
  unfold mbind at 1, io_bind at 1 in Hrun.
  destruct (RunConfig.__change_directory rc w) as [w1 [[]|err]]; [|discriminate Hrun].
  unfold mret, io_ret in Hrun.
  apply get_value_general in Hp as [_ Hp]; [|done].
  exists p. split; [exact Hp|].
  destruct (is_str p "training") eqn:Htraining; [|destruct (is_str p "convergence") eqn:Hconv].
  - (* training *)
    destruct (RunConfig.__train fuel rc w1) as [[w2 [rc2|err]]|] eqn:Htrain;
      [|discriminate Hrun..].
    apply train_keeps_cycle in Htrain as [[Hkp Hki] Hjson].
    injection Hrun as Hrun.
    apply io_bind_Ok in Hrun as (rd3 & w3 & [Hset ->]%lift_Ok & Hsave).
    apply save_Ok in Hsave as [-> Hfile].
    apply bind_Ok in Hset as (rd4 & Hset & [= <-]).
    split; [|split; [done|split; [done|]]].
    + intros _. subst rd rd'. simpl. split.
      * by eapply set1_general.
      * rewrite <- Hki. by eapply set1_other.
    + subst rd'. simpl. by rewrite <- Hjson.
  - (* convergence *)
    injection Hrun as Hrun.
    apply io_bind_Ok in Hrun as (rc2 & w2 & Hconverge & Hrun).
    apply converge_keeps_cycle in Hconverge as [[Hkp Hki] Hjson].
    apply io_bind_Ok in Hrun as (rd3 & w3 & [Hset ->]%lift_Ok & Hsave).
    apply save_Ok in Hsave as [-> Hfile].
    split; [done|]. split; [|split; [done|]].
    + intros _ _. subst rd rd'. simpl. destruct set_next_phase.
      * apply bind_Ok in Hset as (rd4 & Hset & [= <-]). split.
        -- by eapply set1_general.
        -- rewrite <- Hki. by eapply set1_other.
      * injection Hset as <-. by rewrite Hkp, Hki.
    + subst rd'. simpl. by rewrite <- Hjson.
  - (* production, and whatever else the phase says *)
    injection Hrun as Hrun.
    apply io_bind_Ok in Hrun as (rc2 & w2 & Hproduction & Hrun).
    apply production_keeps_run_data in Hproduction as [Hrd Hjson].
    apply io_bind_Ok in Hrun as (rd3 & w3 & [Hset ->]%lift_Ok & Hsave).
    apply save_Ok in Hsave as [-> Hfile].
    split; [done|]. split; [done|]. split.
    + intros _ _. subst rd rd'. simpl. destruct set_next_phase.
      * apply bind_Ok in Hset as (i & Hi & (i' & Hadd & Hset)%bind_Ok).
        apply get_value_general in Hi as [_ Hi]; [|done].
        cbn [RunData.set] in Hset.
        apply bind_Ok in Hset as (rd4 & Hphase & (rd5 & Hstart & Hiter)%bind_Ok).
        apply bind_Ok in Hiter as (rd6 & Hiter & [= <-]).
        split; [|split].
        -- rewrite (set1_other _ _ _ _ _ "phase" Hiter) by done.
           rewrite (set1_other _ _ _ _ _ "phase" Hstart) by done.
           by eapply set1_general.
        -- rewrite (set1_other _ _ _ _ _ "start_time" Hiter) by done.
           by eapply set1_general.
        -- intros n Hn. rewrite Hrd in Hi. unfold general_value in Hn.
           rewrite Hn in Hi. injection Hi as <-. simpl in Hadd.
           injection Hadd as <-. by eapply set1_general.
      * injection Hset as <-. exact Hrd.
    + subst rd'. simpl. by rewrite <- Hjson.
Qed.

Lemma run_advances_phase_witness :
  ∃ rc w' rc',
    in_phase "production" = Ok rc
    ∧ general_value "iteration" (RunConfig.run_data rc) = Some (VInt 0)
    ∧ @RunConfig.run scripted 0 true rc
        (one_checkpoint "/ens/mem_1/0/convergence/1/state.cpt") = Some (w', Ok rc')
    ∧ general_value "phase" (RunConfig.run_data rc') = Some (VStr "training")
    ∧ general_value "start_time" (RunConfig.run_data rc') = Some (VInt 0)
    ∧ general_value "iteration" (RunConfig.run_data rc') = Some (VInt 1).
Proof.
  assert (Hobs :
    match in_phase "production" with
    | Ok rc =>
        match @RunConfig.run scripted 0 true rc
                (one_checkpoint "/ens/mem_1/0/convergence/1/state.cpt") with
        | Some (w', Ok rc') =>
            Some (general_value "phase" (RunConfig.run_data rc),
                  general_value "iteration" (RunConfig.run_data rc))
        | _ => None
        end
    | Raise _ => None
    end = Some (Some (VStr "production"), Some (VInt 0)))
    by (vm_compute; reflexivity).
  destruct (in_phase "production") as [rc|err]; [|discriminate Hobs].
  destruct (@RunConfig.run scripted 0 true rc
              (one_checkpoint "/ens/mem_1/0/convergence/1/state.cpt"))
    as [[w' [rc'|err]]|] eqn:Hrun; [|discriminate Hobs..].
  assert (Hphase : general_value "phase" (RunConfig.run_data rc)
                   = Some (VStr "production")) by (by injection Hobs).
  assert (Hiter : general_value "iteration" (RunConfig.run_data rc)
                  = Some (VInt 0)) by (by injection Hobs).
  destruct (run_advances_phase (H := scripted) 0 true rc rc'
              (one_checkpoint "/ens/mem_1/0/convergence/1/state.cpt") w' Hrun)
    as (p & Hp & _ & _ & Hwrap & _).
  rewrite Hphase in Hp. injection Hp as <-.
  destruct (Hwrap eq_refl eq_refl) as (Hp' & Hs' & Hi').
  exists rc, w', rc'. split; [reflexivity|]. split; [exact Hiter|].
  split; [exact Hrun|]. split; [exact Hp'|]. split; [exact Hs'|].
  exact (Hi' 0 Hiter).
Defined.

(** C1, the case the code does not have: [run()] as it is called by
    default, with [set_next_phase] false, from convergence.  It returns,
    and the phase is still convergence. *)
Lemma run_stays_in_convergence :
  ∃ rc w' rc',
    in_phase "convergence" = Ok rc
    ∧ general_value "phase" (RunConfig.run_data rc) = Some (VStr "convergence")
    ∧ @RunConfig.run scripted 0 false rc (World ∅ ∅ "/") = Some (w', Ok rc')
    ∧ general_value "phase" (RunConfig.run_data rc') = Some (VStr "convergence")
    ∧ general_value "phase" (RunConfig.run_data rc') ≠ Some (VStr "production").
Proof.
  assert (Hobs :
    match in_phase "convergence" with
    | Ok rc =>
        match @RunConfig.run scripted 0 false rc (World ∅ ∅ "/") with
        | Some (w', Ok rc') =>
            Some (general_value "phase" (RunConfig.run_data rc),
                  general_value "phase" (RunConfig.run_data rc'))
        | _ => None
        end
    | Raise _ => None
    end = Some (Some (VStr "convergence"), Some (VStr "convergence")))
    by (vm_compute; reflexivity).
  destruct (in_phase "convergence") as [rc|err]; [|discriminate Hobs].
  destruct (@RunConfig.run scripted 0 false rc (World ∅ ∅ "/"))
    as [[w' [rc'|err]]|] eqn:Hrun; [|discriminate Hobs..].
  assert (Hbefore : general_value "phase" (RunConfig.run_data rc)
                    = Some (VStr "convergence")) by (by injection Hobs).
  assert (Hafter : general_value "phase" (RunConfig.run_data rc')
                   = Some (VStr "convergence")) by (by injection Hobs).
  exists rc, w', rc'. split; [reflexivity|]. split; [exact Hbefore|].
  split; [exact Hrun|]. split; [exact Hafter|].
  rewrite Hafter. discriminate.
Qed.

(** ** The drawn targets reach the engine *)

Lemma new_entry_present (alphas targets : pydict) (h h' : MetaData.t) (key : string) :
  MetaData.required_parameters h = None →
  History.target_key targets = Ok key →
  History.new_entry alphas targets h = Ok h' →
  is_Some (MetaData._metadata h' !! key)
  ∧ MetaData.required_parameters h' = None.
Proof.
  intros Hnone Hkey. unfold History.new_entry. rewrite Hkey. simpl.
  destruct (decide _) as [Hsome|Hfresh].
  - by intros [= <-].
  - intros (sorted_alphas & _ & Hset)%bind_Ok.
    rewrite set_unrestricted in Hset by done. injection Hset as <-. cbn.
    rewrite lookup_insert_eq. split; [by eexists|done].
Qed.

Lemma Forall2_with_elem {A B} (P : A → B → Prop) (Q : A → Prop)
    (l : list A) (k : list B) :
  Forall2 P l k → (∀ x, x ∈ l → Q x) → Forall2 (λ x y, P x y ∧ Q x) l k.
Proof.
  induction 1 as [|x y l k Hxy Hlk IH]; intros Hall; constructor.
  - split; [done|]. apply Hall. by left.
  - apply IH. intros z Hz. apply Hall. by right.
Qed.

Lemma set1_target (n : string) (v : value) (rd rd' : RunData.t) :
  run_data_wf rd → RunData.set1 (Some n) "target" v rd = Ok rd' →
  ∃ p, RunData.pair_params rd !! n = Some p
       ∧ rd' = RunData.with_pair n
                 (MetaData.mk (MetaData.name p) (MetaData.required_parameters p)
                    (<["target" := v]> (MetaData._metadata p))) rd.
Proof.
  intros Hwf. unfold RunData.set1. destruct n as [|c n]; cbn [RunData.given].
  - rewrite (general_requirements rd Hwf).
    rewrite bool_decide_eq_false_2 by (apply (bool_decide_unpack _); by vm_compute).
    by rewrite decide_False.
  - destruct (RunData.pair_params rd !! String c n) as [p|]; [|done].
    case_bool_decide; [|done].
    intros (p' & Hset & [= <-])%bind_Ok. exists p. split; [done|].
    apply set_Ok in Hset as (Hn & Hr & Hm). destruct p' as [pn pr pm].
    cbn in *. by subst.
Qed.

Lemma set_targets_reach (names : list string) (targets : pydict)
    (rd rd' : RunData.t) :
  run_data_wf rd → RunConfig.set_targets names targets rd = Ok rd' →
  run_data_wf rd'
  ∧ RunData.general_params rd' = RunData.general_params rd
  ∧ (∀ m, m ∈ names →
       ∃ p v, RunData.pair_params rd' !! m = Some p
              ∧ dict_find targets m = Some v
              ∧ MetaData._metadata p !! "target" = Some v)
  ∧ (∀ m, m ∉ names → RunData.pair_params rd' !! m = RunData.pair_params rd !! m).
Proof.
  revert rd. induction names as [|n names IH]; intros rd Hwf;
    cbn [RunConfig.set_targets].
  - intros [= <-]. split; [done|]. split; [done|].
    split; [intros m Hm; by apply elem_of_nil in Hm|done].
  - intros (v & Hv & (rd1 & H1 & Hrest)%bind_Ok)%bind_Ok.
    cbn [RunData.set] in H1. apply bind_Ok in H1 as (rd2 & H1 & [= <-]).
    unfold dict_get in Hv. destruct (dict_find targets n) as [v'|] eqn:Hfind; [|done].
    injection Hv as ->.
    destruct (set1_target n v rd rd2 Hwf H1) as (p & Hp & ->).
    assert (Hwf2 : run_data_wf (RunData.with_pair n
                     (MetaData.mk (MetaData.name p) (MetaData.required_parameters p)
                        (<["target" := v]> (MetaData._metadata p))) rd)).
    { destruct Hwf as (Hg & Hpairs & Hh). split; [done|]. split; [|done].
      intros m q. cbn. rewrite lookup_insert. case_decide as Hm.
      - intros [= <-]. cbn. by apply (Hpairs n).
      - apply Hpairs. }
    destruct (IH _ Hwf2 Hrest) as (Hwf' & Hgen & Hin & Hout).
    split; [done|]. split; [by rewrite Hgen|]. split.
    + intros m Hm. destruct (decide (m ∈ names)) as [Hrest'|Hnot]; [by apply Hin|].
      apply elem_of_cons in Hm as [->|Hm]; [|done].
      rewrite (Hout n Hnot). cbn. rewrite lookup_insert_eq.
      eexists _, v. split; [done|]. split; [done|]. cbn. apply lookup_insert_eq.
    + intros m Hm. apply not_elem_of_cons in Hm as [Hne Hm].
      rewrite (Hout m Hm). cbn. by rewrite lookup_insert_ne.
Qed.

Section Delegation.
Context `{Collaborators}.

Lemma train_with_split (targets : pydict) (rc : RunConfig.t) (w : world) :
  RunConfig.train_with targets rc w
  = match RunConfig.prepare_training targets rc w with
    | (w1, Ok (rc1, sites_to_name)) =>
        (potentials ← session_run (RunConfig.tpr rc1) None (RunConfig.__plugins rc1)
                        (cwd w1);
         RunConfig.record_training targets rc1 sites_to_name potentials) w1
    | (w1, Raise e) => (w1, Raise e)
    end.
Proof.
  unfold RunConfig.train_with, RunConfig.prepare_training, RunConfig.record_training.
  unfold mbind, io_bind, lift, getcwd, mret, io_ret.
  destruct (RunConfig.set_targets _ targets _) as [rd|e]; [|done].
  destruct (save_config _ _ w) as [w1 [[]|e]]; [|done].
  destruct (RunConfig.backup_cpt w1) as [w2 [[]|e]]; [|done].
  destruct (RunConfig.__move_cpt _ w2) as [w3 [[]|e]]; [|done].
  destruct (RunConfig.build_plugins _ _) as [rc1|e]; [|done].
  destruct (RunConfig.name_plugins _ _ _ _) as [sites_to_name|e]; [|done].
  done.
Qed.

Lemma prepare_training_Ok (targets : pydict) (rc rc1 : RunConfig.t) (w w1 : world)
    (sites_to_name : gmap string string) :
  run_data_wf (RunConfig.run_data rc) →
  RunConfig.prepare_training targets rc w = (w1, Ok (rc1, sites_to_name)) →
  RunConfig.tpr rc1 = RunConfig.tpr rc
  ∧ Forall2 (λ name pl,
               ∃ pair_params v,
                 RunData.pair_params (RunConfig.run_data rc1) !! name
                 = Some pair_params
                 ∧ dict_find targets name = Some v
                 ∧ MetaData._metadata pair_params !! "target" = Some v
                 ∧ pl = build_plugin TrainingPluginConfig
                          (RunData.general_params (RunConfig.run_data rc1))
                          pair_params)
            (RunConfig.__names rc) (RunConfig.__plugins rc1).
Proof.
  intros Hwf Hrun. unfold RunConfig.prepare_training in Hrun.
  apply io_bind_Ok in Hrun as (rd1 & w2 & [Htargets ->]%lift_Ok & Hrun).
  apply io_bind_Ok in Hrun as ([] & w3 & _ & Hrun).
  apply io_bind_Ok in Hrun as ([] & w4 & _ & Hrun).
  apply io_bind_Ok in Hrun as ([] & w5 & _ & Hrun).
  apply io_bind_Ok in Hrun as (rc2 & w6 & [Hplugins ->]%lift_Ok & Hrun).
  apply io_bind_Ok in Hrun as (s2n & w7 & _ & Hrun).
  injection Hrun as _ <- _.
  destruct (set_targets_reach _ _ _ _ Hwf Htargets) as (_ & _ & Hreach & _).
  unfold RunConfig.build_plugins in Hplugins.
  apply bind_Ok in Hplugins as (ps & Hps & [= <-]). cbn.
  split; [done|]. apply mapM_Ok_Forall2 in Hps.
  eapply Forall2_impl; [apply (Forall2_with_elem _ _ _ _ Hps Hreach)|].
  cbn. intros name pl [Hpl (p & v & Hp & Hv & Htarget)].
  rewrite Hp in Hpl. injection Hpl as <-. by exists p, v.
Qed.

(** C2: when the resampler, some draws ahead, proposes a target set whose
    signature the ledger does not hold, training gets out of its redraw
    loop: it rejects every draw whose signature is recorded and goes on
    with the first draw whose signature is not.  That target set is the
    one the engine works on: unless a step on the way raises, it is
    entered as the target of every restrained pair, the plugins are built
    from those pairs, and the session is run on exactly these plugins. *)
Theorem train_draws_unrecorded_targets (rc : RunConfig.t) (w : world) (n : nat) :
  let history := RunData.history (RunConfig.run_data rc) in
  run_data_wf (RunConfig.run_data rc) →
  History.check_targets (RunConfig.draw n (RunConfig.pairs rc)).1 history = Ok false →
  ∃ k targets pairs,
    (k ≤ n)%nat
    ∧ RunConfig.draw k (RunConfig.pairs rc) = (targets, pairs)
    ∧ (∀ j, (j < k)%nat →
         History.check_targets (RunConfig.draw j (RunConfig.pairs rc)).1 history
         = Ok true)
    ∧ History.check_targets targets history = Ok false
    ∧ ∀ fuel, (k ≤ fuel)%nat →
        RunConfig.__train fuel rc w
        = Some (RunConfig.train_with targets (RunConfig.with_pairs pairs rc) w)
        ∧ match RunConfig.prepare_training targets
                  (RunConfig.with_pairs pairs rc) w with
          | (w1, Raise e) => RunConfig.__train fuel rc w = Some (w1, Raise e)
          | (w1, Ok (rc1, sites_to_name)) =>
              RunConfig.__train fuel rc w
              = Some ((potentials ← session_run (RunConfig.tpr rc) None
                                      (RunConfig.__plugins rc1) (cwd w1);
                       RunConfig.record_training targets rc1 sites_to_name
                         potentials) w1)
              ∧ Forall2 (λ name pl,
                           ∃ pair_params v,
                             RunData.pair_params (RunConfig.run_data rc1) !! name
                             = Some pair_params
                             ∧ dict_find targets name = Some v
                             ∧ MetaData._metadata pair_params !! "target" = Some v
                             ∧ pl = build_plugin TrainingPluginConfig
                                      (RunData.general_params
                                         (RunConfig.run_data rc1))
                                      pair_params)
                        (RunConfig.__names rc) (RunConfig.__plugins rc1)
          end.
Proof.
  intros history Hwf Hfresh.
  destruct (redraw_draw history n (RunConfig.pairs rc) Hfresh)
    as (k & Hk & Hseen & Hnew & Hfuel).
  destruct (RunConfig.draw k (RunConfig.pairs rc)) as [targets pairs] eqn:Hdraw.
  exists k, targets, pairs. do 4 (split; [done|]).
  intros fuel Hle.
  assert (Htrain : RunConfig.__train fuel rc w
                   = Some (RunConfig.train_with targets
                             (RunConfig.with_pairs pairs rc) w)).
  { unfold RunConfig.__train. specialize (Hfuel fuel Hle). fold history.
    destruct (re_sample (RunConfig.pairs rc)) as [t0 p0]. simpl in Hfuel.
    by rewrite Hfuel. }
  split; [exact Htrain|]. rewrite Htrain, train_with_split.
  destruct (RunConfig.prepare_training targets (RunConfig.with_pairs pairs rc) w)
    as [w1 [[rc1 sites_to_name]|e]] eqn:Hprepare; [|done].
  destruct (prepare_training_Ok targets (RunConfig.with_pairs pairs rc) rc1 w w1
              sites_to_name Hwf Hprepare) as [Htpr Hplugins].
  cbn [RunConfig.with_pairs RunConfig.tpr RunConfig.__names] in Htpr, Hplugins.
  by rewrite Htpr.
Qed.

End Delegation.

Lemma train_draws_unrecorded_targets_witness :
  ∃ rc,
    retraining = Ok rc
    ∧ History.check_targets seen_targets
        (RunData.history (RunConfig.run_data rc)) = Ok true
    ∧ (∀ w, @RunConfig.__train scripted 1 rc w
            = Some (@RunConfig.train_with scripted unseen_targets
                      (@RunConfig.with_pairs scripted
                         [seen_targets; unseen_targets] rc) w))
    ∧ ∃ w1 rc1 sites_to_name p,
        @RunConfig.__train scripted 1 rc member_disk
        = Some ((potentials ← session_run (Collaborators := scripted)
                                (RunConfig.tpr rc) None (RunConfig.__plugins rc1)
                                (cwd w1);
                 @RunConfig.record_training scripted unseen_targets rc1
                   sites_to_name potentials) w1)
        ∧ RunData.pair_params (RunConfig.run_data rc1) !! "A-B" = Some p
        ∧ MetaData._metadata p !! "target" = Some (VFloat "1.5").
Proof.
  assert (Hobs :
    match retraining with
    | Ok rc =>
        match @RunConfig.prepare_training scripted unseen_targets
                (@RunConfig.with_pairs scripted [seen_targets; unseen_targets] rc)
                member_disk with
        | (_, Ok _) =>
            Some (History.check_targets seen_targets
                    (RunData.history (RunConfig.run_data rc)),
                  History.check_targets unseen_targets
                    (RunData.history (RunConfig.run_data rc)),
                  @RunConfig.draw scripted 0 (RunConfig.pairs rc),
                  @RunConfig.draw scripted 1 (RunConfig.pairs rc),
                  RunConfig.__names rc)
        | _ => None
        end
    | Raise _ => None
    end = Some (Ok true, Ok false,
                (seen_targets, [unseen_targets; seen_targets]),
                (unseen_targets, [seen_targets; unseen_targets]),
                ["A-B"; "C-D"]))
    by (vm_compute; reflexivity).
  assert (Hwf : ∀ rc, retraining = Ok rc → run_data_wf (RunConfig.run_data rc)).
  { intros rc. unfold retraining.
    intros (rd & Hrd & (h & Hh & [= <-])%bind_Ok)%bind_Ok.
    pose proof (two_pairs_wf rd Hrd) as (Hg & Hp & Hnone).
    split; [done|]. split; [done|]. cbn.
    assert (Hkey : History.target_key seen_targets = Ok "1.0,2.0")
      by (vm_compute; reflexivity).
    by destruct (new_entry_present _ _ _ _ _ Hnone Hkey Hh) as [_ ?]. }
  destruct retraining as [rc|e]; [|discriminate Hobs].
  specialize (Hwf rc eq_refl).
  destruct (@RunConfig.prepare_training scripted unseen_targets
              (@RunConfig.with_pairs scripted [seen_targets; unseen_targets] rc)
              member_disk) as [w1 [[rc1 sites_to_name]|e]] eqn:Hprepare;
    [|discriminate Hobs].
  assert (Hseen0 : History.check_targets seen_targets
                     (RunData.history (RunConfig.run_data rc)) = Ok true)
    by (by injection Hobs).
  assert (Hnew1 : History.check_targets unseen_targets
                    (RunData.history (RunConfig.run_data rc)) = Ok false)
    by (by injection Hobs).
  assert (Hd0 : @RunConfig.draw scripted 0 (RunConfig.pairs rc)
                = (seen_targets, [unseen_targets; seen_targets]))
    by (by injection Hobs).
  assert (Hd1 : @RunConfig.draw scripted 1 (RunConfig.pairs rc)
                = (unseen_targets, [seen_targets; unseen_targets]))
    by (by injection Hobs).
  assert (Hnames : RunConfig.__names rc = ["A-B"; "C-D"])
    by (by injection Hobs).
  assert (Hthm : ∀ w,
    @RunConfig.__train scripted 1 rc w
    = Some (@RunConfig.train_with scripted unseen_targets
              (@RunConfig.with_pairs scripted [seen_targets; unseen_targets] rc) w)
    ∧ match @RunConfig.prepare_training scripted unseen_targets
              (@RunConfig.with_pairs scripted [seen_targets; unseen_targets] rc)
              w with
      | (w1, Raise e) => @RunConfig.__train scripted 1 rc w = Some (w1, Raise e)
      | (w1, Ok (rc1, sites_to_name)) =>
          @RunConfig.__train scripted 1 rc w
          = Some ((potentials ← session_run (Collaborators := scripted)
                                  (RunConfig.tpr rc) None (RunConfig.__plugins rc1)
                                  (cwd w1);
                   @RunConfig.record_training scripted unseen_targets rc1
                     sites_to_name potentials) w1)
          ∧ Forall2 (λ name pl,
                       ∃ pair_params v,
                         RunData.pair_params (RunConfig.run_data rc1) !! name
                         = Some pair_params
                         ∧ dict_find unseen_targets name = Some v
                         ∧ MetaData._metadata pair_params !! "target" = Some v
                         ∧ pl = build_plugin (Collaborators := scripted)
                                  TrainingPluginConfig
                                  (RunData.general_params (RunConfig.run_data rc1))
                                  pair_params)
                    (RunConfig.__names rc) (RunConfig.__plugins rc1)
      end).
  { intros w.
    destruct (@train_draws_unrecorded_targets scripted rc w 1%nat)
      as (k & targets & pairs & Hk & Hdraw & Hseen & Hnew & Htrain).
    - exact Hwf.
    - cbv zeta. rewrite Hd1. exact Hnew1.
    - destruct k as [|[|k]]; [| |lia].
      + rewrite Hd0 in Hdraw. injection Hdraw as <- <-.
        rewrite Hseen0 in Hnew. discriminate Hnew.
      + rewrite Hd1 in Hdraw. injection Hdraw as <- <-.
        apply (Htrain 1%nat). lia. }
  exists rc. split; [reflexivity|]. split; [exact Hseen0|].
  split; [intros w; apply Hthm|].
  destruct (Hthm member_disk) as [_ Hdelegated]. rewrite Hprepare in Hdelegated.
  destruct Hdelegated as [Hsession Hplugins]. rewrite Hnames in Hplugins.
  apply Forall2_cons_inv_l in Hplugins
    as (pl & rest & (p & v & Hp & Hv & Htarget & _) & _ & _).
  vm_compute in Hv. injection Hv as <-.
  exists w1, rc1, sites_to_name, p. split; [exact Hsession|].
  split; [exact Hp|exact Htarget].
Defined.

(** * Further properties of the code *)

(** ** The ledger after an entry *)

Lemma target_key_Permutation (t1 t2 : pydict) :
  dict_wf t1 → t1 ≡ₚ t2 → History.target_key t1 = History.target_key t2.
Proof.
  intros Hwf Hperm. unfold History.target_key. simpl.
  rewrite <- (sorted_Permutation_eq (keys t1) (keys t2))
    by (unfold keys; by rewrite Hperm).
  f_equal. induction (sorted (keys t1)) as [|k ks IH]; [done|].
  simpl. rewrite IH. unfold dict_get.
  by rewrite (dict_find_Permutation t1 t2 k).
Qed.

Lemma check_targets_lookup (targets : pydict) (h : MetaData.t) (key : string) :
  History.target_key targets = Ok key →
  History.check_targets targets h
  = Ok (bool_decide (is_Some (MetaData._metadata h !! key))).
Proof.
  intros Hkey. unfold History.check_targets. rewrite Hkey. simpl.
  destruct (decide _).
  - by rewrite bool_decide_eq_true_2.
  - by rewrite bool_decide_eq_false_2.
Qed.

(** Once [new_entry] has gone through, [check_targets] answers [True] for
    the target set, in whatever order its dictionary was built, and
    answers as before for every target set with another signature. *)
Theorem recorded_targets_are_recognised (alphas targets targets' : pydict)
    (h h' : MetaData.t) :
  MetaData.required_parameters h = None →
  dict_wf targets → targets ≡ₚ targets' →
  History.new_entry alphas targets h = Ok h' →
  History.check_targets targets' h' = Ok true
  ∧ ∀ other, History.target_key other ≠ History.target_key targets →
             History.check_targets other h' = History.check_targets other h.
Proof.
  intros Hnone Hwf Hperm Hnew.
  destruct (target_key_total targets) as (vs & _ & Hkey).
  assert (Hmeta : MetaData._metadata h' = MetaData._metadata h
                  ∨ ∃ v, MetaData._metadata h !! String.concat "," (py_str <$> vs) = None
                         ∧ MetaData._metadata h'
                           = <[String.concat "," (py_str <$> vs) := v]>
                               (MetaData._metadata h)).
  { unfold History.new_entry in Hnew. rewrite Hkey in Hnew. simpl in Hnew.
    destruct (decide _) as [Hsome|Hfresh].
    - injection Hnew as <-. by left.
    - apply bind_Ok in Hnew as (sorted_alphas & _ & Hset).
      rewrite set_unrestricted in Hset by done. injection Hset as <-.
      right. eexists. split; [|done].
      destruct (MetaData._metadata h !! _) eqn:Hl; [|done].
      exfalso. apply Hfresh. by eexists. }
  assert (Hin : is_Some (MetaData._metadata h' !! String.concat "," (py_str <$> vs))).
  { unfold History.new_entry in Hnew. rewrite Hkey in Hnew. simpl in Hnew.
    destruct (decide _) as [Hsome|Hfresh].
    - by injection Hnew as <-.
    - destruct Hmeta as [Hsame|(v & _ & ->)]; [|rewrite lookup_insert_eq; by eexists].
      apply bind_Ok in Hnew as (sorted_alphas & _ & Hset).
      rewrite set_unrestricted in Hset by done. injection Hset as <-. simpl.
      rewrite lookup_insert_eq. by eexists. }
  split.
  - rewrite (check_targets_lookup targets' h' (String.concat "," (py_str <$> vs))).
    + by rewrite bool_decide_eq_true_2.
    + by rewrite <- (target_key_Permutation targets targets').
  - intros other Hother.
    destruct (target_key_total other) as (vs' & _ & Hkey').
    rewrite !(check_targets_lookup other _ _ Hkey').
    destruct Hmeta as [->|(v & _ & ->)]; [done|].
    rewrite lookup_insert_ne; [done|]. intros Heq. apply Hother. congruence.
Qed.

Lemma recorded_targets_are_recognised_witness :
  ∃ h',
    History.new_entry [("A-B", VFloat "7.5"); ("C-D", VFloat "9.5")]
      [("C-D", VFloat "2.0"); ("A-B", VFloat "1.0")] History.init = Ok h'
    ∧ History.check_targets seen_targets h' = Ok true.
Proof.
  destruct (History.new_entry [("A-B", VFloat "7.5"); ("C-D", VFloat "9.5")]
              [("C-D", VFloat "2.0"); ("A-B", VFloat "1.0")] History.init)
    as [h'|e] eqn:Hnew; [|exfalso; revert Hnew; vm_compute; discriminate].
  exists h'. split; [reflexivity|].
  apply (recorded_targets_are_recognised
           [("A-B", VFloat "7.5"); ("C-D", VFloat "9.5")]
           [("C-D", VFloat "2.0"); ("A-B", VFloat "1.0")] seen_targets
           History.init h').
  - reflexivity.
  - apply (bool_decide_unpack (NoDup ["C-D"; "A-B"])). vm_compute. reflexivity.
  - apply perm_swap.
  - exact Hnew.
Defined.

Lemma mapM_Raise {A B} (f : A → result B) (l : list A) (a : A) (e : exn) :
  a ∈ l → f a = Raise e →
  ∃ a' e', a' ∈ l ∧ f a' = Raise e' ∧ mapM f l = Raise e'.
Proof.
  induction l as [|x l IH]; intros Hin Hfail.
  - by apply elem_of_nil in Hin.
  - simpl. destruct (f x) as [b|ex] eqn:Hx.
    + apply elem_of_cons in Hin as [->|Hin]; [congruence|].
      destruct (IH Hin Hfail) as (a' & e' & Hin' & Hfa' & Hmap).
      exists a', e'. split; [by right|]. split; [done|]. simpl. by rewrite Hmap.
    + exists x, ex. split; [left|]. done.
Qed.

(** [new_entry] on a signature not yet recorded needs an alpha for every
    pair name of [targets]: when one is missing it raises the [KeyError] of
    a missing name and records nothing.  On a recorded signature the
    alphas are not looked at. *)
Theorem new_entry_missing_alpha (alphas targets : pydict) (h : MetaData.t)
    (name key : string) :
  name ∈ keys targets → dict_find alphas name = None →
  History.target_key targets = Ok key →
  (MetaData._metadata h !! key = None →
     ∃ missing, missing ∈ keys targets ∧ dict_find alphas missing = None
                ∧ History.new_entry alphas targets h = Raise (KeyError missing))
  ∧ (is_Some (MetaData._metadata h !! key) →
     History.new_entry alphas targets h = Ok h).
Proof.
  intros Hin Hmiss Hkey. unfold History.new_entry. rewrite Hkey. simpl. split.
  - intros Hfresh. rewrite decide_False by (rewrite Hfresh; by intros [? [=]]).
    destruct (mapM_Raise (dict_get alphas) (sorted (keys targets)) name (KeyError name))
      as (missing & e' & Hin' & Hfail & ->).
    + by rewrite sorted_Permutation.
    + unfold dict_get. by rewrite Hmiss.
    + unfold dict_get in Hfail.
      destruct (dict_find alphas missing) eqn:Hfind; [done|]. injection Hfail as <-.
      exists missing. split; [by rewrite <- sorted_Permutation|]. done.
  - intros Hsome. by rewrite decide_True.
Qed.

Lemma new_entry_missing_alpha_witness :
  History.new_entry [("A-B", VFloat "7.5")] seen_targets History.init
  = Raise (KeyError "C-D").
Proof.
  destruct (new_entry_missing_alpha [("A-B", VFloat "7.5")] seen_targets
              History.init "C-D" "1.0,2.0") as [Hraise _].
  - apply (bool_decide_unpack _). vm_compute. reflexivity.
  - reflexivity.
  - vm_compute. reflexivity.
  - destruct Hraise as (missing & Hin & Hnone & ->); [reflexivity|].
    apply elem_of_cons in Hin as [->|Hin]; [discriminate Hnone|].
    apply list_elem_of_singleton in Hin as ->. reflexivity.
Defined.

(** ** Setting and getting through RunData *)

Lemma get_requirements_legal (key : string) (m : MetaData.t) :
  key ∈ MetaData.get_requirements m → MetaData.legal m key = true.
Proof.
  unfold MetaData.get_requirements, MetaData.legal.
  destruct (MetaData.required_parameters m) as [ks|]; simpl.
  - intros Hin. by apply bool_decide_eq_true.
  - intros Hin. by apply elem_of_nil in Hin.
Qed.

(** A general parameter that is set is the one that is read back; the
    other general parameters, the pairs and the history are not touched,
    and the run data keeps its shape. *)
Theorem set_then_get_general (rd : RunData.t) (key : string) (v : value) :
  run_data_wf rd → key ∈ GeneralParams.requirements →
  ∃ rd',
    RunData.set None [(key, v)] rd = Ok rd'
    ∧ RunData.get key None rd' = Ok (RunData.Value v)
    ∧ (∀ other, other ≠ key → general_value other rd' = general_value other rd)
    ∧ RunData.pair_params rd' = RunData.pair_params rd
    ∧ RunData.history rd' = RunData.history rd
    ∧ run_data_wf rd'.
Proof.
  intros Hwf Hkey. pose proof Hwf as (Hg & Hp & Hh).
  cbn [RunData.set]. unfold RunData.set1. cbn [RunData.given].
  rewrite (general_requirements rd Hwf), bool_decide_eq_true_2 by done.
  rewrite (set_legal key v _ GeneralParams.requirements) by done.
  eexists. split; [reflexivity|]. cbn. split; [|split; [|done]].
  - unfold RunData.get, MetaData.get_requirements, MetaData.get. cbn.
    rewrite bool_decide_eq_true_2 by done. by rewrite lookup_insert_eq.
  - intros other Hne. unfold general_value. cbn. by rewrite lookup_insert_ne.
Qed.

Lemma set_then_get_general_witness :
  ∃ rd rd',
    two_pairs = Ok rd
    ∧ RunData.set None [("A", VInt 100)] rd = Ok rd'
    ∧ RunData.get "A" None rd' = Ok (RunData.Value (VInt 100)).
Proof.
  destruct two_pairs_returns as [rd Hrd]. rewrite Hrd.
  destruct (set_then_get_general rd "A" (VInt 100)) as (rd' & Hset & Hget & _).
  - by apply two_pairs_wf.
  - apply (bool_decide_unpack _). by vm_compute.
  - exists rd, rd'. split; [reflexivity|]. split; [exact Hset|exact Hget].
Defined.

(** A pair parameter set under the name of a known pair is the one read
    back under that name; the pair's other parameters, the other pairs,
    the general parameters and the history are not touched. *)
Theorem set_then_get_pair (rd : RunData.t) (n key : string) (p : MetaData.t)
    (v : value) :
  run_data_wf rd → RunData.pair_params rd !! n = Some p → n ≠ EmptyString →
  key ∈ PairParams.requirements →
  ∃ rd' p',
    RunData.set (Some n) [(key, v)] rd = Ok rd'
    ∧ RunData.get key (Some n) rd' = Ok (RunData.Value v)
    ∧ RunData.pair_params rd' !! n = Some p'
    ∧ (∀ other, other ≠ key →
         MetaData._metadata p' !! other = MetaData._metadata p !! other)
    ∧ (∀ m, m ≠ n → RunData.pair_params rd' !! m = RunData.pair_params rd !! m)
    ∧ RunData.general_params rd' = RunData.general_params rd
    ∧ RunData.history rd' = RunData.history rd
    ∧ run_data_wf rd'.
Proof.
  intros Hwf Hn Hne Hkey. pose proof Hwf as (Hg & Hp & Hh).
  assert (Hgiven : RunData.given (Some n) = Some n) by (by destruct n).
  set (p' := MetaData.mk (MetaData.name p) (Some PairParams.requirements)
               (<[key := v]> (MetaData._metadata p))).
  exists (RunData.with_pair n p' rd), p'.
  split; [|split; [|split; [apply lookup_insert_eq|]]].
  - cbn [RunData.set]. unfold RunData.set1. rewrite Hgiven, Hn.
    rewrite (pair_requirements rd n p Hwf Hn), bool_decide_eq_true_2 by done.
    by rewrite (set_legal key v p PairParams.requirements) by eauto.
  - unfold RunData.get. cbn [RunData.with_pair RunData.general_params RunData.pair_params].
    rewrite (general_requirements rd Hwf).
    destruct (pair_key_not_general key Hkey) as [Hng _].
    rewrite bool_decide_eq_false_2 by done. rewrite Hgiven, lookup_insert_eq.
    unfold MetaData.get, p'. cbn [MetaData._metadata]. by rewrite lookup_insert_eq.
  - split; [intros other Ho; unfold p'; cbn [MetaData._metadata];
            by rewrite lookup_insert_ne|].
    split; [intros m Hm; unfold RunData.with_pair; cbn [RunData.pair_params];
            by rewrite lookup_insert_ne|].
    do 2 (split; [done|]). split; [done|]. split; [|done].
    intros m q. unfold RunData.with_pair. cbn [RunData.pair_params].
    rewrite lookup_insert. case_decide; [|apply Hp]. by intros [= <-].
Qed.

Lemma set_then_get_pair_witness :
  ∃ rd rd',
    two_pairs = Ok rd
    ∧ RunData.set (Some "A-B") [("alpha", VFloat "7.5")] rd = Ok rd'
    ∧ RunData.get "alpha" (Some "A-B") rd' = Ok (RunData.Value (VFloat "7.5"))
    ∧ RunData.get "alpha" (Some "C-D") rd' = RunData.get "alpha" (Some "C-D") rd.
Proof.
  assert (Hobs : match two_pairs with
                 | Ok rd => Some (MetaData._metadata <$> RunData.pair_params rd !! "A-B",
                                  RunData.get "alpha" (Some "C-D") rd)
                 | Raise _ => None
                 end
                 = Some (Some (list_to_map
                                 [("sites", VList [VInt 3673; VInt 5636]);
                                  ("logging_filename", VStr "A-B.log");
                                  ("alpha", VFloat "0.0"); ("target", VFloat "3.0")]),
                         Ok (RunData.Value (VFloat "0.0"))))
    by (vm_compute; reflexivity).
  destruct two_pairs as [rd|e] eqn:Hrd; [|discriminate Hobs].
  destruct (RunData.pair_params rd !! "A-B") as [p|] eqn:Hp; [|discriminate Hobs].
  destruct (set_then_get_pair rd "A-B" "alpha" p (VFloat "7.5"))
    as (rd' & p' & Hset & Hget & _ & _ & Hothers & Hgen & _).
  - by apply two_pairs_wf.
  - exact Hp.
  - discriminate.
  - apply (bool_decide_unpack _). by vm_compute.
  - exists rd, rd'. split; [reflexivity|]. split; [exact Hset|]. split; [exact Hget|].
    unfold RunData.get. rewrite Hgen.
    change (RunData.given (Some "C-D")) with (Some "C-D"). cbv beta iota.
    by rewrite (Hothers "C-D") by discriminate.
Defined.

(** The name that routes a key: the empty string counts as no name at
    all, and a name that is not the name of a pair raises its [KeyError],
    both in [set] and, for a key that is not a general one, in [get]. *)
Theorem name_routing_edges (rd : RunData.t) (n key : string) (v : value)
    (kwargs : pydict) :
  RunData.pair_params rd !! n = None → n ≠ EmptyString →
  RunData.set (Some n) ((key, v) :: kwargs) rd = Raise (KeyError n)
  ∧ (key ∉ MetaData.get_requirements (RunData.general_params rd) →
     RunData.get key (Some n) rd = Raise (KeyError n))
  ∧ RunData.set (Some EmptyString) kwargs rd = RunData.set None kwargs rd
  ∧ RunData.get key (Some EmptyString) rd = RunData.get key None rd.
Proof.
  intros Hn Hne.
  assert (Hgiven : RunData.given (Some n) = Some n) by (by destruct n).
  split; [|split; [|split]].
  - cbn [RunData.set]. unfold RunData.set1. by rewrite Hgiven, Hn.
  - intros Hkey. unfold RunData.get. rewrite bool_decide_eq_false_2 by done.
    by rewrite Hgiven, Hn.
  - clear. revert rd. induction kwargs as [|[k x] kwargs IH]; intros rd; [done|].
    cbn [RunData.set]. unfold RunData.set1. cbn [RunData.given].
    destruct (bool_decide _); [|destruct (decide _)]; try done;
      (destruct (MetaData.set _ _ _); [apply IH|done]).
  - done.
Qed.

Lemma name_routing_edges_witness :
  ∃ rd, two_pairs = Ok rd
        ∧ RunData.set (Some "E-F") [("alpha", VFloat "7.5")] rd
          = Raise (KeyError "E-F").
Proof.
  assert (Hobs : match two_pairs with
                 | Ok rd => Some (bool_decide (RunData.pair_params rd !! "E-F" = None))
                 | Raise _ => None
                 end = Some true).
  { vm_compute. reflexivity. }
  destruct two_pairs as [rd|e] eqn:Hrd; [|discriminate Hobs].
  exists rd. split; [reflexivity|].
  apply (name_routing_edges rd "E-F" "alpha" (VFloat "7.5") []).
  - injection Hobs as Hobs. by apply bool_decide_eq_true_1 in Hobs.
  - discriminate.
Defined.

(** [set(A=a, history=v)], the call of [run.py] with the history it read
    from [history.json], does not load the entries of the dictionary [v]
    into the ledger: after the general parameter, it files the whole of
    [v] under the one key ['history'], so no signature becomes known by
    it. *)
Theorem set_history_key (rd : RunData.t) (a v : value) :
  run_data_wf rd →
  ∃ rd',
    RunData.set None [("A", a); ("history", v)] rd = Ok rd'
    ∧ general_value "A" rd' = Some a
    ∧ MetaData._metadata (RunData.history rd')
      = <["history" := v]> (MetaData._metadata (RunData.history rd))
    ∧ RunData.pair_params rd' = RunData.pair_params rd
    ∧ ∀ targets, History.target_key targets ≠ Ok "history" →
        History.check_targets targets (RunData.history rd')
        = History.check_targets targets (RunData.history rd).
Proof.
  intros Hwf. pose proof Hwf as (Hg & Hp & Hh).
  set (g := MetaData.mk (MetaData.name (RunData.general_params rd))
              (Some GeneralParams.requirements)
              (<["A" := a]> (MetaData._metadata (RunData.general_params rd)))).
  assert (HA : RunData.set1 None "A" a rd = Ok (RunData.with_general g rd)).
  { unfold RunData.set1. cbn [RunData.given].
    rewrite (general_requirements rd Hwf).
    rewrite bool_decide_eq_true_2 by (apply (bool_decide_unpack _); by vm_compute).
    rewrite (set_legal "A" a _ GeneralParams.requirements);
      [done|done|apply (bool_decide_unpack _); by vm_compute]. }
  assert (Hwf1 : run_data_wf (RunData.with_general g rd)) by done.
  cbn [RunData.set]. rewrite HA. cbn [mbind result_bind].
  unfold RunData.set1. cbn [RunData.given].
  rewrite (general_requirements _ Hwf1).
  rewrite bool_decide_eq_false_2 by (apply (bool_decide_unpack _); by vm_compute).
  rewrite decide_True by done. rewrite set_unrestricted by done.
  eexists. split; [reflexivity|]. cbn.
  split; [unfold general_value; cbn; apply lookup_insert_eq|].
  do 2 (split; [done|]).
  intros targets Hkey. destruct (target_key_total targets) as (vs & _ & Hvs).
  rewrite !(check_targets_lookup targets _ _ Hvs). cbn.
  rewrite lookup_insert_ne; [done|]. intros Heq. apply Hkey. by rewrite Hvs, Heq.
Qed.

Lemma set_history_key_witness :
  ∃ rd rd',
    two_pairs = Ok rd
    ∧ RunData.set None [("A", VInt 100); ("history", ensemble_history)] rd = Ok rd'
    ∧ History.target_key seen_targets = Ok "1.0,2.0"
    ∧ History.check_targets seen_targets (RunData.history rd') = Ok false.
Proof.
  assert (Hobs : match two_pairs with
                 | Ok rd => Some (History.check_targets seen_targets (RunData.history rd))
                 | Raise _ => None
                 end = Some (Ok false)) by (vm_compute; reflexivity).
  destruct two_pairs as [rd|e] eqn:Hrd; [|discriminate Hobs].
  assert (Hbefore : History.check_targets seen_targets (RunData.history rd) = Ok false)
    by (by injection Hobs).
  destruct (set_history_key rd (VInt 100) ensemble_history)
    as (rd' & Hset & _ & _ & _ & Hcheck).
  - by apply two_pairs_wf.
  - exists rd, rd'. split; [reflexivity|]. split; [exact Hset|].
    split; [by vm_compute|].
    rewrite Hcheck; [exact Hbefore|]. vm_compute. discriminate.
Defined.

(** ** Run data stays as the code builds it *)

Lemma set1_canonical (name : option string) (key : string) (v : value)
    (rd rd' : RunData.t) :
  run_data_canonical rd → RunData.set1 name key v rd = Ok rd' →
  run_data_canonical rd' ∧ dom (RunData.pair_params rd') = dom (RunData.pair_params rd).
Proof.
  intros (Hwf & Hng & Hnh & Hdg & Hpairs) Hset.
  pose proof Hwf as (Hg & Hp & Hh). unfold RunData.set1 in Hset.
  destruct (RunData.given name) as [n|].
  - destruct (RunData.pair_params rd !! n) as [p|] eqn:Hn; [|done].
    rewrite (pair_requirements rd n p Hwf Hn) in Hset.
    case_bool_decide as Hkey; [|done].
    rewrite (set_legal key v p PairParams.requirements) in Hset by eauto.
    injection Hset as <-. destruct (Hpairs n p Hn) as [Hname Hdom]. split.
    + split; [|do 3 (split; [done|])].
      * split; [done|]. split; [|done]. intros m q. cbn.
        rewrite lookup_insert. case_decide; [|apply Hp]. by intros [= <-].
      * intros m q. cbn. rewrite lookup_insert. case_decide; [|apply Hpairs].
        intros [= <-]. cbn [MetaData.name MetaData._metadata].
        split; [congruence|]. rewrite dom_insert_L.
        apply union_subseteq. split; [|done].
        apply singleton_subseteq_l.
        exact (proj2 (elem_of_list_to_set key PairParams.requirements) Hkey).
    + cbn. rewrite dom_insert_L. apply elem_of_dom_2 in Hn.
      apply subseteq_union_1_L. by apply singleton_subseteq_l.
  - rewrite (general_requirements rd Hwf) in Hset. case_bool_decide as Hkey.
    + rewrite (set_legal key v _ GeneralParams.requirements) in Hset by done.
      injection Hset as <-. split; [|done].
      split; [by split|].
      cbn [RunData.with_general RunData.general_params RunData.history
           RunData.pair_params MetaData.name MetaData._metadata].
      do 2 (split; [done|]). split; [|done].
      rewrite dom_insert_L, Hdg.
      apply subseteq_union_1_L, singleton_subseteq_l.
      exact (proj2 (elem_of_list_to_set key GeneralParams.requirements) Hkey).
    + case_decide; [|done]. rewrite set_unrestricted in Hset by done.
      injection Hset as <-. split; [|done].
      split; [by split|]. cbn. by do 3 (split; [done|]).
Qed.

Lemma set_canonical (name : option string) (kwargs : pydict)
    (rd rd' : RunData.t) :
  run_data_canonical rd → RunData.set name kwargs rd = Ok rd' →
  run_data_canonical rd' ∧ dom (RunData.pair_params rd') = dom (RunData.pair_params rd).
Proof.
  revert rd. induction kwargs as [|[key v] kwargs IH]; intros rd Hc; cbn [RunData.set].
  - by intros [= <-].
  - intros (rd1 & H1 & Hrest)%bind_Ok.
    destruct (set1_canonical name key v rd rd1 Hc H1) as [Hc1 Hd1].
    destruct (IH rd1 Hc1 Hrest) as [Hc' Hd']. split; [done|congruence].
Qed.

(** [set] keeps the run data as the code builds it, whatever is set and
    under whatever name: the stores keep their key sets and names, the
    general store keeps exactly its ten parameters, and no pair is added
    or removed. *)
Theorem set_keeps_canonical (name : option string) (kwargs : pydict)
    (rd rd' : RunData.t) :
  run_data_canonical rd → RunData.set name kwargs rd = Ok rd' →
  run_data_canonical rd' ∧ dom (RunData.pair_params rd') = dom (RunData.pair_params rd).
Proof. apply set_canonical. Qed.

Lemma tuned_run_data :
  ∃ rd0 rd,
    RunData.init = Ok rd0
    ∧ RunData.set None [("A", VInt 100); ("phase", VStr "production")] rd0 = Ok rd.
Proof.
  assert (Hobs : match RunData.init with
                 | Ok rd =>
                     match RunData.set None
                             [("A", VInt 100); ("phase", VStr "production")] rd with
                     | Ok _ => true
                     | Raise _ => false
                     end
                 | Raise _ => false
                 end = true) by (vm_compute; reflexivity).
  destruct RunData.init as [rd|e] eqn:Hinit; [|discriminate Hobs].
  destruct (RunData.set None [("A", VInt 100); ("phase", VStr "production")] rd)
    as [rd'|e] eqn:Hset; [|discriminate Hobs].
  exists rd, rd'. split; [reflexivity|exact Hset].
Qed.

Lemma set_keeps_canonical_witness :
  ∃ rd rd',
    RunData.init = Ok rd
    ∧ RunData.set None [("A", VInt 100); ("phase", VStr "production")] rd = Ok rd'
    ∧ run_data_canonical rd'.
Proof.
  destruct tuned_run_data as (rd & rd' & Hinit & Hset).
  exists rd, rd'. split; [exact Hinit|]. split; [exact Hset|].
  by destruct (set_keeps_canonical None _ rd rd' (init_canonical rd Hinit) Hset).
Defined.

(** ** Loading a document, and a saved state comes back *)

Lemma from_dictionary_legal (d : document) (rd0 : RunData.t) :
  run_data_wf rd0 →
  dom (doc_general d) ⊆ list_to_set GeneralParams.requirements →
  (∀ name data, doc_pairs d !! name = Some data →
                dom data ⊆ list_to_set PairParams.requirements) →
  RunData.from_dictionary d rd0
  = Ok (RunData.mk
          (MetaData.mk (MetaData.name (RunData.general_params rd0))
             (MetaData.required_parameters (RunData.general_params rd0))
             (doc_general d ∪ MetaData._metadata (RunData.general_params rd0)))
          (foldl (λ acc nd,
                    <[nd.1 := MetaData.mk nd.1 (Some PairParams.requirements) nd.2]> acc)
                 (RunData.pair_params rd0) (map_to_list (doc_pairs d)))
          (MetaData.mk (MetaData.name (RunData.history rd0))
             (MetaData.required_parameters (RunData.history rd0))
             (doc_history d ∪ MetaData._metadata (RunData.history rd0)))).
Proof.
  intros (Hg & Hp & Hh) Hlg Hlp. unfold RunData.from_dictionary.
  rewrite (set_from_dictionary_union (doc_general d) (RunData.general_params rd0));
    cycle 1.
  { intros k Hk. unfold MetaData.legal. rewrite Hg.
    apply bool_decide_eq_true. apply Hlg in Hk. by apply elem_of_list_to_set in Hk. }
  rewrite (set_from_dictionary_union (doc_history d) (RunData.history rd0));
    cycle 1.
  { intros k _. unfold MetaData.legal. by rewrite Hh. }
  rewrite load_pairs_legal; [done|].
  apply Forall_forall. intros [name data] Hin.
  apply elem_of_map_to_list in Hin. by apply (Hlp name).
Qed.

Lemma loaded_pairs_lookup (pairs : gmap string (gmap string value))
    (old : gmap string MetaData.t) (n : string) :
  foldl (λ acc nd,
           <[nd.1 := MetaData.mk nd.1 (Some PairParams.requirements) nd.2]> acc)
        old (map_to_list pairs) !! n
  = match pairs !! n with
    | Some data => Some (MetaData.mk n (Some PairParams.requirements) data)
    | None => old !! n
    end.
Proof.
  rewrite (foldl_insert_lookup
             (λ n data, MetaData.mk n (Some PairParams.requirements) data))
    by apply NoDup_fst_map_to_list.
  by rewrite list_to_map_to_list.
Qed.

(** [from_dictionary] on a document with legal keys goes through, and
    loads pair by pair.  Every general parameter and every history entry
    the document names reads as the document has it.  A pair the document
    names is built anew from the document alone, whatever the run data
    held under that name; a pair the document does not name is left where
    it was, so loading never removes a pair. *)
Theorem from_dictionary_keeps_other_pairs (d : document) (rd0 : RunData.t) :
  run_data_wf rd0 →
  dom (doc_general d) ⊆ list_to_set GeneralParams.requirements →
  (∀ name data, doc_pairs d !! name = Some data →
                dom data ⊆ list_to_set PairParams.requirements) →
  ∃ rd,
    RunData.from_dictionary d rd0 = Ok rd
    ∧ (∀ k v, doc_general d !! k = Some v → general_value k rd = Some v)
    ∧ (∀ k v, doc_history d !! k = Some v →
              MetaData._metadata (RunData.history rd) !! k = Some v)
    ∧ (∀ n data, doc_pairs d !! n = Some data →
                 RunData.pair_params rd !! n
                 = Some (MetaData.mk n (Some PairParams.requirements) data))
    ∧ (∀ n, doc_pairs d !! n = None →
            RunData.pair_params rd !! n = RunData.pair_params rd0 !! n)
    ∧ dom (RunData.pair_params rd)
      = dom (doc_pairs d) ∪ dom (RunData.pair_params rd0).
Proof.
  intros Hwf Hlg Hlp. eexists. split; [by apply from_dictionary_legal|].
  unfold general_value. cbn [RunData.general_params RunData.history
                             RunData.pair_params MetaData._metadata].
  split; [|split; [|split; [|split]]].
  - intros k v Hk. by apply lookup_union_Some_l.
  - intros k v Hk. by apply lookup_union_Some_l.
  - intros n data Hn. by rewrite loaded_pairs_lookup, Hn.
  - intros n Hn. by rewrite loaded_pairs_lookup, Hn.
  - apply set_eq. intros n. rewrite elem_of_union, !elem_of_dom.
    rewrite loaded_pairs_lookup.
    destruct (doc_pairs d !! n) as [data|] eqn:Hn.
    + split; [left|]; by eexists.
    + split; [by right|]. by intros [[? [=]]|?].
Qed.

Lemma from_dictionary_keeps_other_pairs_witness :
  ∃ rd0 rd,
    two_pairs = Ok rd0
    ∧ RunData.from_dictionary full_document rd0 = Ok rd
    ∧ general_value "phase" rd = Some (VStr "production")
    ∧ RunData.pair_params rd !! "C-D" = RunData.pair_params rd0 !! "C-D"
    ∧ dom (RunData.pair_params rd) = {[ "A-B" ]} ∪ dom (RunData.pair_params rd0).
Proof.
  destruct two_pairs_returns as [rd0 Hrd0].
  destruct (from_dictionary_keeps_other_pairs full_document rd0)
    as (rd & Hload & Hgen & _ & _ & Hother & Hdom).
  - by apply two_pairs_wf.
  - apply (bool_decide_unpack _). by vm_compute.
  - intros name data. unfold full_document. cbn [doc_pairs].
    rewrite lookup_singleton. case_decide; [|done]. intros [= <-].
    apply (bool_decide_unpack _). vm_compute. reflexivity.
  - exists rd0, rd. split; [exact Hrd0|]. split; [exact Hload|].
    split; [by apply Hgen|]. split; [by apply Hother|].
    rewrite Hdom. f_equal; apply (bool_decide_unpack _); by vm_compute.
Defined.



(** ** The directory helper *)

Lemma string_app_assoc (s1 s2 s3 : string) :
  (s1 +:+ s2) +:+ s3 = s1 +:+ s2 +:+ s3.
Proof.
  induction s1 as [|c s1 IH]; [done|].
  change (String c ((s1 +:+ s2) +:+ s3) = String c (s1 +:+ s2 +:+ s3)).
  by f_equal.
Qed.

(** The constructor accepts a parameter dictionary exactly when it names
    the ensemble number, the iteration and the phase, and otherwise raises
    a [ValueError] for the first of the three, in that order, that is
    missing; nothing else in the dictionary matters. *)
Theorem helper_requires_three (top_dir : string) (param_dict : gmap string value) :
  (is_Some (param_dict !! "ensemble_num") → is_Some (param_dict !! "iteration") →
   is_Some (param_dict !! "phase") →
   DirectoryHelper.init top_dir param_dict
   = Ok (DirectoryHelper.mk top_dir param_dict))
  ∧ (param_dict !! "ensemble_num" = None →
     DirectoryHelper.init top_dir param_dict
     = Raise (ValueError "Must define ensemble_num"))
  ∧ (is_Some (param_dict !! "ensemble_num") → param_dict !! "iteration" = None →
     DirectoryHelper.init top_dir param_dict
     = Raise (ValueError "Must define iteration"))
  ∧ (is_Some (param_dict !! "ensemble_num") → is_Some (param_dict !! "iteration") →
     param_dict !! "phase" = None →
     DirectoryHelper.init top_dir param_dict
     = Raise (ValueError "Must define phase")).
Proof.
  unfold DirectoryHelper.init. cbn.
  split; [|split; [|split]].
  - by intros [e ->] [i ->] [p ->].
  - by intros ->.
  - by intros [e ->] ->.
  - by intros [e ->] [i ->] ->.
Qed.

Lemma helper_requires_three_witness :
  DirectoryHelper.init "/ens" {[ "ensemble_num" := VInt 1; "phase" := VStr "training" ]}
  = Raise (ValueError "Must define iteration").
Proof.
  destruct (helper_requires_three "/ens"
              {[ "ensemble_num" := VInt 1; "phase" := VStr "training" ]})
    as (_ & _ & Hiter & _).
  apply Hiter.
  - vm_compute. by eexists.
  - vm_compute. reflexivity.
Defined.

(** The levels nest: the directory of each level is the directory of the
    level above it with one more component, from the top directory down to
    the work sample, so every resolved path lies under [top_dir]. *)
Theorem levels_nest (top_dir : string) (param_dict : gmap string value)
    (dh : DirectoryHelper.t) :
  DirectoryHelper.init top_dir param_dict = Ok dh →
  ∃ e i p member iteration phase,
    param_dict !! "ensemble_num" = Some e
    ∧ param_dict !! "iteration" = Some i
    ∧ param_dict !! "phase" = Some p
    ∧ DirectoryHelper.get_dir "top" dh = Ok top_dir
    ∧ DirectoryHelper.get_dir "ensemble_num" dh = Ok member
    ∧ member = top_dir +:+ "/mem_" +:+ py_str e
    ∧ DirectoryHelper.get_dir "iteration" dh = Ok iteration
    ∧ iteration = member +:+ "/" +:+ py_str i
    ∧ DirectoryHelper.get_dir "phase" dh = Ok phase
    ∧ phase = iteration +:+ "/" +:+ py_str p
    ∧ ∀ work_sample,
        DirectoryHelper.get_dir "work_sample" dh = Ok work_sample →
        ∃ ws, param_dict !! "work_sample" = Some ws
              ∧ work_sample = phase +:+ "/" +:+ py_str ws.
Proof.
  intros (-> & e & i & p & He & Hi & Hp)%init_required.
  exists e, i, p. eexists _, _, _. do 3 (split; [done|]).
  split; [done|].
  split; [unfold DirectoryHelper.get_dir, DirectoryHelper.item; cbn; by rewrite He|].
  split; [reflexivity|].
  split; [unfold DirectoryHelper.get_dir, DirectoryHelper.item; cbn;
          by rewrite He, Hi|].
  split; [by rewrite !string_app_assoc|].
  split; [by apply get_dir_phase|].
  split; [by rewrite !string_app_assoc|].
  intros work_sample Hws.
  destruct (get_dir_work_sample_Ok _ _ e i p work_sample He Hi Hp Hws) as (ws & Hl & ->).
  exists ws. split; [done|]. by rewrite !string_app_assoc.
Qed.

Lemma levels_nest_witness :
  ∃ dh,
    DirectoryHelper.init "/ens"
      {[ "ensemble_num" := VInt 1; "iteration" := VInt 0;
         "phase" := VStr "production"; "work_sample" := VInt 3 ]} = Ok dh
    ∧ DirectoryHelper.get_dir "iteration" dh = Ok "/ens/mem_1/0".
Proof.
  eexists. split; [reflexivity|].
  destruct (levels_nest "/ens"
              {[ "ensemble_num" := VInt 1; "iteration" := VInt 0;
                 "phase" := VStr "production"; "work_sample" := VInt 3 ]}
              (DirectoryHelper.mk "/ens"
                 {[ "ensemble_num" := VInt 1; "iteration" := VInt 0;
                    "phase" := VStr "production"; "work_sample" := VInt 3 ]}))
    as (e & i & p & member & iteration & phase & He & Hi & _ & _ & _ & -> & Hit & -> & _).
  - reflexivity.
  - vm_compute in He. injection He as <-. vm_compute in Hi. injection Hi as <-.
    exact Hit.
Defined.

(** ** Building the working directory *)

Lemma dir_prefixes_last (seen path : string) :
  seen +:+ path ∈ dir_prefixes seen path.
Proof.
  revert seen. induction path as [|c path IH]; intros seen; simpl.
  - assert (Hnil : seen +:+ EmptyString = seen).
    { clear. induction seen as [|c s IH]; [done|].
      change (String c (s +:+ EmptyString) = String c s). by f_equal. }
    rewrite Hnil. by apply list_elem_of_singleton.
  - apply elem_of_app. right.
    replace (seen +:+ String c path)
      with ((seen +:+ String c EmptyString) +:+ path); [apply IH|].
    by rewrite string_app_assoc.
Qed.

Lemma makedirs_blocked_None (prefixes : list string) (w : world) :
  makedirs_blocked prefixes w = None
  ↔ Forall (λ d, d ∈ dirs w ∨ files w !! d = None) prefixes.
Proof.
  induction prefixes as [|d below IH]; simpl.
  - split; [constructor|done].
  - case_bool_decide as Hd.
    + rewrite IH. split; [constructor; [by left|done]|by intros [_ ?]%Forall_cons].
    + case_bool_decide as Hf.
      * split; [done|]. intros [[?|Hnone] _]%Forall_cons; [done|].
        rewrite Hnone in Hf. by destruct Hf.
      * rewrite IH. split; [|by intros [_ ?]%Forall_cons].
        constructor; [|done]. right. by apply eq_None_not_Some.
Qed.

Lemma makedirs_clear (path : string) (w : world) :
  (∀ d, d ∈ made_dirs path → d ∈ dirs w ∨ files w !! d = None) →
  makedirs path w = (World (files w) (made_dirs path ∪ dirs w) (cwd w), Ok tt).
Proof.
  intros Hclear. unfold makedirs.
  replace (makedirs_blocked _ w) with (@None exn); [done|].
  symmetry. apply makedirs_blocked_None, Forall_forall. intros d Hd.
  apply Hclear. by apply elem_of_list_to_set.
Qed.

Lemma makedirs_inv (path : string) (w w1 : world) :
  makedirs path w = (w1, Ok tt) →
  (∀ d, d ∈ made_dirs path → d ∈ dirs w ∨ files w !! d = None)
  ∧ w1 = World (files w) (made_dirs path ∪ dirs w) (cwd w).
Proof.
  unfold makedirs, made_dirs.
  destruct (makedirs_blocked _ w) eqn:Hblocked; [done|].
  intros [= <-]. split; [|done]. intros d Hd%elem_of_list_to_set.
  apply makedirs_blocked_None in Hblocked.
  by apply (proj1 (Forall_forall _ _) Hblocked).
Qed.

Lemma makedirs_again (path : string) (w : world) :
  made_dirs path ⊆ dirs w → makedirs path w = (w, Ok tt).
Proof.
  intros Hsub. rewrite makedirs_clear by (intros d Hd; left; by apply Hsub).
  destruct w as [fs ds c]. cbn in *. do 2 f_equal. by apply subseteq_union_1_L.
Qed.

Lemma makedirs_blocked_file (prefixes : list string) (w : world) (d : string) :
  d ∈ prefixes → d ∉ dirs w → is_Some (files w !! d) →
  ∃ path, makedirs_blocked prefixes w = Some (FileExistsError path)
          ∨ makedirs_blocked prefixes w = Some (NotADirectoryError path).
Proof.
  intros Hin Hnodir Hfile.
  induction prefixes as [|d0 below IH]; [by apply elem_of_nil in Hin|].
  cbn [makedirs_blocked]. case_bool_decide as Hd0.
  - apply elem_of_cons in Hin as [->|Hin]; [done|]. by apply IH.
  - case_bool_decide as Hf0.
    + destruct below as [|child below]; [exists d0; by left|exists child; by right].
    + apply elem_of_cons in Hin as [->|Hin]; [done|]. by apply IH.
Qed.

Lemma makedirs_file_in_the_way (path : string) (w : world) (d : string) :
  d ∈ made_dirs path → d ∉ dirs w → is_Some (files w !! d) →
  ∃ p, makedirs path w = (w, Raise (FileExistsError p))
       ∨ makedirs path w = (w, Raise (NotADirectoryError p)).
Proof.
  intros Hd%elem_of_list_to_set Hnodir Hfile. unfold makedirs.
  destruct (makedirs_blocked_file _ w d Hd Hnodir Hfile) as (p & [-> | ->]);
    exists p; [by left|by right].
Qed.

Lemma made_dirs_self (path : string) :
  path ≠ EmptyString → path ∈ made_dirs path.
Proof.
  intros Hne. apply elem_of_list_to_set, list_elem_of_filter. split; [done|].
  apply (dir_prefixes_last EmptyString path).
Qed.

Lemma member_path_nonempty (top_dir rest : string) :
  top_dir +:+ "/mem_" +:+ rest ≠ EmptyString.
Proof.
  intros Heq. apply (f_equal String.length) in Heq.
  rewrite !length_app in Heq. simpl in Heq. lia.
Qed.

Lemma chdir_Ok (path : string) (w : world) :
  path ∈ dirs w → chdir path w = (World (files w) (dirs w) path, Ok tt).
Proof. intros Hin. unfold chdir. by rewrite bool_decide_eq_true_2. Qed.

Lemma build_working_dir_spec (top_dir : string)
    (param_dict : gmap string value) (dh : DirectoryHelper.t) (w w' : world) :
  DirectoryHelper.init top_dir param_dict = Ok dh →
  DirectoryIO.build_working_dir dh w = (w', Ok tt) →
  ∃ phase_dir,
    DirectoryHelper.get_dir "phase" dh = Ok phase_dir
    ∧ phase_dir ∈ dirs w'
    ∧ (∀ p, param_dict !! "phase" = Some p →
            is_str p "convergence" || is_str p "production" = true →
            ∃ work_sample_dir,
              DirectoryHelper.get_dir "work_sample" dh = Ok work_sample_dir
              ∧ work_sample_dir ∈ dirs w'
              ∧ DirectoryIO.change_dir "work_sample" dh w'
                = (World (files w') (dirs w') work_sample_dir, Ok tt))
    ∧ files w' = files w ∧ cwd w' = cwd w ∧ dirs w ⊆ dirs w'
    ∧ DirectoryIO.build_working_dir dh w' = (w', Ok tt)
    ∧ DirectoryIO.change_dir "phase" dh w'
      = (World (files w') (dirs w') phase_dir, Ok tt).
Proof.
  intros (-> & e & i & p & He & Hi & Hp)%init_required Hbuild.
  unfold DirectoryIO.build_working_dir in Hbuild.
  pose proof (get_dir_phase top_dir param_dict e i p He Hi Hp) as Hphase.
  rewrite (io_bind_lift _ _ _ _ Hphase) in Hbuild.
  apply io_bind_Ok in Hbuild as ([] & w1 & Hmk1 & Hbuild).
  apply makedirs_inv in Hmk1 as [Hfile1 ->].
  assert (Hitem : DirectoryHelper.item param_dict "phase" = Ok p)
    by (unfold DirectoryHelper.item; by rewrite Hp).
  cbn [DirectoryHelper._param_dict] in Hbuild.
  rewrite (io_bind_lift _ _ _ _ Hitem) in Hbuild.
  set (phase_dir := top_dir +:+ "/mem_" +:+ py_str e +:+ "/" +:+ py_str i
                      +:+ "/" +:+ py_str p) in *.
  assert (Hself : phase_dir ∈ made_dirs phase_dir)
    by (apply made_dirs_self, member_path_nonempty).
  exists phase_dir. split; [done|].
  destruct (is_str p "convergence" || is_str p "production") eqn:Hcp.
  - apply io_bind_Ok in Hbuild as (ws_dir & w2 & [Hws ->]%lift_Ok & Hmk2).
    apply makedirs_inv in Hmk2 as [Hfile2 ->]. cbn [files dirs cwd] in *.
    assert (Hws_self : ws_dir ∈ made_dirs ws_dir).
    { destruct (get_dir_work_sample_Ok _ _ e i p ws_dir He Hi Hp Hws) as (ws & _ & ->).
      apply made_dirs_self, member_path_nonempty. }
    split; [set_solver|]. split.
    { intros p' Hp' _. exists ws_dir. split; [done|]. split; [set_solver|].
      unfold DirectoryIO.change_dir. rewrite (io_bind_lift _ _ _ _ Hws).
      apply chdir_Ok. cbn. set_solver. }
    do 2 (split; [done|]). split; [set_solver|]. split.
    + unfold DirectoryIO.build_working_dir.
      rewrite (io_bind_lift _ _ _ _ Hphase).
      unfold mbind at 1, io_bind at 1.
      rewrite makedirs_again by (cbn; set_solver).
      cbn [DirectoryHelper._param_dict]. rewrite (io_bind_lift _ _ _ _ Hitem).
      rewrite Hcp. rewrite (io_bind_lift _ _ _ _ Hws).
      apply makedirs_again; cbn; set_solver.
    + unfold DirectoryIO.change_dir. rewrite (io_bind_lift _ _ _ _ Hphase).
      apply chdir_Ok. cbn. set_solver.
  - injection Hbuild as <-. cbn [files dirs cwd] in *.
    split; [set_solver|]. split.
    { intros p' Hp'. rewrite Hp in Hp'. injection Hp' as <-. by rewrite Hcp. }
    do 2 (split; [done|]). split; [set_solver|]. split.
    + unfold DirectoryIO.build_working_dir.
      rewrite (io_bind_lift _ _ _ _ Hphase).
      unfold mbind at 1, io_bind at 1.
      rewrite makedirs_again by (cbn; set_solver).
      cbn [DirectoryHelper._param_dict]. rewrite (io_bind_lift _ _ _ _ Hitem).
      by rewrite Hcp.
    + unfold DirectoryIO.change_dir. rewrite (io_bind_lift _ _ _ _ Hphase).
      apply chdir_Ok. cbn. set_solver.
Qed.

(** When [build_working_dir] goes through, the phase directory exists,
    and in convergence and production the work-sample directory too; no
    file is touched and the process stays where it was.  Building again
    changes nothing, and [change_dir] into the phase directory then
    succeeds. *)
Theorem build_working_dir_materialises (top_dir : string)
    (param_dict : gmap string value) (dh : DirectoryHelper.t) (w w' : world) :
  DirectoryHelper.init top_dir param_dict = Ok dh →
  DirectoryIO.build_working_dir dh w = (w', Ok tt) →
  ∃ phase_dir,
    DirectoryHelper.get_dir "phase" dh = Ok phase_dir
    ∧ phase_dir ∈ dirs w'
    ∧ (∀ p, param_dict !! "phase" = Some p →
            is_str p "convergence" || is_str p "production" = true →
            ∃ work_sample_dir,
              DirectoryHelper.get_dir "work_sample" dh = Ok work_sample_dir
              ∧ work_sample_dir ∈ dirs w'
              ∧ DirectoryIO.change_dir "work_sample" dh w'
                = (World (files w') (dirs w') work_sample_dir, Ok tt))
    ∧ files w' = files w ∧ cwd w' = cwd w ∧ dirs w ⊆ dirs w'
    ∧ DirectoryIO.build_working_dir dh w' = (w', Ok tt)
    ∧ DirectoryIO.change_dir "phase" dh w'
      = (World (files w') (dirs w') phase_dir, Ok tt).
Proof. apply build_working_dir_spec. Qed.

Lemma build_working_dir_materialises_witness :
  ∃ w',
    DirectoryIO.build_working_dir
      (DirectoryHelper.mk "/ens"
         {[ "ensemble_num" := VInt 1; "iteration" := VInt 0;
            "phase" := VStr "training" ]}) (World ∅ ∅ "/") = (w', Ok tt)
    ∧ "/ens/mem_1/0/training" ∈ dirs w'.
Proof.
  assert (Hobs :
    match DirectoryIO.build_working_dir
            (DirectoryHelper.mk "/ens"
               {[ "ensemble_num" := VInt 1; "iteration" := VInt 0;
                  "phase" := VStr "training" ]}) (World ∅ ∅ "/") with
    | (_, Ok _) => true
    | (_, Raise _) => false
    end = true) by (vm_compute; reflexivity).
  destruct (DirectoryIO.build_working_dir _ _) as [w' [[]|e]] eqn:Hbuild;
    [|discriminate Hobs].
  exists w'. split; [reflexivity|].
  destruct (build_working_dir_materialises "/ens"
              {[ "ensemble_num" := VInt 1; "iteration" := VInt 0;
                 "phase" := VStr "training" ]}
              (DirectoryHelper.mk "/ens"
                 {[ "ensemble_num" := VInt 1; "iteration" := VInt 0;
                    "phase" := VStr "training" ]})
              (World ∅ ∅ "/") w')
    as (phase_dir & Hphase & Hin & _); [reflexivity|exact Hbuild|].
  vm_compute in Hphase. injection Hphase as <-. exact Hin.
Defined.

(** In convergence or production with no work sample in the parameter
    dictionary, [build_working_dir] fails half way.  Where no regular file
    stands in the place of the phase directory or of a directory above
    it, it has created the phase directory when the [KeyError] for
    ['work_sample'] is raised; where one does, [makedirs] raises first and
    nothing is created. *)
Theorem build_working_dir_without_work_sample (top_dir : string)
    (param_dict : gmap string value) (dh : DirectoryHelper.t) (w : world)
    (p : value) (phase_dir : string) :
  DirectoryHelper.init top_dir param_dict = Ok dh →
  param_dict !! "phase" = Some p →
  is_str p "convergence" || is_str p "production" = true →
  param_dict !! "work_sample" = None →
  DirectoryHelper.get_dir "phase" dh = Ok phase_dir →
  ((∀ d, d ∈ made_dirs phase_dir → d ∈ dirs w ∨ files w !! d = None) →
   ∃ w',
     DirectoryIO.build_working_dir dh w = (w', Raise (KeyError "work_sample"))
     ∧ phase_dir ∈ dirs w'
     ∧ dirs w' = made_dirs phase_dir ∪ dirs w
     ∧ files w' = files w)
  ∧ (∀ d, d ∈ made_dirs phase_dir → d ∉ dirs w → is_Some (files w !! d) →
     ∃ path,
       DirectoryIO.build_working_dir dh w = (w, Raise (FileExistsError path))
       ∨ DirectoryIO.build_working_dir dh w = (w, Raise (NotADirectoryError path))).
Proof.
  intros (-> & e & i & p' & He & Hi & Hp')%init_required Hp Hcp Hws Hphase.
  rewrite Hp in Hp'. injection Hp' as <-.
  pose proof (get_dir_phase top_dir param_dict e i p He Hi Hp) as Hdir.
  rewrite Hdir in Hphase. injection Hphase as <-.
  set (phase_dir := top_dir +:+ "/mem_" +:+ py_str e +:+ "/" +:+ py_str i
                      +:+ "/" +:+ py_str p) in *.
  unfold DirectoryIO.build_working_dir.
  rewrite (io_bind_lift _ _ _ _ Hdir).
  split.
  - intros Hclear. unfold mbind at 1, io_bind at 1.
    rewrite (makedirs_clear phase_dir w Hclear).
    assert (Hitem : DirectoryHelper.item param_dict "phase" = Ok p)
      by (unfold DirectoryHelper.item; by rewrite Hp).
    cbn [DirectoryHelper._param_dict]. rewrite (io_bind_lift _ _ _ _ Hitem), Hcp.
    assert (Hmissing :
      DirectoryHelper.get_dir "work_sample" (DirectoryHelper.mk top_dir param_dict)
      = Raise (KeyError "work_sample")).
    { unfold DirectoryHelper.get_dir, DirectoryHelper.item. simpl.
      rewrite He, Hi, Hp. simpl. by rewrite Hcp, Hws. }
    unfold mbind, io_bind, lift. rewrite Hmissing.
    eexists. split; [reflexivity|].
    cbn. split; [|done]. apply elem_of_union_l, made_dirs_self, member_path_nonempty.
  - intros d Hd Hnodir Hfile.
    destruct (makedirs_file_in_the_way phase_dir w d Hd Hnodir Hfile)
      as (path & [Hmk|Hmk]);
      exists path; [left|right]; unfold mbind, io_bind; by rewrite Hmk.
Qed.

Lemma build_working_dir_without_work_sample_witness :
  (∃ w',
     DirectoryIO.build_working_dir
       (DirectoryHelper.mk "/ens"
          {[ "ensemble_num" := VInt 1; "iteration" := VInt 0;
             "phase" := VStr "convergence" ]}) (World ∅ ∅ "/")
     = (w', Raise (KeyError "work_sample"))
     ∧ "/ens/mem_1/0/convergence" ∈ dirs w')
  ∧ ∃ path,
      DirectoryIO.build_working_dir
        (DirectoryHelper.mk "/ens"
           {[ "ensemble_num" := VInt 1; "iteration" := VInt 0;
              "phase" := VStr "convergence" ]})
        (World {[ "/ens/mem_1" := Blob "notes" ]} {[ "/ens" ]} "/")
      = (World {[ "/ens/mem_1" := Blob "notes" ]} {[ "/ens" ]} "/",
         Raise (FileExistsError path))
      ∨ DirectoryIO.build_working_dir
          (DirectoryHelper.mk "/ens"
             {[ "ensemble_num" := VInt 1; "iteration" := VInt 0;
                "phase" := VStr "convergence" ]})
          (World {[ "/ens/mem_1" := Blob "notes" ]} {[ "/ens" ]} "/")
        = (World {[ "/ens/mem_1" := Blob "notes" ]} {[ "/ens" ]} "/",
           Raise (NotADirectoryError path)).
Proof.
  split.
  - destruct (build_working_dir_without_work_sample "/ens"
                {[ "ensemble_num" := VInt 1; "iteration" := VInt 0;
                   "phase" := VStr "convergence" ]}
                (DirectoryHelper.mk "/ens"
                   {[ "ensemble_num" := VInt 1; "iteration" := VInt 0;
                      "phase" := VStr "convergence" ]})
                (World ∅ ∅ "/") (VStr "convergence") "/ens/mem_1/0/convergence")
      as [Hclear _]; try (vm_compute; reflexivity).
    destruct Hclear as (w' & Hbuild & Hin & _).
    { intros d _. right. apply lookup_empty. }
    exists w'. split; [exact Hbuild|exact Hin].
  - destruct (build_working_dir_without_work_sample "/ens"
                {[ "ensemble_num" := VInt 1; "iteration" := VInt 0;
                   "phase" := VStr "convergence" ]}
                (DirectoryHelper.mk "/ens"
                   {[ "ensemble_num" := VInt 1; "iteration" := VInt 0;
                      "phase" := VStr "convergence" ]})
                (World {[ "/ens/mem_1" := Blob "notes" ]} {[ "/ens" ]} "/")
                (VStr "convergence") "/ens/mem_1/0/convergence")
      as [_ Hblocked]; try (vm_compute; reflexivity).
    apply (Hblocked "/ens/mem_1").
    + apply (bool_decide_unpack _). by vm_compute.
    + apply (bool_decide_unpack _). by vm_compute.
    + cbn. rewrite lookup_singleton_eq. by eexists.
Defined.

(** ** Where a run works *)

Section Workdir.
Context `{Collaborators}.

(** When [__change_directory] goes through, the process is in the working
    directory of the phase: [<ens_dir>/mem_<e>/<i>/training] in training,
    and below the phase directory, in the directory of the configured work
    sample, in every other phase.  That directory exists, and no file was
    touched. *)
Theorem change_directory_arrives (rc : RunConfig.t) (w w' : world) (e i p : value) :
  general_value "ensemble_num" (RunConfig.run_data rc) = Some e →
  general_value "iteration" (RunConfig.run_data rc) = Some i →
  general_value "phase" (RunConfig.run_data rc) = Some p →
  RunConfig.__change_directory rc w = (w', Ok tt) →
  cwd w' = RunConfig.working_dir rc e i p
  ∧ cwd w' ∈ dirs w'
  ∧ files w' = files w
  ∧ dirs w ⊆ dirs w'.
Proof.
  intros He Hi Hp. unfold RunConfig.__change_directory. intros Hcd.
  apply io_bind_Ok in Hcd as (p' & w1 & [Hget ->]%lift_Ok & Hcd).
  apply get_value_general in Hget as [_ Hget]; [|done].
  unfold general_value in Hp. rewrite Hp in Hget. injection Hget as <-.
  set (m := MetaData.get_as_dictionary (RunData.general_params (RunConfig.run_data rc)))
    in *.
  set (pdict := if is_str p "training" then m
                else <["work_sample" := RunConfig.work_sample rc]> m) in *.
  assert (Hpe : pdict !! "ensemble_num" = Some e).
  { unfold pdict. destruct (is_str p "training"); [done|]. by rewrite lookup_insert_ne. }
  assert (Hpi : pdict !! "iteration" = Some i).
  { unfold pdict. destruct (is_str p "training"); [done|]. by rewrite lookup_insert_ne. }
  assert (Hpp : pdict !! "phase" = Some p).
  { unfold pdict. destruct (is_str p "training"); [done|]. by rewrite lookup_insert_ne. }
  apply io_bind_Ok in Hcd as (dh & w2 & [Hdh ->]%lift_Ok & Hcd).
  apply io_bind_Ok in Hcd as ([] & w3 & Hbuild & Hcd).
  destruct (build_working_dir_spec _ _ _ _ _ Hdh Hbuild)
    as (phase_dir & Hphase & Hin & Hws & Hfiles & Hcwd & Hdirs & _ & Hchange).
  apply init_required in Hdh as [-> _].
  rewrite (get_dir_phase _ _ e i p Hpe Hpi Hpp) in Hphase. injection Hphase as <-.
  unfold RunConfig.working_dir.
  destruct (is_str p "training") eqn:Htraining.
  - rewrite Hchange in Hcd. injection Hcd as <-. cbn. done.
  - assert (Hlater : is_str p "convergence" || is_str p "production" = true).
    { unfold DirectoryIO.change_dir in Hcd.
      apply io_bind_Ok in Hcd as (d & w4 & [Hd ->]%lift_Ok & _).
      unfold DirectoryHelper.get_dir, DirectoryHelper.item in Hd. simpl in Hd.
      rewrite Hpp in Hd. simpl in Hd. by destruct (_ || _). }
    destruct (Hws p Hpp Hlater) as (ws_dir & Hdir & Hwsin & Hchange_ws).
    rewrite Hchange_ws in Hcd. injection Hcd as <-. cbn.
    destruct (get_dir_work_sample_Ok _ _ e i p ws_dir Hpe Hpi Hpp Hdir)
      as (ws & Hl & ->).
    unfold pdict in Hl. rewrite lookup_insert_eq in Hl. injection Hl as <-. done.
Qed.

End Workdir.

Lemma change_directory_arrives_witness :
  ∃ rc w',
    in_phase "production" = Ok rc
    ∧ @RunConfig.__change_directory scripted rc (World ∅ ∅ "/") = (w', Ok tt)
    ∧ cwd w' = "/ens/mem_1/0/production/1".
Proof.
  assert (Hobs :
    match in_phase "production" with
    | Ok rc =>
        match @RunConfig.__change_directory scripted rc (World ∅ ∅ "/") with
        | (_, Ok _) =>
            Some (general_value "ensemble_num" (RunConfig.run_data rc),
                  general_value "iteration" (RunConfig.run_data rc),
                  general_value "phase" (RunConfig.run_data rc),
                  @RunConfig.working_dir scripted rc (VInt 1) (VInt 0)
                    (VStr "production"))
        | (_, Raise _) => None
        end
    | Raise _ => None
    end = Some (Some (VInt 1), Some (VInt 0), Some (VStr "production"),
                "/ens/mem_1/0/production/1"))
    by (vm_compute; reflexivity).
  destruct (in_phase "production") as [rc|err]; [|discriminate Hobs].
  destruct (@RunConfig.__change_directory scripted rc (World ∅ ∅ "/"))
    as [w' [[]|err]] eqn:Hcd; [|discriminate Hobs].
  assert (He : general_value "ensemble_num" (RunConfig.run_data rc) = Some (VInt 1))
    by (by injection Hobs).
  assert (Hi : general_value "iteration" (RunConfig.run_data rc) = Some (VInt 0))
    by (by injection Hobs).
  assert (Hp : general_value "phase" (RunConfig.run_data rc) = Some (VStr "production"))
    by (by injection Hobs).
  assert (Hwd : @RunConfig.working_dir scripted rc (VInt 1) (VInt 0) (VStr "production")
                = "/ens/mem_1/0/production/1") by (by injection Hobs).
  exists rc, w'. split; [reflexivity|]. split; [exact Hcd|].
  destruct (change_directory_arrives (H := scripted) rc (World ∅ ∅ "/") w'
              (VInt 1) (VInt 0) (VStr "production") He Hi Hp Hcd) as (Hcwd & _).
  by rewrite Hcwd.
Defined.

(** ** Carrying the checkpoint *)

Section MoveCheckpoint.
Context `{Collaborators}.

Lemma move_cpt_absent (rc : RunConfig.t) (w : world) (e i p : value) :
  RunData.get_value "iteration" None (RunConfig.run_data rc) = Ok i →
  RunData.get_value "ensemble_num" None (RunConfig.run_data rc) = Ok e →
  RunData.get_value "phase" None (RunConfig.run_data rc) = Ok p →
  files w !! RunConfig.updated_path rc e i p = None →
  RunConfig.updated_path rc e i p ∉ dirs w →
  RunConfig.__move_cpt rc w
  = (prev_iter ← lift (py_sub i (VInt 1));
     if is_str p "training" || is_str p "convergence" then
       later ← lift (py_gt prev_iter (VInt (-1)));
       if later : bool
       then lift (Raise (ValueError "multiple iterations are not supported"))
       else mret tt
     else
       here ← getcwd;
       copy (RunConfig.gmx_cpt rc e i) (here +:+ "/state.cpt")) w.
Proof.
  intros Hi He Hp Hfile Hdir. unfold RunConfig.__move_cpt.
  rewrite (io_bind_lift _ _ i) by done.
  rewrite (io_bind_lift _ _ e) by done.
  rewrite (io_bind_lift _ _ p) by done.
  unfold mbind at 1, io_bind at 1, exists_. rewrite Hfile.
  rewrite (bool_decide_eq_false_2 (is_Some None)) by (by intros [? [=]]).
  by rewrite (bool_decide_eq_false_2 (_ ∈ dirs w)) by done.
Qed.

(** In training and in convergence, with no checkpoint at the path of the
    phase, [__move_cpt] does nothing at iteration 0 (or below) and raises
    the [ValueError] about multiple iterations at every later iteration;
    either way the disk is left as it was. *)
Theorem move_cpt_first_iteration_only (rc : RunConfig.t) (w : world)
    (e p : value) (n : Z) :
  RunData.get_value "iteration" None (RunConfig.run_data rc) = Ok (VInt n) →
  RunData.get_value "ensemble_num" None (RunConfig.run_data rc) = Ok e →
  RunData.get_value "phase" None (RunConfig.run_data rc) = Ok p →
  is_str p "training" || is_str p "convergence" = true →
  files w !! RunConfig.updated_path rc e (VInt n) p = None →
  RunConfig.updated_path rc e (VInt n) p ∉ dirs w →
  RunConfig.__move_cpt rc w
  = (w, if bool_decide (1 ≤ n)%Z
        then Raise (ValueError "multiple iterations are not supported")
        else Ok tt).
Proof.
  intros Hi He Hp Hphase Hfile Hdir.
  rewrite (move_cpt_absent rc w e (VInt n) p) by done.
  cbn [py_sub]. rewrite (io_bind_lift _ _ (VInt (n - 1))) by done.
  rewrite Hphase. cbn [py_gt].
  rewrite (io_bind_lift _ _ (bool_decide (n - 1 > -1))) by done.
  case_bool_decide as Hn.
  - by rewrite bool_decide_eq_true_2 by lia.
  - by rewrite bool_decide_eq_false_2 by lia.
Qed.

(** In production (and in any phase that is neither training nor
    convergence), with no checkpoint in the working directory,
    [__move_cpt] copies the checkpoint that convergence left for the
    iteration and work sample to [state.cpt] in the current directory: the
    copy holds what the original holds, the original stays, and no other
    file changes. *)
Theorem move_cpt_copies (rc : RunConfig.t) (w : world) (e p : value) (n : Z)
    (f : file) :
  RunData.get_value "iteration" None (RunConfig.run_data rc) = Ok (VInt n) →
  RunData.get_value "ensemble_num" None (RunConfig.run_data rc) = Ok e →
  RunData.get_value "phase" None (RunConfig.run_data rc) = Ok p →
  is_str p "training" || is_str p "convergence" = false →
  files w !! RunConfig.updated_path rc e (VInt n) p = None →
  RunConfig.updated_path rc e (VInt n) p ∉ dirs w →
  files w !! RunConfig.gmx_cpt rc e (VInt n) = Some f →
  ∃ w',
    RunConfig.__move_cpt rc w = (w', Ok tt)
    ∧ files w' !! (cwd w +:+ "/state.cpt") = Some f
    ∧ (∀ other, other ≠ cwd w +:+ "/state.cpt" → files w' !! other = files w !! other)
    ∧ dirs w' = dirs w ∧ cwd w' = cwd w.
Proof.
  intros Hi He Hp Hphase Hfile Hdir Hconv.
  rewrite (move_cpt_absent rc w e (VInt n) p) by done.
  cbn [py_sub]. rewrite (io_bind_lift _ _ (VInt (n - 1))) by done.
  rewrite Hphase. unfold mbind, io_bind, getcwd, copy. rewrite Hconv.
  eexists. split; [reflexivity|]. cbn.
  split; [apply lookup_insert_eq|]. split; [|done].
  intros other Hne. by rewrite lookup_insert_ne.
Qed.

End MoveCheckpoint.

Lemma move_cpt_first_iteration_only_witness :
  ∃ rc,
    in_training = Ok rc
    ∧ @RunConfig.__move_cpt scripted rc (World ∅ ∅ "/") = (World ∅ ∅ "/", Ok tt).
Proof.
  assert (Hobs :
    match in_training with
    | Ok rc =>
        Some (RunData.get_value "iteration" None (RunConfig.run_data rc),
              RunData.get_value "ensemble_num" None (RunConfig.run_data rc),
              RunData.get_value "phase" None (RunConfig.run_data rc))
    | Raise _ => None
    end = Some (Ok (VInt 0), Ok (VInt 1), Ok (VStr "training")))
    by (vm_compute; reflexivity).
  destruct in_training as [rc|err]; [|discriminate Hobs].
  assert (Hi : RunData.get_value "iteration" None (RunConfig.run_data rc)
               = Ok (VInt 0)) by (by injection Hobs).
  assert (He : RunData.get_value "ensemble_num" None (RunConfig.run_data rc)
               = Ok (VInt 1)) by (by injection Hobs).
  assert (Hp : RunData.get_value "phase" None (RunConfig.run_data rc)
               = Ok (VStr "training")) by (by injection Hobs).
  exists rc. split; [reflexivity|].
  rewrite (move_cpt_first_iteration_only (H := scripted) rc (World ∅ ∅ "/")
             (VInt 1) (VStr "training") 0 Hi He Hp).
  - reflexivity.
  - reflexivity.
  - apply lookup_empty.
  - apply not_elem_of_empty.
Defined.

Lemma move_cpt_copies_witness :
  ∃ rc w',
    in_phase "production" = Ok rc
    ∧ @RunConfig.__move_cpt scripted rc
        (one_checkpoint "/ens/mem_1/0/convergence/1/state.cpt") = (w', Ok tt)
    ∧ files w' !! "//state.cpt" = Some (Blob "checkpoint").
Proof.
  assert (Hobs :
    match in_phase "production" with
    | Ok rc =>
        Some (RunData.get_value "iteration" None (RunConfig.run_data rc),
              RunData.get_value "ensemble_num" None (RunConfig.run_data rc),
              RunData.get_value "phase" None (RunConfig.run_data rc),
              @RunConfig.updated_path scripted rc (VInt 1) (VInt 0) (VStr "production"),
              @RunConfig.gmx_cpt scripted rc (VInt 1) (VInt 0))
    | Raise _ => None
    end = Some (Ok (VInt 0), Ok (VInt 1), Ok (VStr "production"),
                "/ens/mem_1/0/production/1/state.cpt",
                "/ens/mem_1/0/convergence/1/state.cpt"))
    by (vm_compute; reflexivity).
  destruct (in_phase "production") as [rc|err]; [|discriminate Hobs].
  assert (Hi : RunData.get_value "iteration" None (RunConfig.run_data rc)
               = Ok (VInt 0)) by (by injection Hobs).
  assert (He : RunData.get_value "ensemble_num" None (RunConfig.run_data rc)
               = Ok (VInt 1)) by (by injection Hobs).
  assert (Hp : RunData.get_value "phase" None (RunConfig.run_data rc)
               = Ok (VStr "production")) by (by injection Hobs).
  assert (Hup : @RunConfig.updated_path scripted rc (VInt 1) (VInt 0) (VStr "production")
                = "/ens/mem_1/0/production/1/state.cpt") by (by injection Hobs).
  assert (Hgmx : @RunConfig.gmx_cpt scripted rc (VInt 1) (VInt 0)
                 = "/ens/mem_1/0/convergence/1/state.cpt") by (by injection Hobs).
  destruct (move_cpt_copies (H := scripted) rc
              (one_checkpoint "/ens/mem_1/0/convergence/1/state.cpt")
              (VInt 1) (VStr "production") 0 (Blob "checkpoint") Hi He Hp)
    as (w' & Hmove & Hcopy & _).
  - reflexivity.
  - rewrite Hup. vm_compute. reflexivity.
  - rewrite Hup. apply not_elem_of_empty.
  - rewrite Hgmx. vm_compute. reflexivity.
  - exists rc, w'. split; [reflexivity|]. split; [exact Hmove|exact Hcopy].
Defined.

(** ** A second training *)

Section SecondTraining.
Context `{Collaborators}.

Lemma made_dirs_length (path d : string) :
  d ∈ made_dirs path → (String.length d ≤ String.length path)%nat.
Proof.
  intros Hd. apply elem_of_list_to_set, list_elem_of_filter in Hd as [_ Hd].
  apply dir_prefixes_length in Hd. simpl in Hd. lia.
Qed.

Lemma change_directory_training (rc : RunConfig.t) (w w1 : world) (e i : value) :
  general_value "ensemble_num" (RunConfig.run_data rc) = Some e →
  general_value "iteration" (RunConfig.run_data rc) = Some i →
  general_value "phase" (RunConfig.run_data rc) = Some (VStr "training") →
  RunConfig.__change_directory rc w = (w1, Ok tt) →
  w1 = World (files w)
         (made_dirs (RunConfig.working_dir rc e i (VStr "training")) ∪ dirs w)
         (RunConfig.working_dir rc e i (VStr "training")).
Proof.
  intros He Hi Hp. unfold RunConfig.__change_directory. intros Hcd.
  apply io_bind_Ok in Hcd as (p' & w0 & [Hget ->]%lift_Ok & Hcd).
  apply get_value_general in Hget as [_ Hget]; [|done].
  unfold general_value in Hp. rewrite Hp in Hget. injection Hget as <-.
  change (is_str (VStr "training") "training") with true in Hcd. cbv iota in Hcd.
  apply io_bind_Ok in Hcd as (dh & w2 & [Hdh ->]%lift_Ok & Hcd).
  apply init_required in Hdh as [-> _].
  apply io_bind_Ok in Hcd as ([] & w3 & Hbuild & Hcd).
  pose proof (get_dir_phase (RunConfig.ens_dir rc) _ e i (VStr "training") He Hi Hp)
    as Hphase.
  unfold DirectoryIO.build_working_dir in Hbuild.
  rewrite (io_bind_lift _ _ _ _ Hphase) in Hbuild.
  apply io_bind_Ok in Hbuild as ([] & w4 & Hmk & Hbuild).
  apply makedirs_inv in Hmk as [_ ->].
  unfold DirectoryHelper.item in Hbuild. cbn [DirectoryHelper._param_dict] in Hbuild.
  unfold MetaData.get_as_dictionary in Hbuild. rewrite Hp in Hbuild.
  rewrite (io_bind_lift _ _ (VStr "training")) in Hbuild by done.
  change (is_str (VStr "training") "convergence"
          || is_str (VStr "training") "production") with false in Hbuild.
  cbv iota in Hbuild. injection Hbuild as <-.
  unfold DirectoryIO.change_dir in Hcd. rewrite (io_bind_lift _ _ _ _ Hphase) in Hcd.
  unfold chdir in Hcd. destruct (bool_decide _); [|done].
  by injection Hcd as <-.
Qed.

Lemma backup_cpt_clears (w w' : world) :
  cwd w +:+ "/state.cpt" ∉ dirs w →
  RunConfig.backup_cpt w = (w', Ok tt) →
  cwd w' = cwd w ∧ dirs w' = dirs w ∧ files w' !! (cwd w +:+ "/state.cpt") = None.
Proof.
  intros Hdir. unfold RunConfig.backup_cpt, mbind, io_bind, getcwd, exists_, move.
  rewrite (bool_decide_eq_false_2 (_ ∈ dirs w)) by done. rewrite orb_false_r.
  destruct (files w !! (cwd w +:+ "/state.cpt")) as [f|] eqn:Hfile.
  - rewrite bool_decide_eq_true_2 by (by eexists). rewrite Hfile.
    intros [= <-]. cbn. do 2 (split; [done|]).
    rewrite lookup_insert_ne by (by apply app_neq_self). apply lookup_delete_eq.
  - rewrite bool_decide_eq_false_2 by (by intros [? [=]]).
    by intros [= <-].
Qed.

Lemma set_targets_other (names : list string) (targets : pydict)
    (rd rd' : RunData.t) (k : string) :
  RunConfig.set_targets names targets rd = Ok rd' → k ≠ "target" →
  general_value k rd' = general_value k rd.
Proof.
  intros Hset Hk. revert rd Hset.
  induction names as [|name names IH]; intros rd; cbn [RunConfig.set_targets].
  - by intros [= <-].
  - intros (v & _ & (rd1 & H1 & Hrest)%bind_Ok)%bind_Ok.
    rewrite (IH rd1 Hrest). eapply set_other; [exact H1|].
    by intros ?%list_elem_of_singleton.
Qed.

Lemma move_cpt_later_iteration (rc : RunConfig.t) (w : world) (e p : value) (n : Z) :
  RunData.get_value "iteration" None (RunConfig.run_data rc) = Ok (VInt n) →
  RunData.get_value "ensemble_num" None (RunConfig.run_data rc) = Ok e →
  RunData.get_value "phase" None (RunConfig.run_data rc) = Ok p →
  is_str p "training" || is_str p "convergence" = true →
  files w !! RunConfig.updated_path rc e (VInt n) p = None →
  RunConfig.updated_path rc e (VInt n) p ∉ dirs w →
  (1 ≤ n)%Z →
  RunConfig.__move_cpt rc w
  = (w, Raise (ValueError "multiple iterations are not supported")).
Proof.
  intros Hi He Hp Hphase Hfile Hdir Hn.
  rewrite (move_cpt_absent rc w e (VInt n) p) by done.
  cbn [py_sub]. rewrite (io_bind_lift _ _ (VInt (n - 1))) by done.
  rewrite Hphase. cbn [py_gt].
  rewrite (io_bind_lift _ _ (bool_decide (n - 1 > -1))) by done.
  by rewrite bool_decide_eq_true_2 by lia.
Qed.

(** After the first iteration the cycle cannot go on: a run in training at
    iteration 1 or later never returns normally.  The checkpoint that
    might be in the training directory is moved aside first, so
    [__move_cpt] finds none and raises (unless an earlier step already
    has, or the redraw loop does not stop). *)
Theorem training_stops_after_first_iteration (fuel : nat) (set_next_phase : bool)
    (rc : RunConfig.t) (w : world) (e : value) (n : Z) :
  general_value "phase" (RunConfig.run_data rc) = Some (VStr "training") →
  general_value "iteration" (RunConfig.run_data rc) = Some (VInt n) →
  (1 ≤ n)%Z →
  general_value "ensemble_num" (RunConfig.run_data rc) = Some e →
  RunConfig.updated_path rc e (VInt n) (VStr "training") ∉ dirs w →
  ∀ w' rc', RunConfig.run fuel set_next_phase rc w ≠ Some (w', Ok rc').
Proof.
  intros Hp Hi Hn He Hdir w' rc' Hrun. unfold RunConfig.run in Hrun.
  destruct (RunData.get_value "phase" None (RunConfig.run_data rc)) as [p|err] eqn:Hget;
    [|discriminate Hrun].
  rewrite (io_bind_lift _ _ p) in Hrun by done.
  apply get_value_general in Hget as [_ Hget]; [|done].
  unfold general_value in Hp. rewrite Hp in Hget. injection Hget as <-.
  unfold mbind at 1, io_bind at 1 in Hrun.
  destruct (RunConfig.__change_directory rc w) as [w1 [[]|err]] eqn:Hcd;
    [|discriminate Hrun].
  apply (change_directory_training rc w w1 e (VInt n) He Hi Hp) in Hcd.
  unfold mret, io_ret in Hrun.
  change (is_str (VStr "training") "training") with true in Hrun. cbv iota in Hrun.
  destruct (RunConfig.__train fuel rc w1) as [[w2 [rc2|err]]|] eqn:Htrain;
    [|discriminate Hrun..].
  clear Hrun. unfold RunConfig.__train in Htrain.
  destruct (re_sample (RunConfig.pairs rc)) as [t0 p0].
  destruct (RunConfig.redraw fuel _ t0 p0) as [[[targets pairs]|err]|]; [|done..].
  injection Htrain as Htrain. unfold RunConfig.train_with in Htrain.
  apply io_bind_Ok in Htrain as (rd1 & w3 & [Htargets ->]%lift_Ok & Htrain).
  apply io_bind_Ok in Htrain as ([] & w4 & Hsave & Htrain).
  apply io_bind_Ok in Htrain as ([] & w5 & Hbackup & Htrain).
  apply io_bind_Ok in Htrain as ([] & w6 & Hmove & _).
  cbn [RunConfig.with_pairs RunConfig.with_run_data RunConfig.run_data
       RunConfig.state_json] in *.
  apply json_dump_inv in Hsave as (-> & _ & _).
  set (wd := RunConfig.working_dir rc e (VInt n) (VStr "training")) in *.
  assert (Hpath : RunConfig.updated_path rc e (VInt n) (VStr "training")
                  = wd +:+ "/state.cpt").
  { unfold wd, RunConfig.updated_path, RunConfig.working_dir.
    change (is_str (VStr "training") "training") with true. cbv iota.
    by rewrite !string_app_assoc. }
  assert (Hnodir : wd +:+ "/state.cpt" ∉ made_dirs wd ∪ dirs w).
  { intros [Hin|Hin]%elem_of_union; [|by rewrite <- Hpath in Hin].
    apply made_dirs_length in Hin. rewrite length_app in Hin. simpl in Hin. lia. }
  subst w1. cbn [files dirs cwd] in Hbackup.
  apply backup_cpt_clears in Hbackup as (Hcwd & Hdirs & Hfile); [|done].
  cbn [files dirs cwd] in Hcwd, Hdirs, Hfile.
  pose proof Hmove as Hmove'. unfold RunConfig.__move_cpt in Hmove'.
  apply io_bind_Ok in Hmove' as (i' & w7 & [Hi' ->]%lift_Ok & Hmove').
  apply io_bind_Ok in Hmove' as (e' & w8 & [He' ->]%lift_Ok & Hmove').
  apply io_bind_Ok in Hmove' as (p' & w9 & [Hp' ->]%lift_Ok & _).
  cbn [RunConfig.run_data] in Hi', He', Hp'.
  assert (i' = VInt n ∧ e' = e ∧ p' = VStr "training") as (-> & -> & ->).
  { apply get_value_general in Hi' as [_ Hi']; [|done].
    apply get_value_general in He' as [_ He']; [|done].
    apply get_value_general in Hp' as [_ Hp']; [|done].
    change (general_value "iteration" rd1 = Some i') in Hi'.
    change (general_value "ensemble_num" rd1 = Some e') in He'.
    change (general_value "phase" rd1 = Some p') in Hp'.
    rewrite (set_targets_other _ _ _ _ "iteration" Htargets) in Hi' by done.
    rewrite (set_targets_other _ _ _ _ "ensemble_num" Htargets) in He' by done.
    rewrite (set_targets_other _ _ _ _ "phase" Htargets) in Hp' by done.
    unfold general_value in Hi, He, Hi', He', Hp'.
    rewrite Hi in Hi'. rewrite He in He'. rewrite Hp in Hp'.
    by injection Hi' as <-; injection He' as <-; injection Hp' as <-. }
  rewrite (move_cpt_later_iteration _ w5 e (VStr "training") n) in Hmove;
    [discriminate Hmove|done..| | |done].
  - change (RunConfig.updated_path _ e (VInt n) (VStr "training"))
      with (RunConfig.updated_path rc e (VInt n) (VStr "training")).
    by rewrite Hpath.
  - change (RunConfig.updated_path _ e (VInt n) (VStr "training"))
      with (RunConfig.updated_path rc e (VInt n) (VStr "training")).
    rewrite Hpath, Hdirs. done.
Qed.

End SecondTraining.

Lemma training_stops_after_first_iteration_witness :
  ∃ rc,
    second_training = Ok rc
    ∧ ∀ w' rc', @RunConfig.run scripted 3 true rc (World ∅ ∅ "/") ≠ Some (w', Ok rc').
Proof.
  assert (Hobs :
    match second_training with
    | Ok rc =>
        Some (general_value "phase" (RunConfig.run_data rc),
              general_value "iteration" (RunConfig.run_data rc),
              general_value "ensemble_num" (RunConfig.run_data rc))
    | Raise _ => None
    end = Some (Some (VStr "training"), Some (VInt 1), Some (VInt 1)))
    by (vm_compute; reflexivity).
  destruct second_training as [rc|err]; [|discriminate Hobs].
  assert (Hp : general_value "phase" (RunConfig.run_data rc) = Some (VStr "training"))
    by (by injection Hobs).
  assert (Hi : general_value "iteration" (RunConfig.run_data rc) = Some (VInt 1))
    by (by injection Hobs).
  assert (He : general_value "ensemble_num" (RunConfig.run_data rc) = Some (VInt 1))
    by (by injection Hobs).
  exists rc. split; [reflexivity|].
  apply (training_stops_after_first_iteration (H := scripted) 3 true rc
           (World ∅ ∅ "/") (VInt 1) 1 Hp Hi).
  - lia.
  - exact He.
  - apply not_elem_of_empty.
Defined.

(** ** What a phase leaves in the run data *)

Lemma set1_keeps_history (name : option string) (key : string) (v : value)
    (rd rd' : RunData.t) :
  key ≠ "history" → RunData.set1 name key v rd = Ok rd' →
  RunData.history rd' = RunData.history rd.
Proof.
  unfold RunData.set1. intros Hkey Hset.
  destruct (RunData.given name) as [n|].
  - destruct (RunData.pair_params rd !! n) as [p|]; [|done].
    case_bool_decide; [|done].
    by apply bind_Ok in Hset as (p' & _ & [= <-]).
  - case_bool_decide; [|by rewrite decide_False in Hset by done].
    by apply bind_Ok in Hset as (g & _ & [= <-]).
Qed.

Lemma set1_general_frame (key : string) (v : value) (rd rd' : RunData.t) :
  key ≠ "history" → RunData.set1 None key v rd = Ok rd' →
  RunData.pair_params rd' = RunData.pair_params rd
  ∧ RunData.history rd' = RunData.history rd.
Proof.
  unfold RunData.set1. cbn [RunData.given]. intros Hkey Hset.
  case_bool_decide; [|by rewrite decide_False in Hset by done].
  by apply bind_Ok in Hset as (g & _ & [= <-]).
Qed.

Lemma set_targets_keeps_history (names : list string) (targets : pydict)
    (rd rd' : RunData.t) :
  RunConfig.set_targets names targets rd = Ok rd' →
  RunData.history rd' = RunData.history rd.
Proof.
  revert rd. induction names as [|name names IH]; intros rd;
    cbn [RunConfig.set_targets].
  - by intros [= <-].
  - intros (v & _ & (rd1 & H1 & Hrest)%bind_Ok)%bind_Ok.
    rewrite (IH rd1 Hrest). cbn [RunData.set] in H1.
    apply bind_Ok in H1 as (rd2 & H1 & [= <-]).
    by apply (set1_keeps_history (Some name) "target" v rd rd2).
Qed.

Lemma harvest_keeps_history (indices : list nat) (potentials : list potential)
    (sites_to_name : gmap string string) (alphas alphas' : pydict)
    (rd rd' : RunData.t) :
  RunConfig.harvest indices potentials sites_to_name alphas rd = Ok (alphas', rd') →
  RunData.history rd' = RunData.history rd.
Proof.
  revert alphas rd. induction indices as [|i indices IH]; intros alphas rd;
    cbn [RunConfig.harvest].
  - by intros [= _ <-].
  - destruct (potentials !! i) as [p|]; [|done].
    destruct (sites_to_name !! pot_name p) as [current_name|]; [|done].
    intros (rd1 & H1 & (rd2 & H2 & Hrest)%bind_Ok)%bind_Ok.
    rewrite (IH _ _ Hrest). cbn [RunData.set] in H1, H2.
    apply bind_Ok in H1 as (rd3 & H1 & [= <-]).
    apply bind_Ok in H2 as (rd4 & H2 & [= <-]).
    rewrite (set1_keeps_history (Some current_name) "target" _ rd3 rd4) by done.
    by apply (set1_keeps_history (Some current_name) "alpha" (pot_alpha p) rd rd3).
Qed.

Section PhaseResults.
Context `{Collaborators}.

(** A training that goes through leaves the target set it was given in the
    ledger: asked again, [check_targets] answers [True] for it, so the
    next redraw loop rejects it. *)
Theorem training_records_its_targets (targets : pydict) (rc rc' : RunConfig.t)
    (w w' : world) :
  MetaData.required_parameters (RunData.history (RunConfig.run_data rc)) = None →
  RunConfig.train_with targets rc w = (w', Ok rc') →
  History.check_targets targets (RunData.history (RunConfig.run_data rc')) = Ok true.
Proof.
  intros Hnone Hrun. unfold RunConfig.train_with in Hrun.
  apply io_bind_Ok in Hrun as (rd1 & w1 & [Htargets ->]%lift_Ok & Hrun).
  apply io_bind_Ok in Hrun as ([] & w2 & _ & Hrun).
  apply io_bind_Ok in Hrun as ([] & w3 & _ & Hrun).
  apply io_bind_Ok in Hrun as ([] & w4 & _ & Hrun).
  apply io_bind_Ok in Hrun as (rc1 & w5 & [Hplugins ->]%lift_Ok & Hrun).
  apply io_bind_Ok in Hrun as (sites_to_name & w6 & _ & Hrun).
  apply io_bind_Ok in Hrun as (here & w7 & _ & Hrun).
  apply io_bind_Ok in Hrun as (potentials & w8 & _ & Hrun).
  apply io_bind_Ok in Hrun as ([alphas rd2] & w9 & [Hharvest ->]%lift_Ok & Hrun).
  apply io_bind_Ok in Hrun as (h & w10 & [Hentry ->]%lift_Ok & Hrun).
  injection Hrun as _ <-.
  apply build_plugins_Ok in Hplugins as [Hrd _]. cbn in Hrd.
  rewrite Hrd in Hharvest.
  rewrite (harvest_keeps_history _ _ _ _ _ _ _ Hharvest) in Hentry.
  rewrite (set_targets_keeps_history _ _ _ _ Htargets) in Hentry.
  destruct (target_key_total targets) as (vs & _ & Hkey).
  destruct (new_entry_present _ _ _ _ _ Hnone Hkey Hentry) as [Hin _].
  cbn. rewrite (check_targets_lookup targets h _ Hkey).
  by rewrite bool_decide_eq_true_2.
Qed.

(** A convergence that goes through has run one session, with no end time,
    on the plugins built for convergence, and has put the time of the
    first potential into the general parameter [start_time]; every other
    general parameter, the pairs and the history are as they were. *)
Theorem convergence_records_end_time (rc rc' : RunConfig.t) (w w' : world) :
  RunConfig.__converge rc w = (w', Ok rc') →
  ∃ rc1 w1 p0 potentials,
    RunConfig.build_plugins ConvergencePluginConfig rc = Ok rc1
    ∧ session_run (RunConfig.tpr rc) None (RunConfig.__plugins rc1) (cwd w1) w1
      = (w', Ok (p0 :: potentials))
    ∧ general_value "start_time" (RunConfig.run_data rc') = Some (pot_time p0)
    ∧ (∀ k, k ≠ "start_time" →
         general_value k (RunConfig.run_data rc')
         = general_value k (RunConfig.run_data rc))
    ∧ RunData.pair_params (RunConfig.run_data rc')
      = RunData.pair_params (RunConfig.run_data rc)
    ∧ RunData.history (RunConfig.run_data rc')
      = RunData.history (RunConfig.run_data rc).
Proof.
  unfold RunConfig.__converge. intros Hrun.
  apply io_bind_Ok in Hrun as ([] & w1 & _ & Hrun).
  apply io_bind_Ok in Hrun as (rc1 & w2 & [Hplugins ->]%lift_Ok & Hrun).
  apply io_bind_Ok in Hrun as (here & w3 & [= <- <-] & Hrun).
  apply io_bind_Ok in Hrun as (potentials & w4 & Hsession & Hrun).
  apply io_bind_Ok in Hrun as (p0 & w5 & [Hp0 ->]%lift_Ok & Hrun).
  apply io_bind_Ok in Hrun as (rd & w6 & [Hset ->]%lift_Ok & Hrun).
  apply io_bind_Ok in Hrun as ([] & w7 & [_ ->]%lift_Ok & Hrun).
  injection Hrun as <- <-.
  destruct potentials as [|p0' potentials]; [done|]. injection Hp0 as ->.
  pose proof (build_plugins_Ok _ _ _ Hplugins) as [Hrd _].
  assert (Htpr : RunConfig.tpr rc1 = RunConfig.tpr rc).
  { unfold RunConfig.build_plugins in Hplugins.
    by apply bind_Ok in Hplugins as (ps & _ & [= <-]). }
  rewrite Htpr in Hsession. rewrite Hrd in Hset.
  cbn [RunData.set] in Hset. apply bind_Ok in Hset as (rd2 & Hset & [= <-]).
  exists rc1, w1, p0, potentials. split; [done|]. split; [done|]. cbn.
  split; [by apply (set1_general "start_time" _ (RunConfig.run_data rc) rd2)|].
  split; [intros k Hk; by apply (set1_other None "start_time" (pot_time p0) _ rd2)|].
  by apply (set1_general_frame "start_time" (pot_time p0) _ rd2).
Qed.

(** [build_plugins] builds one plugin for every restraint name, in the
    order of the names, each from the general parameters and the
    parameters of that pair; what was in the plugin list before is gone,
    and the run data is not touched.  A name without a pair makes it
    raise. *)
Theorem build_plugins_one_per_name (cfg : PluginConfig) (rc rc' : RunConfig.t) :
  RunConfig.build_plugins cfg rc = Ok rc' →
  Forall2 (λ name pl,
             ∃ pair_params,
               RunData.pair_params (RunConfig.run_data rc) !! name = Some pair_params
               ∧ pl = build_plugin cfg
                        (RunData.general_params (RunConfig.run_data rc)) pair_params)
          (RunConfig.__names rc) (RunConfig.__plugins rc')
  ∧ length (RunConfig.__plugins rc') = length (RunConfig.__names rc)
  ∧ RunConfig.run_data rc' = RunConfig.run_data rc
  ∧ RunConfig.__names rc' = RunConfig.__names rc.
Proof.
  unfold RunConfig.build_plugins. intros (ps & Hps & [= <-])%bind_Ok. cbn.
  apply mapM_Ok_Forall2 in Hps.
  assert (Hall : Forall2 (λ name pl,
             ∃ pair_params,
               RunData.pair_params (RunConfig.run_data rc) !! name = Some pair_params
               ∧ pl = build_plugin cfg
                        (RunData.general_params (RunConfig.run_data rc)) pair_params)
          (RunConfig.__names rc) ps).
  { eapply Forall2_impl; [exact Hps|]. intros name pl Hpl. cbn in Hpl.
    destruct (RunData.pair_params (RunConfig.run_data rc) !! name) as [pp|]; [|done].
    injection Hpl as <-. by exists pp. }
  split; [done|]. split; [|done]. symmetry. by eapply Forall2_length.
Qed.

End PhaseResults.

Lemma training_records_its_targets_witness :
  ∃ rc w' rc',
    in_training = Ok rc
    ∧ @RunConfig.train_with scripted seen_targets rc member_disk = (w', Ok rc')
    ∧ History.check_targets seen_targets (RunData.history (RunConfig.run_data rc'))
      = Ok true.
Proof.
  assert (Hobs :
    match in_training with
    | Ok rc =>
        match @RunConfig.train_with scripted seen_targets rc member_disk with
        | (_, Ok _) =>
            Some (MetaData.required_parameters
                    (RunData.history (RunConfig.run_data rc)))
        | _ => None
        end
    | Raise _ => None
    end = Some None)
    by (vm_compute; reflexivity).
  destruct in_training as [rc|err]; [|discriminate Hobs].
  destruct (@RunConfig.train_with scripted seen_targets rc member_disk)
    as [w' [rc'|err]] eqn:Hrun; [|discriminate Hobs].
  assert (Hnone : MetaData.required_parameters
                    (RunData.history (RunConfig.run_data rc)) = None)
    by (by injection Hobs).
  exists rc, w', rc'. split; [reflexivity|]. split; [exact Hrun|].
  exact (training_records_its_targets (H := scripted) seen_targets rc rc'
           member_disk w' Hnone Hrun).
Defined.

Lemma convergence_records_end_time_witness :
  ∃ rc w' rc',
    in_phase "convergence" = Ok rc
    ∧ @RunConfig.__converge scripted rc (World ∅ ∅ "/") = (w', Ok rc')
    ∧ ∃ rc1 w1 p0 potentials,
        @RunConfig.build_plugins scripted ConvergencePluginConfig rc = Ok rc1
        ∧ session_run (Collaborators := scripted) (RunConfig.tpr rc) None
            (RunConfig.__plugins rc1) (cwd w1) w1
          = (w', Ok (p0 :: potentials))
        ∧ general_value "start_time" (RunConfig.run_data rc') = Some (pot_time p0)
        ∧ (∀ k, k ≠ "start_time" →
             general_value k (RunConfig.run_data rc')
             = general_value k (RunConfig.run_data rc))
        ∧ RunData.pair_params (RunConfig.run_data rc')
          = RunData.pair_params (RunConfig.run_data rc)
        ∧ RunData.history (RunConfig.run_data rc')
          = RunData.history (RunConfig.run_data rc).
Proof.
  assert (Hobs :
    match in_phase "convergence" with
    | Ok rc =>
        match @RunConfig.__converge scripted rc (World ∅ ∅ "/") with
        | (_, Ok _) => Some tt
        | _ => None
        end
    | Raise _ => None
    end = Some tt)
    by (vm_compute; reflexivity).
  destruct (in_phase "convergence") as [rc|err]; [|discriminate Hobs].
  destruct (@RunConfig.__converge scripted rc (World ∅ ∅ "/"))
    as [w' [rc'|err]] eqn:Hrun; [|discriminate Hobs].
  exists rc, w', rc'. split; [reflexivity|]. split; [exact Hrun|].
  exact (convergence_records_end_time (H := scripted) rc rc' (World ∅ ∅ "/") w' Hrun).
Defined.

Lemma build_plugins_one_per_name_witness :
  ∃ rc rc',
    in_training = Ok rc
    ∧ @RunConfig.build_plugins scripted TrainingPluginConfig rc = Ok rc'
    ∧ length (RunConfig.__plugins rc') = length (RunConfig.__names rc)
    ∧ RunConfig.run_data rc' = RunConfig.run_data rc.
Proof.
  assert (Hobs :
    match in_training with
    | Ok rc =>
        match @RunConfig.build_plugins scripted TrainingPluginConfig rc with
        | Ok _ => Some tt
        | _ => None
        end
    | Raise _ => None
    end = Some tt)
    by (vm_compute; reflexivity).
  destruct in_training as [rc|err]; [|discriminate Hobs].
  destruct (@RunConfig.build_plugins scripted TrainingPluginConfig rc)
    as [rc'|err] eqn:Hbuild; [|discriminate Hobs].
  destruct (build_plugins_one_per_name (H := scripted) TrainingPluginConfig rc rc'
              Hbuild) as (_ & Hlen & Hrd & _).
  exists rc, rc'. split; [reflexivity|]. split; [exact Hbuild|].
  split; [exact Hlen|exact Hrd].
Defined.

(** ** state.py: restarting a record *)

Lemma restart_dom (s : State.t) :
  State._required_keys s = State._required_keys (State.init None) →
  dom (State._state (State.restart s))
  = list_to_set (State.required_keys s) ∪ dom (State._state s).
Proof.
  intros Hreq. unfold State.required_keys. rewrite Hreq.
  unfold State.restart, State.set. cbn [State._state State._required_keys State.init].
  rewrite !dom_insert_L. cbn [list_to_set foldr].
  generalize (dom (State._state s)). intros X.
  apply set_eq. intros k. rewrite !elem_of_union, !elem_of_singleton.
  rewrite elem_of_empty. tauto.
Qed.

(** [restart] sets the six required keys and removes nothing, so the
    record it leaves is complete exactly when the record held no key
    outside the required ones before. *)
Theorem restart_complete_iff (s : State.t) :
  State._required_keys s = State._required_keys (State.init None) →
  State.is_complete_record (State.restart s) = true
  ↔ ∀ k, is_Some (State._state s !! k) → k ∈ State.required_keys s.
Proof.
  intros Hreq. unfold State.is_complete_record.
  assert (Hkeys : State.required_keys (State.restart s) = State.required_keys s)
    by reflexivity.
  rewrite Hkeys, bool_decide_eq_true, (restart_dom s Hreq).
  split.
  - intros Heq k Hk%elem_of_dom.
    apply (elem_of_list_to_set (C := gset string)). rewrite <- Heq.
    by apply elem_of_union_r.
  - intros Hall. apply set_eq. intros k. rewrite elem_of_union. split; [|tauto].
    intros [Hk|Hk%elem_of_dom]; [done|].
    apply elem_of_list_to_set. by apply Hall.
Qed.

Lemma restart_complete_iff_witness :
  State.is_complete_record (State.restart (State.init None)) = true
  ∧ State.is_complete_record (State.restart annotated_state) = false.
Proof.
  split.
  - apply (restart_complete_iff (State.init None) eq_refl).
    intros k [v Hk]. cbn in Hk. by rewrite lookup_empty in Hk.
  - apply not_true_is_false. intros Hcomplete.
    pose proof (proj1 (restart_complete_iff annotated_state eq_refl) Hcomplete
                  "note") as Hnote.
    assert (Hin : "note" ∈ State.required_keys annotated_state).
    { apply Hnote. unfold annotated_state, State.set. cbn [State._state].
      rewrite lookup_insert_eq. by eexists. }
    cbn in Hin. repeat (apply elem_of_cons in Hin as [Hin|Hin]; [discriminate Hin|]).
    by apply elem_of_nil in Hin.
Defined.

(** [restart] touches the six required keys only: whatever the record
    held under another key is still there, and a second [restart] changes
    nothing. *)
Theorem restart_keeps_other_keys (s : State.t) (k : string) :
  k ∉ State.required_keys (State.init None) →
  State.get k (State.restart s) = State.get k s
  ∧ State.restart (State.restart s) = State.restart s.
Proof.
  intros Hk. split.
  - unfold State.get, State.restart, State.set. cbn [State._state].
    cbn in Hk. rewrite !not_elem_of_cons in Hk.
    destruct Hk as (? & ? & ? & ? & ? & ? & _).
    by rewrite !lookup_insert_ne by done.
  - unfold State.restart, State.set. cbn [State._state State._required_keys].
    f_equal. apply map_eq. intros i.
    rewrite !lookup_insert. by repeat case_decide.
Qed.

Lemma restart_keeps_other_keys_witness :
  State.get "note" (State.restart annotated_state) = Ok (Item (VStr "rerun")).
Proof.
  assert (Hk : "note" ∉ State.required_keys (State.init None)).
  { cbn. rewrite !not_elem_of_cons. repeat (split; [discriminate|]).
    apply not_elem_of_nil. }
  rewrite (proj1 (restart_keeps_other_keys annotated_state "note" Hk)).
  unfold State.get, annotated_state, State.set. cbn [State._state].
  by rewrite lookup_insert_eq.
Defined.
